(** * Smart notice board: route handlers over a document store

    A shallow embedding of the Express route handlers of the notice-board
    backend (routes/notices.js, routes/comments.js, routes/notifications.js,
    middleware/auth.js) and of the Mongoose schemas they use
    (models/Notice.js, models/Comment.js, models/Notification.js).

    - An ObjectId is a natural number, a date is a natural number (a clock
      reading handed to every request).
    - A collection is the list of its documents in insertion order.
    - A handler is a function from the request and the database to the
      response and the new database; an exception caught by the handler's
      [try]/[catch] is the 500 response of that [catch].
    - Socket emissions do not touch the database and are left out. *)

From Stdlib Require Import List String Ascii Bool Arith PeanoNat Lia Sorted.
Import ListNotations.
Open Scope string_scope.
Open Scope nat_scope.

Set Implicit Arguments.

Definition ObjectId := nat.
Definition Date := nat.

(** ** JavaScript values *)

(** [a || b] on an optional string: [undefined] and the empty string are
    falsy. *)
Definition orDefault (o : option string) (d : string) : string :=
  match o with
  | Some s => if (s =? "")%string then d else s
  | None => d
  end.

(** Truthiness of an optional string. *)
Definition truthy (o : option string) : bool :=
  match o with
  | Some s => negb (s =? "")%string
  | None => false
  end.

Definition isSpace (c : ascii) : bool :=
  match nat_of_ascii c with
  | 9 | 10 | 11 | 12 | 13 | 32 => true
  | _ => false
  end.

Fixpoint trimStart (s : string) : string :=
  match s with
  | String c s' => if isSpace c then trimStart s' else s
  | EmptyString => EmptyString
  end.

(** [trimEnd s] drops the white space that ends [s]. *)
Fixpoint trimEnd (s : string) : string :=
  match s with
  | String c s' =>
      match trimEnd s' with
      | EmptyString => if isSpace c then EmptyString else String c EmptyString
      | t => String c t
      end
  | EmptyString => EmptyString
  end.

(** [String.prototype.trim] on strings of ASCII characters. *)
Definition trim (s : string) : string := trimEnd (trimStart s).

(** A document id as it arrives in a request: a string that is not a valid
    ObjectId, or an ObjectId. *)
Inductive IdArg : Type :=
| Malformed
| Oid (i : ObjectId).

(** What [jwt.verify] makes of the Authorization header: no header, a token
    that fails verification, or the user id the token carries. *)
Inductive Credential : Type :=
| NoToken
| BadToken
| TokenFor (userId : ObjectId).

(** ** Documents *)

(** Modelled from the spec: models/User.js is not among the sources.  The
    spec's data model gives a user an identity, a role among admin, faculty
    and student, a department, a year (students only) and an active flag; the
    routes also read the name and the email. *)
Module User.
Record t : Type := mk {
  _id : ObjectId;
  name : string;
  email : string;
  role : string;
  department : string;
  year : option string;
  isActive : bool
}.
End User.

Module View.
Record t : Type := mk { user : ObjectId; viewedAt : Date }.
End View.

Module Ack.
Record t : Type := mk { user : ObjectId; acknowledgedAt : Date }.
End Ack.

(** models/Notice.js (attachments, scheduledDate and expiresAt are not read
    by the routes below and are left out). *)
Module Notice.
Record t : Type := mk {
  _id : ObjectId;
  title : string;
  content : string;
  category : string;
  department : string;
  targetYear : option string;
  author : ObjectId;
  priority : string;
  status : string;
  views : list View.t;
  acknowledged : list Ack.t;
  isPinned : bool;
  isArchived : bool;
  createdAt : Date
}.

Definition with_views (n : t) (vs : list View.t) : t :=
  mk (_id n) (title n) (content n) (category n) (department n)
     (targetYear n) (author n) (priority n) (status n) vs
     (acknowledged n) (isPinned n) (isArchived n) (createdAt n).

Definition with_acknowledged (n : t) (acks : list Ack.t) : t :=
  mk (_id n) (title n) (content n) (category n) (department n)
     (targetYear n) (author n) (priority n) (status n) (views n)
     acks (isPinned n) (isArchived n) (createdAt n).
End Notice.

(** models/Comment.js (editedAt is not read by the routes below and is left
    out). *)
Module Comment.
Record t : Type := mk {
  _id : ObjectId;
  notice : ObjectId;
  author : ObjectId;
  content : string;
  parentComment : option ObjectId;
  replies : list ObjectId;
  isEdited : bool;
  isReply : bool;
  createdAt : Date
}.

Definition with_replies (c : t) (rs : list ObjectId) : t :=
  mk (_id c) (notice c) (author c) (content c) (parentComment c) rs
     (isEdited c) (isReply c) (createdAt c).
End Comment.

(** models/Notification.js *)
Module Notification.
Record t : Type := mk {
  _id : ObjectId;
  user : ObjectId;
  type : string;
  message : string;
  relatedNotice : option ObjectId;
  relatedComment : option ObjectId;
  isRead : bool;
  readAt : option Date;
  createdAt : Date
}.

Definition mark_read (n : t) (now : Date) : t :=
  mk (_id n) (user n) (type n) (message n) (relatedNotice n)
     (relatedComment n) true (Some now) (createdAt n).
End Notification.

(** ** The database *)

Record DB : Type := mkDB {
  users : list User.t;
  notices : list Notice.t;
  comments : list Comment.t;
  notifications : list Notification.t;
  (** the next ObjectId the driver hands out *)
  nextId : ObjectId
}.

Definition set_users (db : DB) (us : list User.t) : DB :=
  mkDB us (notices db) (comments db) (notifications db) (nextId db).
Definition set_notices (db : DB) (ns : list Notice.t) : DB :=
  mkDB (users db) ns (comments db) (notifications db) (nextId db).
Definition set_comments (db : DB) (cs : list Comment.t) : DB :=
  mkDB (users db) (notices db) cs (notifications db) (nextId db).
Definition set_notifications (db : DB) (ns : list Notification.t) : DB :=
  mkDB (users db) (notices db) (comments db) ns (nextId db).
Definition bump (db : DB) (k : nat) : DB :=
  mkDB (users db) (notices db) (comments db) (notifications db) (nextId db + k).

Section Collection.
Variable A : Type.
Variable id_of : A -> ObjectId.

(** [Model.findById] *)
Definition findById (i : ObjectId) (l : list A) : option A :=
  find (fun d => id_of d =? i) l.

(** [doc.save()] of a document that is already stored: the stored document
    with that id is replaced. *)
Definition save (d : A) (l : list A) : list A :=
  map (fun x => if id_of x =? id_of d then d else x) l.

(** [doc.save()] of a new document. *)
Definition insert (d : A) (l : list A) : list A := l ++ [d].

(** [doc.deleteOne()] *)
Definition deleteOne (i : ObjectId) (l : list A) : list A :=
  filter (fun x => negb (id_of x =? i)) l.

(** [Model.deleteMany(q)] *)
Definition deleteMany (q : A -> bool) (l : list A) : list A :=
  filter (fun x => negb (q x)) l.

(** Ids are unique in a collection. *)
Definition unique_ids (l : list A) : Prop := NoDup (map id_of l).
End Collection.

(** Equality of an optional reference with an id, as in a query
    [{ field: id }]. *)
Definition refers (o : option ObjectId) (i : ObjectId) : bool :=
  match o with
  | Some j => j =? i
  | None => false
  end.

(** ** Responses *)

(** The payload of a response.  Of the pagination summary of a listing only
    the total is kept. *)
Inductive Body : Type :=
| NoData
| NoticeList (l : list (Notice.t * nat)) (total : nat)
| NoticeData (n : Notice.t) (cs : list Comment.t)
| NoticeCreated (n : Notice.t)
| CommentData (c : Comment.t)
| AcknowledgedCount (k : nat).

Record Response : Type := mkResponse {
  code : nat;
  success : bool;
  message : string;
  data : Body
}.

Definition fail (c : nat) (msg : string) : Response :=
  mkResponse c false msg NoData.
Definition ok (c : nat) (msg : string) (b : Body) : Response :=
  mkResponse c true msg b.

(** The environment of a request: [process.env.NODE_ENV === 'production']
    and the reading of the clock ([Date.now], [new Date()]). *)
Record Ctx : Type := mkCtx {
  production : bool;
  now : Date
}.

(** ** middleware/auth.js *)

(** [authenticate]: the user of the token, who must exist and be active;
    otherwise the 401 response. *)
Definition authenticate (cred : Credential) (db : DB) : Response + User.t :=
  match cred with
  | NoToken => inl (fail 401 "Access denied. No token provided.")
  | BadToken => inl (fail 401 "Invalid token.")
  | TokenFor uid =>
      match findById User._id uid (users db) with
      | Some user =>
          if User.isActive user then inr user
          else inl (fail 401 "Invalid token or user not active.")
      | None => inl (fail 401 "Invalid token or user not active.")
      end
  end.

(** [isAdminOrFaculty]: [None] stands for [next()]. *)
Definition isAdminOrFaculty (user : User.t) : option Response :=
  if negb (User.role user =? "admin")%string
     && negb (User.role user =? "faculty")%string
  then Some (fail 403 "Access denied. Admin or Faculty only.")
  else None.

(** ** Actor resolution of the routes with a development fallback *)

(** The [_devAuthor...] fields of a request body. *)
Record DevFields : Type := mkDev {
  _devAuthorEmail : option string;
  _devAuthorName : option string;
  _devAuthorRole : option string;
  _devAuthorDepartment : option string;
  _devAuthorYear : option string
}.

Definition noDev : DevFields := mkDev None None None None None.

(** The [try] block that reads the bearer token: a missing or invalid token
    leaves the actor [null]. *)
Definition tokenUser (cred : Credential) (db : DB) : option User.t :=
  match cred with
  | TokenFor uid => findById User._id uid (users db)
  | NoToken | BadToken => None
  end.

(** Modelled from the spec: the validation of models/User.js, which is not
    among the sources; the spec's data model admits the roles admin, faculty
    and student. *)
Definition validRole (r : string) : bool :=
  ((r =? "admin") || (r =? "faculty") || (r =? "student"))%string.

(** [new User(fields); await user.save()]: [None] when the save throws. *)
Definition createUser (fields : ObjectId -> User.t) (db : DB)
  : option (User.t * DB) :=
  let user := fields (nextId db) in
  if validRole (User.role user)
  then Some (user, bump (set_users db (insert user (users db))) 1)
  else None.

Definition findByEmail (e : string) (l : list User.t) : option User.t :=
  find (fun u => (User.email u =? e)%string) l.

(** The actor of routes/comments.js.  [None]: an exception reached the
    handler's [catch]; [Some (None, db)]: no actor. *)
Definition commentActor (ctx : Ctx) (cred : Credential) (dev : DevFields)
  (db : DB) : option (option User.t * DB) :=
  match tokenUser cred db with
  | Some authorUser => Some (Some authorUser, db)
  | None =>
      if production ctx then Some (None, db)
      else
        let devEmail := orDefault (_devAuthorEmail dev) "dev-commenter@local" in
        match findByEmail devEmail (users db) with
        | Some authorUser => Some (Some authorUser, db)
        | None =>
            let devRole := orDefault (_devAuthorRole dev) "student" in
            let baseUser i :=
              User.mk i
                (orDefault (_devAuthorName dev)
                   (if (devRole =? "faculty")%string
                    then "Dev Faculty" else "Anonymous Student"))
                devEmail devRole
                (orDefault (_devAuthorDepartment dev) "General")
                (if (devRole =? "student")%string
                 then Some (orDefault (_devAuthorYear dev) "2025")
                 else None)
                true in
            match createUser baseUser db with
            | Some (authorUser, db') => Some (Some authorUser, db')
            | None => None
            end
        end
  end.

(** The actor of POST /notices; [department] is the body's department. *)
Definition noticeActor (ctx : Ctx) (cred : Credential) (dev : DevFields)
  (department : option string) (db : DB) : option (option User.t * DB) :=
  match tokenUser cred db with
  | Some authorUser => Some (Some authorUser, db)
  | None =>
      if production ctx then Some (None, db)
      else
        let devEmail := orDefault (_devAuthorEmail dev) "dev-admin@local" in
        match findByEmail devEmail (users db) with
        | Some authorUser => Some (Some authorUser, db)
        | None =>
            let fields i :=
              User.mk i
                (orDefault (_devAuthorName dev) "Dev Admin")
                devEmail
                (orDefault (_devAuthorRole dev) "admin")
                (orDefault department "All Departments")
                None true in
            match createUser fields db with
            | Some (authorUser, db') => Some (Some authorUser, db')
            | None => None
            end
        end
  end.

(** ** Sorting, skipping and limiting a result *)

Section Sort.
Variable A : Type.
Variable before : A -> A -> bool.

Fixpoint insertBy (x : A) (l : list A) : list A :=
  match l with
  | [] => [x]
  | y :: l' => if before x y then x :: l else y :: insertBy x l'
  end.

Fixpoint sortBy (l : list A) : list A :=
  match l with
  | [] => []
  | x :: l' => insertBy x (sortBy l')
  end.
End Sort.

(** [.limit(k)]: a limit of zero is no limit. *)
Definition limitTo (A : Type) (k : nat) (l : list A) : list A :=
  if k =? 0 then l else firstn k l.

(** ** routes/notices.js: GET /notices *)

Module ListReq.
Record t : Type := mk {
  (** [req.user], when a middleware upstream has set it *)
  user : option User.t;
  category : option string;
  department : option string;
  status : option string;
  search : option string;
  page : option nat;
  limit : option nat
}.
End ListReq.

(** One member of a [$or] array. *)
Inductive Cond : Type :=
| TitleRegex (pattern : string)
| ContentRegex (pattern : string)
| TargetYearIn (years : list (option string)).

(** The query object of GET /notices: one optional entry per key the
    handler may set. *)
Record Query : Type := mkQuery {
  q_isArchived : bool;
  q_category : option string;
  q_department : option (list string);
  q_status : option string;
  q_or : option (list Cond)
}.

Definition set_category (q : Query) (c : string) : Query :=
  mkQuery (q_isArchived q) (Some c) (q_department q) (q_status q) (q_or q).
Definition set_department (q : Query) (ds : list string) : Query :=
  mkQuery (q_isArchived q) (q_category q) (Some ds) (q_status q) (q_or q).
Definition set_status (q : Query) (s : string) : Query :=
  mkQuery (q_isArchived q) (q_category q) (q_department q) (Some s) (q_or q).
Definition set_or (q : Query) (cs : list Cond) : Query :=
  mkQuery (q_isArchived q) (q_category q) (q_department q) (q_status q) (Some cs).

(** [req.user && (req.user.role === 'student' || req.user.role === 'faculty')] *)
Definition studentOrFaculty (u : option User.t) : option User.t :=
  match u with
  | Some user =>
      if ((User.role user =? "student") || (User.role user =? "faculty"))%string
      then Some user else None
  | None => None
  end.

(** [req.user && req.user.role === 'student' && req.user.year]: the year. *)
Definition studentYear (u : option User.t) : option string :=
  match u with
  | Some user =>
      if (User.role user =? "student")%string && truthy (User.year user)
      then User.year user else None
  | None => None
  end.

(** [department && department !== 'all']: the department the caller asks
    for. *)
Definition explicitDepartment (department : option string) : option string :=
  match department with
  | Some d =>
      if negb (d =? "")%string && negb (d =? "all")%string then Some d else None
  | None => None
  end.

(** The query the handler builds, one assignment after the other. *)
Definition buildQuery (r : ListReq.t) : Query :=
  let query := mkQuery false None None None None in
  (* Filter by category *)
  let query :=
    match ListReq.category r with
    | Some category =>
        if negb (category =? "")%string && negb (category =? "all")%string
        then set_category query category else query
    | None => query
    end in
  (* Filter by department *)
  let query :=
    match explicitDepartment (ListReq.department r) with
    | Some department => set_department query [department; "All Departments"]
    | None =>
        match studentOrFaculty (ListReq.user r) with
        | Some user =>
            set_department query [User.department user; "All Departments"]
        | None => query
        end
    end in
  (* Filter by status *)
  let query :=
    match ListReq.status r with
    | Some status =>
        if negb (status =? "")%string
        then set_status query status else set_status query "published"
    | None => set_status query "published"
    end in
  (* Search in title and content *)
  let query :=
    match ListReq.search r with
    | Some search =>
        if negb (search =? "")%string
        then set_or query [TitleRegex search; ContentRegex search]
        else query
    | None => query
    end in
  (* Filter by target year for students *)
  let query :=
    match studentYear (ListReq.user r) with
    | Some year => set_or query [TargetYearIn [None; Some ""; Some year]]
    | None => query
    end in
  query.

Definition optStringEqb (a b : option string) : bool :=
  match a, b with
  | Some x, Some y => (x =? y)%string
  | None, None => true
  | _, _ => false
  end.

Definition stringIn (s : string) (l : list string) : bool :=
  existsb (String.eqb s) l.

(** Newest first. *)
Definition newerComment (a b : Comment.t) : bool :=
  Comment.createdAt b <=? Comment.createdAt a.

(** [{ isPinned: -1, createdAt: -1 }] *)
Definition pinnedThenNewer (a b : Notice.t) : bool :=
  match Notice.isPinned a, Notice.isPinned b with
  | true, false => true
  | false, true => false
  | _, _ => Notice.createdAt b <=? Notice.createdAt a
  end.

(** [Comment.countDocuments({ notice: id })] *)
Definition commentCount (i : ObjectId) (db : DB) : nat :=
  List.length (filter (fun c => Comment.notice c =? i) (comments db)).

Section Listing.
(** [regex_i pattern s]: the store's [{ $regex: pattern, $options: 'i' }]
    on the string [s]; the regular-expression engine belongs to the store. *)
Variable regex_i : string -> string -> bool.

Definition condHolds (n : Notice.t) (c : Cond) : bool :=
  match c with
  | TitleRegex pattern => regex_i pattern (Notice.title n)
  | ContentRegex pattern => regex_i pattern (Notice.content n)
  | TargetYearIn years => existsb (optStringEqb (Notice.targetYear n)) years
  end.

(** A notice matches the query: every key that is set holds, and [$or]
    holds when one of its members does. *)
Definition matches (q : Query) (n : Notice.t) : bool :=
  Bool.eqb (Notice.isArchived n) (q_isArchived q)
  && match q_category q with
     | Some c => (Notice.category n =? c)%string
     | None => true
     end
  && match q_department q with
     | Some ds => stringIn (Notice.department n) ds
     | None => true
     end
  && match q_status q with
     | Some s => (Notice.status n =? s)%string
     | None => true
     end
  && match q_or q with
     | Some cs => existsb (condHolds n) cs
     | None => true
     end.

(** GET /notices.  A page of zero with a positive limit is a negative skip,
    which the store refuses. *)
Definition listNotices (r : ListReq.t) (db : DB) : Response * DB :=
  let query := buildQuery r in
  let page := match ListReq.page r with Some p => p | None => 1 end in
  let limit := match ListReq.limit r with Some l => l | None => 20 end in
  if (page =? 0) && negb (limit =? 0)
  then (fail 500 "Failed to fetch notices", db)
  else
    let skip := (page - 1) * limit in
    let found :=
      limitTo limit
        (skipn skip (sortBy pinnedThenNewer (filter (matches query) (notices db)))) in
    let noticesWithComments :=
      map (fun notice => (notice, commentCount (Notice._id notice) db)) found in
    let total := List.length (filter (matches query) (notices db)) in
    (ok 200 "" (NoticeList noticesWithComments total), db).

(** The notices a response of GET /notices carries. *)
Definition listed (resp : Response) : list Notice.t :=
  match data resp with
  | NoticeList l _ => map fst l
  | _ => []
  end.
End Listing.

(** A regular expression without metacharacters matches the strings that
    contain it; with option [i], up to the case of ASCII letters. *)
Definition lower (c : ascii) : ascii :=
  let k := nat_of_ascii c in
  if (65 <=? k) && (k <=? 90) then ascii_of_nat (k + 32) else c.

Fixpoint lowerString (s : string) : string :=
  match s with
  | String c s' => String (lower c) (lowerString s')
  | EmptyString => EmptyString
  end.

Fixpoint contains (p s : string) : bool :=
  String.prefix p s
  || match s with
     | String _ s' => contains p s'
     | EmptyString => false
     end.

Definition literal_i (pattern s : string) : bool :=
  contains (lowerString pattern) (lowerString s).

(** ** routes/notices.js: GET /notices/:id *)

Module GetReq.
Record t : Type := mk {
  (** [req.user], when a middleware upstream has set it *)
  user : option User.t;
  id : IdArg
}.
End GetReq.

(** The view-recording step: a view is pushed, and the notice saved, only
    when the user has none yet; [viewedAt] defaults to the clock. *)
Definition recordView (ctx : Ctx) (user : User.t) (notice : Notice.t) (db : DB)
  : Notice.t * DB :=
  let hasViewed :=
    existsb (fun view => View.user view =? User._id user) (Notice.views notice) in
  if negb hasViewed
  then
    let notice' :=
      Notice.with_views notice
        (Notice.views notice ++ [View.mk (User._id user) (now ctx)]) in
    (notice', set_notices db (save Notice._id notice' (notices db)))
  else (notice, db).

Definition getNotice (ctx : Ctx) (r : GetReq.t) (db : DB) : Response * DB :=
  match GetReq.id r with
  | Malformed => (fail 500 "Failed to fetch notice", db)
  | Oid i =>
      match findById Notice._id i (notices db) with
      | None => (fail 404 "Notice not found", db)
      | Some notice =>
          let '(notice, db) :=
            match GetReq.user r with
            | Some user => recordView ctx user notice db
            | None => (notice, db)
            end in
          let found :=
            sortBy newerComment
              (filter (fun c => Comment.notice c =? Notice._id notice) (comments db)) in
          (ok 200 "" (NoticeData notice found), db)
      end
  end.

(** ** routes/notices.js: POST /notices *)

Module NoticeBody.
Record t : Type := mk {
  title : option string;
  content : option string;
  category : option string;
  department : option string;
  targetYear : option string;
  priority : option string;
  status : option string;
  dev : DevFields
}.
End NoticeBody.

(** A template literal prints a missing value as [undefined]. *)
Definition interpolate (o : option string) : string :=
  match o with
  | Some s => s
  | None => "undefined"
  end.

(** The [required] validator of a string path. *)
Definition required (o : option string) : option string :=
  match o with
  | Some s => if (s =? "")%string then None else Some s
  | None => None
  end.

(** An [enum] path with a default: the default when the value is missing,
    the value when it is listed, a validation error otherwise. *)
Definition enumOr (values : list string) (default : string) (o : option string)
  : option string :=
  match o with
  | None => Some default
  | Some s => if stringIn s values then Some s else None
  end.

(** [new Notice({...})] followed by [notice.save()]: the stored document, or
    [None] when the schema of models/Notice.js rejects it. *)
Definition newNotice (ctx : Ctx) (b : NoticeBody.t) (author i : ObjectId)
  : option Notice.t :=
  match required (option_map trim (NoticeBody.title b)),
        required (NoticeBody.content b),
        required (NoticeBody.category b),
        required (NoticeBody.department b),
        enumOr ["high"; "medium"; "low"] "medium" (NoticeBody.priority b),
        enumOr ["published"; "scheduled"; "draft"] "published" (NoticeBody.status b)
  with
  | Some title, Some content, Some category, Some department,
    Some priority, Some status =>
      if stringIn category ["academic"; "events"; "exams"; "circulars"]
      then Some (Notice.mk i title content category department
                   (NoticeBody.targetYear b) author priority status
                   [] [] false false (now ctx))
      else None
  | _, _, _, _, _, _ => None
  end.

(** [User.find] of the students to notify.  [department] is the body's
    department; the schema has required it and stored it unchanged by the
    time the handler gets here, so it is read from the saved notice. *)
Definition targetUsers (department : string) (us : list User.t) : list User.t :=
  if (department =? "All Departments")%string
  then filter (fun u => (User.role u =? "student")%string && User.isActive u) us
  else filter (fun u => (User.role u =? "student")%string
                        && (User.department u =? department)%string
                        && User.isActive u) us.

(** [Notification.insertMany]: the documents take consecutive fresh ids. *)
Fixpoint insertMany (docs : list (ObjectId -> Notification.t)) (db : DB) : DB :=
  match docs with
  | [] => db
  | d :: docs' =>
      insertMany docs'
        (bump (set_notifications db (insert (d (nextId db)) (notifications db))) 1)
  end.

Definition createNotice (ctx : Ctx) (cred : Credential) (b : NoticeBody.t)
  (db : DB) : Response * DB :=
  let title := NoticeBody.title b in
  let category := NoticeBody.category b in
  let department := NoticeBody.department b in
  let status := NoticeBody.status b in
  let failed := fail 500 "Failed to create notice" in
  match noticeActor ctx cred (NoticeBody.dev b) department db with
  | None => (failed, db)
  | Some (None, db) =>
      (fail 401 "Access denied. No valid token provided.", db)
  | Some (Some authorUser, db) =>
      if negb (User.role authorUser =? "admin")%string
         && negb (User.role authorUser =? "faculty")%string
      then (fail 403 "Access denied. Admin or Faculty only.", db)
      else
        match newNotice ctx b (User._id authorUser) (nextId db) with
        | None => (failed, db)
        | Some notice =>
            let db := bump (set_notices db (insert notice (notices db))) 1 in
            (* Create notifications for relevant users *)
            let db :=
              if optStringEqb status (Some "published")
              then
                let notifications :=
                  map (fun user i =>
                         Notification.mk i (User._id user) "new_notice"
                           ("New " ++ interpolate category ++ " notice: "
                              ++ interpolate title)
                           (Some (Notice._id notice)) None false None (now ctx))
                      (targetUsers (Notice.department notice) (users db)) in
                insertMany notifications db
              else db in
            (ok 201 "Notice created successfully" (NoticeCreated notice), db)
        end
  end.

(** ** routes/notices.js: DELETE /notices/:id *)

Definition deleteNotice (cred : Credential) (id : IdArg) (db : DB)
  : Response * DB :=
  match authenticate cred db with
  | inl denied => (denied, db)
  | inr user =>
      match isAdminOrFaculty user with
      | Some denied => (denied, db)
      | None =>
          match id with
          | Malformed => (fail 500 "Failed to delete notice", db)
          | Oid i =>
              match findById Notice._id i (notices db) with
              | None => (fail 404 "Notice not found", db)
              | Some notice =>
                  if negb (Notice.author notice =? User._id user)
                     && negb (User.role user =? "admin")%string
                  then (fail 403 "You can only delete your own notices", db)
                  else
                    (* Delete associated comments *)
                    let db :=
                      set_comments db
                        (deleteMany
                           (fun c => Comment.notice c =? Notice._id notice)
                           (comments db)) in
                    (* Delete associated notifications *)
                    let db :=
                      set_notifications db
                        (deleteMany
                           (fun n => refers (Notification.relatedNotice n)
                                       (Notice._id notice))
                           (notifications db)) in
                    let db :=
                      set_notices db
                        (deleteOne Notice._id (Notice._id notice) (notices db)) in
                    (ok 200 "Notice deleted successfully" NoData, db)
              end
          end
      end
  end.

(** ** routes/notices.js: POST /notices/:id/acknowledge *)

Definition acknowledgeNotice (ctx : Ctx) (cred : Credential) (id : IdArg)
  (db : DB) : Response * DB :=
  match authenticate cred db with
  | inl denied => (denied, db)
  | inr user =>
      match id with
      | Malformed => (fail 500 "Failed to acknowledge notice", db)
      | Oid i =>
          match findById Notice._id i (notices db) with
          | None => (fail 404 "Notice not found", db)
          | Some notice =>
              (* has the user acknowledged already? *)
              let hasAcknowledged :=
                existsb (fun ack => Ack.user ack =? User._id user)
                  (Notice.acknowledged notice) in
              let '(notice, db) :=
                if negb hasAcknowledged
                then
                  let notice' :=
                    Notice.with_acknowledged notice
                      (Notice.acknowledged notice
                         ++ [Ack.mk (User._id user) (now ctx)]) in
                  (notice', set_notices db (save Notice._id notice' (notices db)))
                else (notice, db) in
              (ok 200 "Notice acknowledged"
                 (AcknowledgedCount (List.length (Notice.acknowledged notice))),
               db)
          end
      end
  end.

(** ** routes/notifications.js *)

(** [Notification.findOne({ _id: id, user: userId })] *)
Definition findOwn (id userId : ObjectId) (l : list Notification.t)
  : option Notification.t :=
  find (fun n => (Notification._id n =? id) && (Notification.user n =? userId)) l.

(** PUT /notifications/:id/read *)
Definition markRead (ctx : Ctx) (cred : Credential) (id : IdArg) (db : DB)
  : Response * DB :=
  match authenticate cred db with
  | inl denied => (denied, db)
  | inr user =>
      match id with
      | Malformed => (fail 500 "Failed to mark notification as read", db)
      | Oid i =>
          match findOwn i (User._id user) (notifications db) with
          | None => (fail 404 "Notification not found", db)
          | Some notification =>
              let notification := Notification.mark_read notification (now ctx) in
              (ok 200 "Notification marked as read" NoData,
               set_notifications db
                 (save Notification._id notification (notifications db)))
          end
      end
  end.

(** DELETE /notifications/:id *)
Definition deleteNotification (cred : Credential) (id : IdArg) (db : DB)
  : Response * DB :=
  match authenticate cred db with
  | inl denied => (denied, db)
  | inr user =>
      match id with
      | Malformed => (fail 500 "Failed to delete notification", db)
      | Oid i =>
          match findOwn i (User._id user) (notifications db) with
          | None => (fail 404 "Notification not found", db)
          | Some notification =>
              (ok 200 "Notification deleted" NoData,
               set_notifications db
                 (deleteOne Notification._id (Notification._id notification)
                    (notifications db)))
          end
      end
  end.

(** ** routes/comments.js: POST /comments *)

Module CommentBody.
Record t : Type := mk {
  (** [None]: the key is missing or empty *)
  noticeId : option IdArg;
  content : option string;
  parentCommentId : option IdArg;
  dev : DevFields
}.
End CommentBody.

(** [!content || !String(content).trim()]: the content that passes. *)
Definition nonBlank (content : option string) : option string :=
  match content with
  | Some s => if (s =? "")%string || (trim s =? "")%string then None else Some s
  | None => None
  end.

(** The populated author of a notice: the user document, or [null] when no
    user has that id. *)
Definition populateAuthor (author : ObjectId) (db : DB) : option User.t :=
  findById User._id author (users db).

(** [new Notification({...}).save()] of a notification of type comment. *)
Definition notifyComment (ctx : Ctx) (recipient : ObjectId) (message : string)
  (notice : Notice.t) (comment : Comment.t) (db : DB) : DB :=
  bump
    (set_notifications db
       (insert
          (Notification.mk (nextId db) recipient "comment" message
             (Some (Notice._id notice)) (Some (Comment._id comment))
             false None (now ctx))
          (notifications db)))
    1.

(** The part of the handler that follows the parent check: the notification
    of the notice's author, then the notification of the parent comment's
    author, then the 201 response. *)
Definition notifyAndRespond (ctx : Ctx) (authorUser : User.t)
  (notice : Notice.t) (comment : Comment.t) (db : DB) : Response * DB :=
  (* Create notification for notice author if we have both authors *)
  let db :=
    match populateAuthor (Notice.author notice) db with
    | Some noticeAuthor =>
        if negb (User._id noticeAuthor =? User._id authorUser)
        then
          notifyComment ctx (User._id noticeAuthor)
            (User.name authorUser ++ " commented on your notice: "
               ++ Notice.title notice)
            notice comment db
        else db
    | None => db
    end in
  (* If this was a reply, notify the parent comment's author (if different) *)
  let db :=
    match Comment.parentComment comment with
    | Some parentId =>
        match findById Comment._id parentId (comments db) with
        | Some parent =>
            match populateAuthor (Comment.author parent) db with
            | Some parentAuthor =>
                if negb (User._id parentAuthor =? User._id authorUser)
                then
                  notifyComment ctx (User._id parentAuthor)
                    (User.name authorUser ++ " replied to your comment on: "
                       ++ Notice.title notice)
                    notice comment db
                else db
            | None => db
            end
        | None => db
        end
    | None => db
    end in
  (ok 201 "Comment added successfully" (CommentData comment), db).

Definition createComment (ctx : Ctx) (cred : Credential) (b : CommentBody.t)
  (db : DB) : Response * DB :=
  (* Basic validation *)
  match CommentBody.noticeId b with
  | None => (fail 400 "noticeId is required", db)
  | Some rawNoticeId =>
      match nonBlank (CommentBody.content b) with
      | None => (fail 400 "content is required", db)
      | Some content =>
        match rawNoticeId with
        | Malformed => (fail 400 "Invalid noticeId", db)
        | Oid noticeId =>
            match findById Notice._id noticeId (notices db) with
            | None => (fail 404 "Notice not found", db)
            | Some notice =>
                match commentActor ctx cred (CommentBody.dev b) db with
                | None => (fail 500 "Failed to add comment", db)
                | Some (None, db) =>
                    (fail 401 "Access denied. No valid token provided.", db)
                | Some (Some authorUser, db) =>
                    let comment :=
                      Comment.mk (nextId db) noticeId (User._id authorUser)
                        (trim content) None [] false false (now ctx) in
                    (* Save the comment first to ensure it has an _id *)
                    let db := bump (set_comments db (insert comment (comments db))) 1 in
                    match CommentBody.parentCommentId b with
                    | Some Malformed => (fail 400 "Invalid parentCommentId", db)
                    | Some (Oid parentCommentId) =>
                        match findById Comment._id parentCommentId (comments db) with
                        | None => (fail 404 "Parent comment not found", db)
                        | Some parentComment =>
                            if negb (Comment.notice parentComment =? noticeId)
                            then (fail 400 "Parent comment does not belong to this notice", db)
                            else
                              let parentComment :=
                                Comment.with_replies parentComment
                                  (Comment.replies parentComment ++ [Comment._id comment]) in
                              let db :=
                                set_comments db
                                  (save Comment._id parentComment (comments db)) in
                              notifyAndRespond ctx authorUser notice comment db
                        end
                    | None => notifyAndRespond ctx authorUser notice comment db
                    end
                end
            end
        end
      end
  end.

(** ** routes/comments.js: DELETE /comments/:id *)

Definition deleteComment (ctx : Ctx) (cred : Credential) (dev : DevFields)
  (id : IdArg) (db : DB) : Response * DB :=
  let failed := fail 500 "Failed to delete comment" in
  match id with
  | Malformed => (failed, db)
  | Oid i =>
      match findById Comment._id i (comments db) with
      | None => (fail 404 "Comment not found", db)
      | Some comment =>
          match commentActor ctx cred dev db with
          | None => (failed, db)
          | Some (None, db) =>
              (* [authorUser?.role] and [authorUser?._id.toString()] are
                 [undefined] on a missing actor: neither admin nor author *)
              (fail 403 "You can only delete your own comments", db)
          | Some (Some authorUser, db) =>
              let isAdmin := (User.role authorUser =? "admin")%string in
              let isAuthor := Comment.author comment =? User._id authorUser in
              if negb isAdmin && negb isAuthor
              then (fail 403 "You can only delete your own comments", db)
              else
                let db :=
                  match Comment.parentComment comment with
                  | None =>
                      (* If it's a parent comment, delete all replies too *)
                      set_comments db
                        (deleteMany
                           (fun c => refers (Comment.parentComment c)
                                       (Comment._id comment))
                           (comments db))
                  | Some parentId =>
                      (* If it's a reply, remove it from parent's replies array *)
                      match findById Comment._id parentId (comments db) with
                      | Some parentComment =>
                          let parentComment :=
                            Comment.with_replies parentComment
                              (filter (fun replyId => negb (replyId =? Comment._id comment))
                                 (Comment.replies parentComment)) in
                          set_comments db
                            (save Comment._id parentComment (comments db))
                      | None => db
                      end
                  end in
                let db :=
                  set_comments db
                    (deleteOne Comment._id (Comment._id comment) (comments db)) in
                (ok 200 "Comment deleted successfully" NoData, db)
          end
      end
  end.

(** ** middleware/auth.js: the other role guards *)

(** [isAdmin]: [None] stands for [next()]. *)
Definition isAdmin (user : User.t) : option Response :=
  if negb (User.role user =? "admin")%string
  then Some (fail 403 "Access denied. Admin only.")
  else None.

Definition isFaculty (user : User.t) : option Response :=
  if negb (User.role user =? "faculty")%string
  then Some (fail 403 "Access denied. Faculty only.")
  else None.

Definition isStudent (user : User.t) : option Response :=
  if negb (User.role user =? "student")%string
  then Some (fail 403 "Access denied. Student only.")
  else None.

(** ** routes/notices.js: PUT /notices/:id *)

Definition nonEmpty (s : string) : bool := negb (s =? "")%string.

(** The validation [notice.save()] runs on a loaded notice: the required
    paths and the enums of models/Notice.js. *)
Definition validNotice (n : Notice.t) : bool :=
  nonEmpty (Notice.title n)
  && nonEmpty (Notice.content n)
  && stringIn (Notice.category n) ["academic"; "events"; "exams"; "circulars"]
  && nonEmpty (Notice.department n)
  && stringIn (Notice.priority n) ["high"; "medium"; "low"]
  && stringIn (Notice.status n) ["published"; "scheduled"; "draft"].

(** The assignments of PUT /notices/:id followed by [notice.save()]: [None]
    when the schema rejects the notice.  The body is one without the keys
    scheduledDate and attachments, which the model of a notice leaves out. *)
Definition applyUpdate (b : NoticeBody.t) (notice : Notice.t) : option Notice.t :=
  let title := trim (orDefault (NoticeBody.title b) (Notice.title notice)) in
  let content := orDefault (NoticeBody.content b) (Notice.content notice) in
  let category := orDefault (NoticeBody.category b) (Notice.category notice) in
  let department := orDefault (NoticeBody.department b) (Notice.department notice) in
  let targetYear :=
    match NoticeBody.targetYear b with
    | Some t => Some t
    | None => Notice.targetYear notice
    end in
  let priority := orDefault (NoticeBody.priority b) (Notice.priority notice) in
  let status := orDefault (NoticeBody.status b) (Notice.status notice) in
  let updated :=
    Notice.mk (Notice._id notice) title content category department
      targetYear (Notice.author notice) priority status
      (Notice.views notice) (Notice.acknowledged notice)
      (Notice.isPinned notice) (Notice.isArchived notice)
      (Notice.createdAt notice) in
  if validNotice updated then Some updated else None.

Section Update.
(** Whether models/User.js, which is not among the sources, accepts the
    development user of PUT /notices/:id, who is built from a name, an
    email, a role and the active flag only. *)
Variable bareUserSaves : bool.

(** The acting user of PUT /notices/:id. *)
Definition updateActor (ctx : Ctx) (cred : Credential) (dev : DevFields)
  (db : DB) : option (option User.t * DB) :=
  match tokenUser cred db with
  | Some actingUser => Some (Some actingUser, db)
  | None =>
      if production ctx then Some (None, db)
      else
        let devEmail := orDefault (_devAuthorEmail dev) "dev-admin@local" in
        match findByEmail devEmail (users db) with
        | Some actingUser => Some (Some actingUser, db)
        | None =>
            let fields i :=
              User.mk i
                (orDefault (_devAuthorName dev) "Dev Admin")
                devEmail
                (orDefault (_devAuthorRole dev) "admin")
                "" None true in
            if bareUserSaves
            then
              match createUser fields db with
              | Some (actingUser, db') => Some (Some actingUser, db')
              | None => None
              end
            else None
        end
  end.

Definition updateNotice (ctx : Ctx) (cred : Credential) (id : IdArg)
  (b : NoticeBody.t) (db : DB) : Response * DB :=
  let failed := fail 500 "Failed to update notice" in
  match id with
  | Malformed => (failed, db)
  | Oid i =>
      match findById Notice._id i (notices db) with
      | None => (fail 404 "Notice not found", db)
      | Some notice =>
          match updateActor ctx cred (NoticeBody.dev b) db with
          | None => (failed, db)
          | Some (None, db) =>
              (fail 401 "Access denied. No valid token provided.", db)
          | Some (Some actingUser, db) =>
              (* the acting user must be the author or an admin *)
              if negb (Notice.author notice =? User._id actingUser)
                 && negb (User.role actingUser =? "admin")%string
              then (fail 403 "You can only edit your own notices", db)
              else
                match applyUpdate b notice with
                | None => (failed, db)
                | Some notice =>
                    (ok 200 "Notice updated successfully" (NoticeCreated notice),
                     set_notices db (save Notice._id notice (notices db)))
                end
          end
      end
  end.
End Update.

(** ** routes/comments.js: GET /comments/notice/:noticeId *)

Definition isNull (o : option ObjectId) : bool :=
  match o with
  | Some _ => false
  | None => true
  end.

(** The populated [replies] of a comment: the stored comments its reply ids
    name, in the order of the ids. *)
Definition populateReplies (c : Comment.t) (db : DB) : list Comment.t :=
  flat_map
    (fun replyId =>
       match findById Comment._id replyId (comments db) with
       | Some reply => [reply]
       | None => []
       end)
    (Comment.replies c).

(** The handler does not write; it answers with the top-level comments of
    the notice, newest first, each with its populated replies. *)
Definition getComments (noticeId : IdArg) (db : DB)
  : Response * list (Comment.t * list Comment.t) :=
  match noticeId with
  | Malformed => (fail 500 "Failed to fetch comments", [])
  | Oid i =>
      let found :=
        sortBy newerComment
          (filter (fun c => (Comment.notice c =? i)
                            && isNull (Comment.parentComment c))
             (comments db)) in
      (ok 200 "" NoData, map (fun c => (c, populateReplies c db)) found)
  end.

(** ** routes/comments.js: PUT /comments/:id *)

(** [comment.content = content; comment.isEdited = true] *)
Definition editComment (c : Comment.t) (content : string) : Comment.t :=
  Comment.mk (Comment._id c) (Comment.notice c) (Comment.author c) content
    (Comment.parentComment c) (Comment.replies c) true (Comment.isReply c)
    (Comment.createdAt c).

Definition updateComment (ctx : Ctx) (cred : Credential) (dev : DevFields)
  (id : IdArg) (content : option string) (db : DB) : Response * DB :=
  let failed := fail 500 "Failed to update comment" in
  match id with
  | Malformed => (failed, db)
  | Oid i =>
      match findById Comment._id i (comments db) with
      | None => (fail 404 "Comment not found", db)
      | Some comment =>
          match commentActor ctx cred dev db with
          | None => (failed, db)
          | Some (None, db) =>
              (fail 403 "You can only edit your own comments", db)
          | Some (Some authorUser, db) =>
              let isAdmin := (User.role authorUser =? "admin")%string in
              let isAuthor := Comment.author comment =? User._id authorUser in
              if negb isAdmin && negb isAuthor
              then (fail 403 "You can only edit your own comments", db)
              else
                match content with
                | None =>
                    (* the schema requires the content *)
                    (failed, db)
                | Some content =>
                    let content := trim content in
                    (* the schema requires the trimmed content *)
                    if nonEmpty content
                    then
                      let comment := editComment comment content in
                      (ok 200 "Comment updated successfully" (CommentData comment),
                       set_comments db (save Comment._id comment (comments db)))
                    else (failed, db)
                end
          end
      end
  end.

(** ** routes/notifications.js: GET /notifications, PUT /notifications/read-all *)

Module NotifReq.
Record t : Type := mk {
  page : option nat;
  limit : option nat;
  unreadOnly : option string
}.
End NotifReq.

(** What GET /notifications answers with: the page of notifications, the
    count of the user's unread notifications and the total of the query. *)
Record NotificationPage : Type := mkPage {
  items : list Notification.t;
  unreadCount : nat;
  total : nat
}.

Definition newerNotification (a b : Notification.t) : bool :=
  Notification.createdAt b <=? Notification.createdAt a.

(** [populate('relatedNotice', 'title category')] finds the related notice:
    the notification refers to a notice that is stored. *)
Definition populated (n : Notification.t) (db : DB) : bool :=
  match Notification.relatedNotice n with
  | Some i =>
      match findById Notice._id i (notices db) with
      | Some _ => true
      | None => false
      end
  | None => false
  end.

(** The query of GET /notifications. *)
Definition ownQuery (userId : ObjectId) (unreadOnly : option string)
  (n : Notification.t) : bool :=
  (Notification.user n =? userId)
  && (if optStringEqb unreadOnly (Some "true")
      then negb (Notification.isRead n) else true).

(** The handler does not write.  A related notice is populated with its
    title and category only, and models/Notice.js puts the virtuals
    viewCount and acknowledgedCount, which read the length of views and of
    acknowledged, into the JSON of a notice: [res.json] throws on a page that
    holds a populated notice, and the [catch] answers 500. *)
Definition listNotifications (cred : Credential) (r : NotifReq.t) (db : DB)
  : Response * option NotificationPage :=
  match authenticate cred db with
  | inl denied => (denied, None)
  | inr user =>
      let failed := (fail 500 "Failed to fetch notifications", None) in
      let page := match NotifReq.page r with Some p => p | None => 1 end in
      let limit := match NotifReq.limit r with Some l => l | None => 20 end in
      if (page =? 0) && negb (limit =? 0)
      then failed
      else
        let query := ownQuery (User._id user) (NotifReq.unreadOnly r) in
        let skip := (page - 1) * limit in
        let found :=
          limitTo limit
            (skipn skip
               (sortBy newerNotification (filter query (notifications db)))) in
        let unread :=
          List.length
            (filter (fun n => (Notification.user n =? User._id user)
                              && negb (Notification.isRead n))
               (notifications db)) in
        if existsb (fun n => populated n db) found
        then failed
        else
          (ok 200 "" NoData,
           Some (mkPage found unread
                   (List.length (filter query (notifications db)))))
  end.

(** [Notification.updateMany({ user, isRead: false }, { isRead: true, readAt })] *)
Definition markAllRead (ctx : Ctx) (cred : Credential) (db : DB) : Response * DB :=
  match authenticate cred db with
  | inl denied => (denied, db)
  | inr user =>
      (ok 200 "All notifications marked as read" NoData,
       set_notifications db
         (map (fun n =>
                 if (Notification.user n =? User._id user)
                    && negb (Notification.isRead n)
                 then Notification.mark_read n (now ctx) else n)
            (notifications db)))
  end.

(** ** routes/users.js: DELETE /users/:id *)

Definition deleteUser (cred : Credential) (id : IdArg) (db : DB) : Response * DB :=
  match authenticate cred db with
  | inl denied => (denied, db)
  | inr reqUser =>
      match isAdmin reqUser with
      | Some denied => (denied, db)
      | None =>
          match id with
          | Malformed => (fail 500 "Failed to delete user", db)
          | Oid i =>
              match findById User._id i (users db) with
              | None => (fail 404 "User not found", db)
              | Some user =>
                  (* Prevent admin from deleting themselves *)
                  if User._id user =? User._id reqUser
                  then (fail 400 "You cannot delete your own account", db)
                  else
                    (ok 200 "User deleted successfully" NoData,
                     set_users db (deleteOne User._id (User._id user) (users db)))
              end
          end
      end
  end.

(** ** The seed data of seeders/seedDatabase.js *)

Module Seed.
Definition admin : User.t :=
  User.mk 1 "Dr. Rajesh Kumar" "admin@vignan.edu" "admin" "Administration" None true.
Definition faculty1 : User.t :=
  User.mk 2 "Prof. Sarah Johnson" "sarah.johnson@vignan.edu" "faculty" "CSE" None true.
Definition faculty2 : User.t :=
  User.mk 3 "Dr. Amit Patel" "amit.patel@vignan.edu" "faculty" "ECE" None true.
Definition faculty3 : User.t :=
  User.mk 4 "Prof. Meera Singh" "meera.singh@vignan.edu" "faculty" "IT" None true.
Definition student0 : User.t :=
  User.mk 5 "Rahul Sharma" "rahul.sharma@student.vignan.edu" "student" "CSE"
    (Some "3rd Year") true.
Definition student1 : User.t :=
  User.mk 6 "Priya Reddy" "priya.reddy@student.vignan.edu" "student" "CSE"
    (Some "3rd Year") true.
Definition student2 : User.t :=
  User.mk 7 "Arjun Krishnan" "arjun.k@student.vignan.edu" "student" "ECE"
    (Some "2nd Year") true.
Definition student3 : User.t :=
  User.mk 8 "Sneha Gupta" "sneha.gupta@student.vignan.edu" "student" "IT"
    (Some "4th Year") true.

Definition notice1 : Notice.t :=
  Notice.mk 9 "Mid-Term Examination Schedule - December 2024"
    "The mid-term examinations for all departments will commence from December 15th, 2024."
    "exams" "All Departments" None 1 "high" "published"
    [View.mk 5 0; View.mk 6 0; View.mk 7 0] [Ack.mk 5 0; Ack.mk 6 0]
    false false 0.
Definition notice2 : Notice.t :=
  Notice.mk 10 "Annual Tech Fest 2024 - Call for Participation"
    "We are excited to announce our Annual Tech Fest."
    "events" "CSE" (Some "3rd Year") 2 "medium" "published"
    [View.mk 5 1; View.mk 6 1] [] false false 1.
Definition notice3 : Notice.t :=
  Notice.mk 11 "Workshop on Artificial Intelligence and Machine Learning"
    "A two-day intensive workshop on AI/ML will be conducted on December 10-11, 2024."
    "academic" "CSE" None 2 "high" "published"
    [View.mk 5 2] [Ack.mk 5 2] false false 2.
Definition notice4 : Notice.t :=
  Notice.mk 12 "Library Hours Extended During Exam Week"
    "The central library will remain open from 7:00 AM to 11:00 PM during the examination week."
    "circulars" "All Departments" None 1 "medium" "published" [] [] false false 3.
Definition notice5 : Notice.t :=
  Notice.mk 13 "Placement Drive - TCS On-Campus Recruitment"
    "TCS will be conducting an on-campus recruitment drive on December 18-19, 2024."
    "events" "All Departments" (Some "4th Year") 1 "high" "published"
    [View.mk 8 4] [Ack.mk 8 4] false false 4.

Definition comment1 : Comment.t :=
  Comment.mk 14 10 5 "This sounds exciting! Can we get more details about the events?"
    None [] false false 5.
Definition comment2 : Comment.t :=
  Comment.mk 15 10 2 "Detailed event schedule will be shared next week. Stay tuned!"
    None [] false false 5.
Definition comment3 : Comment.t :=
  Comment.mk 16 11 6 "Is registration open for all years or only 3rd year?"
    None [] false false 5.
Definition comment4 : Comment.t :=
  Comment.mk 17 11 2 "Registration is open for 2nd, 3rd, and 4th year students."
    None [] false false 5.

Definition db : DB :=
  mkDB [admin; faculty1; faculty2; faculty3; student0; student1; student2; student3]
       [notice1; notice2; notice3; notice4; notice5]
       [comment1; comment2; comment3; comment4]
       []
       18.
End Seed.

(** ** Vocabulary of the properties and sample data *)

(** The view entries of a user in a notice. *)
Definition viewsOf (u : ObjectId) (n : Notice.t) : list View.t :=
  filter (fun view => View.user view =? u) (Notice.views n).

(** The acknowledgment entries of a user in a notice. *)
Definition acksOf (u : ObjectId) (n : Notice.t) : list Ack.t :=
  filter (fun ack => Ack.user ack =? u) (Notice.acknowledged n).

(** The number of distinct users who acknowledged a notice. *)
Definition acknowledgers (n : Notice.t) : nat :=
  List.length (nodup Nat.eq_dec (map Ack.user (Notice.acknowledged n))).

(** The invariant of the data model: a user appears at most once in the
    views and at most once in the acknowledgments. *)
Definition once_per_user (n : Notice.t) : Prop :=
  NoDup (map View.user (Notice.views n))
  /\ NoDup (map Ack.user (Notice.acknowledged n)).

(** The listing a CSE third-year student asks for, without any filter. *)
Definition studentListing : ListReq.t :=
  ListReq.mk (Some Seed.student0) None None None None None None.

(** The same student searches for the word library. *)
Definition studentSearch : ListReq.t :=
  ListReq.mk (Some Seed.student0) None None None (Some "library") None None.

(** A database with a comment thread and notifications on the tech-fest
    notice of the seed data. *)
Definition threaded : DB :=
  mkDB (users Seed.db) (notices Seed.db)
       [ Comment.mk 14 10 5 "Can we get more details?" None [18; 19] false false 5;
         Comment.mk 18 10 2 "Next week." (Some 14) [] false false 6;
         Comment.mk 19 10 6 "Thanks!" (Some 14) [] false false 7;
         Seed.comment3 ]
       [ Notification.mk 20 5 "new_notice" "New events notice: Annual Tech Fest"
           (Some 10) None false None 1;
         Notification.mk 21 2 "comment" "Rahul Sharma commented on your notice"
           (Some 10) (Some 14) false None 5;
         Notification.mk 22 6 "new_notice" "New academic notice: Workshop"
           (Some 11) None false None 2 ]
       23.

(** The comment POST /comments builds: it names no parent. *)
Definition newComment (ctx : Ctx) (noticeId : ObjectId) (author : User.t)
  (content : string) (db : DB) : Comment.t :=
  Comment.mk (nextId db) noticeId (User._id author) (trim content)
    None [] false false (now ctx).

(** The documents [insertMany] stores, numbered from a first id. *)
Fixpoint numbered (docs : list (ObjectId -> Notification.t)) (i : ObjectId)
  : list Notification.t :=
  match docs with
  | [] => []
  | d :: docs' => d i :: numbered docs' (S i)
  end.

(** A circular as the body of POST /notices. *)
Definition circular (department : string) (status : option string)
  : NoticeBody.t :=
  NoticeBody.mk (Some "Holiday") (Some "The campus is closed on Monday.")
    (Some "circulars") (Some department) None None status noDev.

(** A collection is well formed below [k]: its ids are unique and smaller
    than [k]. *)
Definition wfc (A : Type) (id_of : A -> ObjectId) (k : ObjectId) (l : list A)
  : Prop :=
  NoDup (map id_of l) /\ Forall (fun i => i < k) (map id_of l).

(** A database is well formed: every collection is, below the next id. *)
Definition wf (db : DB) : Prop :=
  wfc User._id (nextId db) (users db)
  /\ wfc Notice._id (nextId db) (notices db)
  /\ wfc Comment._id (nextId db) (comments db)
  /\ wfc Notification._id (nextId db) (notifications db).

(** Every stored notice satisfies the once-per-user invariant. *)
Definition all_once (db : DB) : Prop := Forall once_per_user (notices db).

(** The unread notifications of a user. *)
Definition unreadOf (u : ObjectId) (db : DB) : list Notification.t :=
  filter (fun n => (Notification.user n =? u) && negb (Notification.isRead n))
    (notifications db).

(** The unrestricted listing: no viewer, no filter, first page, no limit. *)
Definition publicListing : ListReq.t :=
  ListReq.mk None None None None None (Some 1) (Some 0).


(** A notice may stand before another in a listing: it is pinned when the
    other is, and when both are pinned alike it is not the older one. *)
Definition ranksBefore (a b : Notice.t) : Prop :=
  (Notice.isPinned b = true -> Notice.isPinned a = true)
  /\ (Notice.isPinned a = Notice.isPinned b ->
      Notice.createdAt b <= Notice.createdAt a).

(** [threaded] with a system notification for the ECE student, which
    refers to no notice. *)
Definition announced : DB :=
  set_notifications threaded
    (notifications threaded ++
     [Notification.mk 23 7 "system" "Welcome to the notice board" None None
        false None 8]).

(** * Properties *)

Unset Implicit Arguments.

Ltac nodup_nat :=
  repeat (constructor; [simpl; intuition discriminate|]); constructor.

(** ** Collections *)

Section CollectionFacts.
Variable A : Type.
Variable id_of : A -> ObjectId.

Lemma findById_Some (i : ObjectId) (l : list A) (d : A) :
  findById id_of i l = Some d -> In d l /\ id_of d = i.
Proof.
  unfold findById. intros H. apply find_some in H.
  destruct H as [Hin Heq]. apply Nat.eqb_eq in Heq. auto.
Qed.

Lemma findById_None (i : ObjectId) (l : list A) :
  findById id_of i l = None <-> (forall d, In d l -> id_of d <> i).
Proof.
  unfold findById. split.
  - intros H d Hin Heq. apply (find_none _ _ H) in Hin.
    apply Nat.eqb_neq in Hin. contradiction.
  - induction l as [|x l IH]; simpl; intros H; [reflexivity|].
    destruct (id_of x =? i) eqn:E.
    + apply Nat.eqb_eq in E. exfalso. apply (H x); auto.
    + apply IH. intros d Hd. apply H. auto.
Qed.

(** After a save, the document read back under its id is the saved one. *)
Lemma findById_save (d x : A) (l : list A) :
  findById id_of (id_of d) l = Some x ->
  findById id_of (id_of d) (save id_of d l) = Some d.
Proof.
  unfold findById, save. induction l as [|y l IH]; simpl; [discriminate|].
  destruct (id_of y =? id_of d) eqn:E; simpl.
  - intros _. rewrite Nat.eqb_refl. reflexivity.
  - rewrite E. exact IH.
Qed.

(** A save leaves the documents of other ids as they are. *)
Lemma findById_save_other (d : A) (j : ObjectId) (l : list A) :
  j <> id_of d ->
  findById id_of j (save id_of d l) = findById id_of j l.
Proof.
  intros Hne. unfold findById, save. induction l as [|y l IH]; simpl; [reflexivity|].
  destruct (id_of y =? id_of d) eqn:E.
  - apply Nat.eqb_eq in E.
    assert (Hd : (id_of d =? j) = false) by (apply Nat.eqb_neq; congruence).
    assert (Hy : (id_of y =? j) = false) by (apply Nat.eqb_neq; congruence).
    rewrite Hd, Hy. exact IH.
  - destruct (id_of y =? j); [reflexivity | exact IH].
Qed.

Lemma findById_deleteOne (i : ObjectId) (l : list A) :
  findById id_of i (deleteOne id_of i l) = None.
Proof.
  apply findById_None. intros d Hd. unfold deleteOne in Hd.
  apply filter_In in Hd. destruct Hd as [_ Hd].
  apply negb_true_iff, Nat.eqb_neq in Hd. exact Hd.
Qed.

Lemma findById_deleteOne_other (i j : ObjectId) (l : list A) :
  j <> i ->
  findById id_of j (deleteOne id_of i l) = findById id_of j l.
Proof.
  intros Hne. unfold findById, deleteOne.
  induction l as [|y l IH]; simpl; [reflexivity|].
  destruct (id_of y =? i) eqn:E; simpl.
  - apply Nat.eqb_eq in E.
    assert (Hy : (id_of y =? j) = false) by (apply Nat.eqb_neq; congruence).
    rewrite Hy. exact IH.
  - destruct (id_of y =? j); [reflexivity | exact IH].
Qed.

(** In a collection with unique ids, a document is the one found under its
    id. *)
Lemma unique_findById (l : list A) (d : A) :
  unique_ids id_of l -> In d l -> findById id_of (id_of d) l = Some d.
Proof.
  unfold unique_ids, findById. induction l as [|y l IH]; simpl; [tauto|].
  intros Hnd [Heq | Hin].
  - subst y. rewrite Nat.eqb_refl. reflexivity.
  - inversion Hnd as [|? ? Hnotin Hnd']; subst.
    destruct (id_of y =? id_of d) eqn:E.
    + apply Nat.eqb_eq in E. exfalso. apply Hnotin. rewrite E.
      apply in_map. exact Hin.
    + apply IH; assumption.
Qed.
End CollectionFacts.

(** At most one element of a list without duplicate keys has a given key. *)
Lemma filter_key_NoDup (A : Type) (key : A -> nat) (k : nat) (l : list A) :
  NoDup (map key l) ->
  List.length (filter (fun x => key x =? k) l) <= 1.
Proof.
  induction l as [|x l IH]; simpl; intros Hnd; [lia|].
  inversion Hnd as [|? ? Hnotin Hnd']; subst.
  destruct (key x =? k) eqn:E; [|auto].
  apply Nat.eqb_eq in E. simpl.
  assert (Hnil : filter (fun y => key y =? k) l = []).
  { destruct (filter (fun y => key y =? k) l) as [|z t] eqn:F; [reflexivity|].
    exfalso. apply Hnotin.
    assert (Hz : In z (filter (fun y => key y =? k) l)) by (rewrite F; left; reflexivity).
    apply filter_In in Hz. destruct Hz as [Hz Hk]. apply Nat.eqb_eq in Hk.
    rewrite E, <- Hk. apply in_map. exact Hz. }
  rewrite Hnil. simpl. lia.
Qed.

Lemma existsb_filter_nil (A : Type) (p : A -> bool) (l : list A) :
  existsb p l = false <-> filter p l = [].
Proof.
  induction l as [|x l IH]; simpl; [tauto|].
  destruct (p x); simpl; [split; discriminate | exact IH].
Qed.

(** ** Views and acknowledgments *)

Lemma NoDup_snoc (l : list nat) (x : nat) :
  NoDup l -> ~ In x l -> NoDup (l ++ [x]).
Proof.
  induction l as [|y l IH]; simpl; intros Hnd Hnot.
  - constructor; [tauto | constructor].
  - inversion Hnd as [|? ? Hy Hnd']; subst. constructor.
    + rewrite in_app_iff. simpl. intros [H | [H | []]]; [tauto|].
      apply Hnot. left. symmetry. exact H.
    + apply IH; [exact Hnd' | tauto].
Qed.

Lemma existsb_key_false (A : Type) (key : A -> nat) (k : nat) (l : list A) :
  existsb (fun x => key x =? k) l = false -> ~ In k (map key l).
Proof.
  intros H Hin. apply in_map_iff in Hin. destruct Hin as [x [Hk Hx]].
  rewrite <- not_true_iff_false in H. apply H.
  apply existsb_exists. exists x. split; [exact Hx | apply Nat.eqb_eq; exact Hk].
Qed.

(** A first view appends one entry stamped with the clock; a later view
    changes nothing. *)
Lemma recordView_first (ctx : Ctx) (user : User.t) (notice : Notice.t) (db : DB) :
  viewsOf (User._id user) notice = [] ->
  recordView ctx user notice db =
    (Notice.with_views notice
       (Notice.views notice ++ [View.mk (User._id user) (now ctx)]),
     set_notices db
       (save Notice._id
          (Notice.with_views notice
             (Notice.views notice ++ [View.mk (User._id user) (now ctx)]))
          (notices db))).
Proof.
  intros H. unfold recordView, viewsOf in *.
  apply existsb_filter_nil in H. rewrite H. reflexivity.
Qed.

Lemma recordView_again (ctx : Ctx) (user : User.t) (notice : Notice.t) (db : DB) :
  viewsOf (User._id user) notice <> [] ->
  recordView ctx user notice db = (notice, db).
Proof.
  intros H. unfold recordView, viewsOf in *.
  destruct (existsb (fun view => View.user view =? User._id user) (Notice.views notice)) eqn:E.
  - reflexivity.
  - apply existsb_filter_nil in E. contradiction.
Qed.

(** The view-recording step keeps the invariant. *)
Lemma recordView_once_per_user (ctx : Ctx) (user : User.t) (notice : Notice.t)
  (db : DB) :
  once_per_user notice -> once_per_user (fst (recordView ctx user notice db)).
Proof.
  intros [Hv Ha]. unfold recordView.
  destruct (existsb (fun view => View.user view =? User._id user) (Notice.views notice)) eqn:E;
    simpl; [split; assumption|].
  split; [|exact Ha]. simpl. rewrite map_app. simpl.
  apply NoDup_snoc; [exact Hv|].
  apply (existsb_key_false _ View.user _ _ E).
Qed.

Lemma getNotice_found (ctx : Ctx) (user : User.t) (i : ObjectId) (db : DB)
  (notice : Notice.t) :
  findById Notice._id i (notices db) = Some notice ->
  code (fst (getNotice ctx (GetReq.mk (Some user) (Oid i)) db)) = 200
  /\ snd (getNotice ctx (GetReq.mk (Some user) (Oid i)) db)
     = snd (recordView ctx user notice db).
Proof.
  intros H. unfold getNotice. simpl. rewrite H.
  destruct (recordView ctx user notice db) as [n' db']. simpl. auto.
Qed.

(** C4. Two reads of a notice by the same user, at the clock readings of
    [ctx1] and then [ctx2], both succeed; the second read leaves the database
    as the first left it; the stored notice then holds exactly one view entry
    of that user, which is the entry the notice already had, or else the one
    stamped by the first read. *)
Theorem view_recorded_once (ctx1 ctx2 : Ctx) (user : User.t) (i : ObjectId)
  (db : DB) (notice : Notice.t) :
  findById Notice._id i (notices db) = Some notice ->
  once_per_user notice ->
  let r := GetReq.mk (Some user) (Oid i) in
  let first := getNotice ctx1 r db in
  let second := getNotice ctx2 r (snd first) in
  code (fst first) = 200 /\ code (fst second) = 200
  /\ snd second = snd first
  /\ exists notice' entry,
       findById Notice._id i (notices (snd second)) = Some notice'
       /\ viewsOf (User._id user) notice' = [entry]
       /\ (viewsOf (User._id user) notice = []
           -> entry = View.mk (User._id user) (now ctx1))
       /\ (forall old, In old (viewsOf (User._id user) notice) -> entry = old).
Proof.
  intros Hfind [Hnd _] r first second.
  destruct (findById_Some _ _ _ _ _ Hfind) as [_ Hid].
  destruct (getNotice_found ctx1 user i db notice Hfind) as [Hc1 Hs1].
  fold r in Hc1, Hs1. fold first in Hc1, Hs1.
  destruct (viewsOf (User._id user) notice) as [|old rest] eqn:Hviews.
  - (* the user has not viewed the notice yet *)
    rewrite (recordView_first ctx1 _ _ db Hviews) in Hs1. simpl in Hs1.
    set (notice1 := Notice.with_views notice
                      (Notice.views notice ++ [View.mk (User._id user) (now ctx1)])) in *.
    assert (Hfind1 : findById Notice._id i (notices (snd first)) = Some notice1).
    { rewrite Hs1. simpl. rewrite <- Hid.
      change (Notice._id notice) with (Notice._id notice1).
      apply findById_save with (x := notice).
      change (Notice._id notice1) with (Notice._id notice). rewrite Hid. exact Hfind. }
    assert (Hviews1 : viewsOf (User._id user) notice1
                      = [View.mk (User._id user) (now ctx1)]).
    { unfold viewsOf in *. simpl. rewrite filter_app, Hviews. simpl.
      rewrite Nat.eqb_refl. reflexivity. }
    destruct (getNotice_found ctx2 user i (snd first) _ Hfind1) as [Hc2 Hs2].
    fold r in Hc2, Hs2. fold second in Hc2, Hs2.
    rewrite recordView_again in Hs2 by (rewrite Hviews1; discriminate).
    simpl in Hs2.
    repeat split; try assumption.
    exists notice1, (View.mk (User._id user) (now ctx1)).
    rewrite Hs2. repeat split; try assumption. intros old [].
  - (* the user has viewed it before *)
    rewrite recordView_again in Hs1 by (rewrite Hviews; discriminate).
    simpl in Hs1.
    assert (Hfind1 : findById Notice._id i (notices (snd first)) = Some notice)
      by (rewrite Hs1; exact Hfind).
    destruct (getNotice_found ctx2 user i (snd first) _ Hfind1) as [Hc2 Hs2].
    fold r in Hc2, Hs2. fold second in Hc2, Hs2.
    rewrite recordView_again in Hs2 by (rewrite Hviews; discriminate).
    simpl in Hs2.
    assert (Hrest : rest = []).
    { pose proof (filter_key_NoDup _ View.user (User._id user) _ Hnd) as Hlen.
      unfold viewsOf in Hviews. rewrite Hviews in Hlen. simpl in Hlen.
      destruct rest; [reflexivity | simpl in Hlen; lia]. }
    subst rest.
    repeat split; try assumption.
    exists notice, old. rewrite Hs2.
    repeat split; try assumption; [discriminate|].
    intros old' [H | []]. exact H.
Qed.

Lemma view_recorded_once_witness :
  let r := GetReq.mk (Some Seed.student2) (Oid 10) in
  let first := getNotice (mkCtx false 100) r Seed.db in
  let second := getNotice (mkCtx false 200) r (snd first) in
  code (fst first) = 200 /\ code (fst second) = 200
  /\ snd second = snd first
  /\ exists notice' entry,
       findById Notice._id 10 (notices (snd second)) = Some notice'
       /\ viewsOf 7 notice' = [entry]
       /\ (viewsOf 7 Seed.notice2 = [] -> entry = View.mk 7 100)
       /\ (forall old, In old (viewsOf 7 Seed.notice2) -> entry = old).
Proof.
  apply (view_recorded_once (mkCtx false 100) (mkCtx false 200)
           Seed.student2 10 Seed.db Seed.notice2).
  - reflexivity.
  - split; simpl; nodup_nat.
Defined.

(** What the acknowledge handler does once the user is authenticated and the
    notice found. *)
Lemma acknowledge_found (ctx : Ctx) (cred : Credential) (user : User.t)
  (i : ObjectId) (db : DB) (notice : Notice.t) :
  authenticate cred db = inr user ->
  findById Notice._id i (notices db) = Some notice ->
  acknowledgeNotice ctx cred (Oid i) db =
    if existsb (fun ack => Ack.user ack =? User._id user) (Notice.acknowledged notice)
    then (ok 200 "Notice acknowledged"
            (AcknowledgedCount (List.length (Notice.acknowledged notice))), db)
    else
      let notice' :=
        Notice.with_acknowledged notice
          (Notice.acknowledged notice ++ [Ack.mk (User._id user) (now ctx)]) in
      (ok 200 "Notice acknowledged"
         (AcknowledgedCount (List.length (Notice.acknowledged notice'))),
       set_notices db (save Notice._id notice' (notices db))).
Proof.
  intros Hauth Hfind. unfold acknowledgeNotice. rewrite Hauth, Hfind.
  destruct (existsb _ (Notice.acknowledged notice)); reflexivity.
Qed.

Lemma authenticate_users (cred : Credential) (db db' : DB) :
  users db' = users db -> authenticate cred db' = authenticate cred db.
Proof. intros H. unfold authenticate. rewrite H. reflexivity. Qed.

Lemma acknowledgers_once (n : Notice.t) :
  NoDup (map Ack.user (Notice.acknowledged n)) ->
  acknowledgers n = List.length (Notice.acknowledged n).
Proof.
  intros H. unfold acknowledgers. rewrite nodup_fixed_point by exact H.
  apply length_map.
Qed.

(** C5. Two acknowledgments of a notice by the same authenticated user both
    succeed; the second changes nothing; the stored notice then holds exactly
    one acknowledgment entry of that user; its acknowledgments are the ones
    stored before, followed by the entry of this user, stamped by the first
    request, when the user had none; its views are as before; and each of the
    two responses carries the number of distinct users who have acknowledged
    the notice, before these requests or by them. *)
Theorem acknowledged_once (ctx1 ctx2 : Ctx) (cred : Credential) (user : User.t)
  (i : ObjectId) (db : DB) (notice : Notice.t) :
  authenticate cred db = inr user ->
  findById Notice._id i (notices db) = Some notice ->
  once_per_user notice ->
  let first := acknowledgeNotice ctx1 cred (Oid i) db in
  let second := acknowledgeNotice ctx2 cred (Oid i) (snd first) in
  code (fst first) = 200 /\ code (fst second) = 200
  /\ snd second = snd first
  /\ exists notice',
       findById Notice._id i (notices (snd second)) = Some notice'
       /\ List.length (acksOf (User._id user) notice') = 1
       /\ data (fst first) = AcknowledgedCount (acknowledgers notice')
       /\ data (fst second) = AcknowledgedCount (acknowledgers notice')
       /\ Notice.views notice' = Notice.views notice
       /\ (acksOf (User._id user) notice = [] ->
           Notice.acknowledged notice'
           = (Notice.acknowledged notice
              ++ [Ack.mk (User._id user) (now ctx1)])%list)
       /\ (acksOf (User._id user) notice <> [] ->
           Notice.acknowledged notice' = Notice.acknowledged notice)
       /\ acknowledgers notice'
          = List.length
              (nodup Nat.eq_dec
                 (User._id user :: map Ack.user (Notice.acknowledged notice))).
Proof.
  intros Hauth Hfind [_ Hnd] first second.
  destruct (findById_Some _ _ _ _ _ Hfind) as [_ Hid].
  pose proof (acknowledge_found ctx1 cred user i db notice Hauth Hfind) as H1.
  fold first in H1.
  destruct (existsb (fun ack => Ack.user ack =? User._id user)
              (Notice.acknowledged notice)) eqn:E.
  - (* already acknowledged *)
    assert (Hdb : snd first = db) by (rewrite H1; reflexivity).
    pose proof (acknowledge_found ctx2 cred user i db notice Hauth Hfind) as H2.
    rewrite E in H2. rewrite <- Hdb in H2 at 1. fold second in H2.
    rewrite H1, H2. simpl.
    repeat split. exists notice.
    rewrite (acknowledgers_once _ Hnd).
    assert (Hsome : acksOf (User._id user) notice <> []).
    { unfold acksOf. intros F. apply existsb_filter_nil in F. congruence. }
    split; [exact Hfind|]. split; [|split; [reflexivity|]].
    { pose proof (filter_key_NoDup _ Ack.user (User._id user) _ Hnd) as Hle.
      unfold acksOf in *.
      destruct (filter (fun ack => Ack.user ack =? User._id user)
                  (Notice.acknowledged notice)) eqn:F;
        [contradiction | simpl in *; lia]. }
    split; [reflexivity|]. split; [reflexivity|].
    split; [intros F; contradiction|]. split; [reflexivity|].
    assert (Hin : In (User._id user) (map Ack.user (Notice.acknowledged notice))).
    { apply existsb_exists in E. destruct E as [a [Ha Hu]].
      apply Nat.eqb_eq in Hu. rewrite <- Hu. apply in_map. exact Ha. }
    simpl. destruct (in_dec Nat.eq_dec _ _) as [_ | Hno]; [|contradiction].
    rewrite nodup_fixed_point by exact Hnd. symmetry. apply length_map.
  - (* first acknowledgment *)
    set (notice1 := Notice.with_acknowledged notice
           (Notice.acknowledged notice ++ [Ack.mk (User._id user) (now ctx1)])) in *.
    cbv zeta in H1.
    assert (Hdb : snd first = set_notices db (save Notice._id notice1 (notices db)))
      by (rewrite H1; reflexivity).
    assert (Hauth1 : authenticate cred (snd first) = inr user).
    { rewrite <- Hauth. apply authenticate_users. rewrite Hdb. reflexivity. }
    assert (Hfind1 : findById Notice._id i (notices (snd first)) = Some notice1).
    { rewrite Hdb. simpl. rewrite <- Hid.
      change (Notice._id notice) with (Notice._id notice1).
      apply findById_save with (x := notice).
      change (Notice._id notice1) with (Notice._id notice). rewrite Hid. exact Hfind. }
    assert (Hex : existsb (fun ack => Ack.user ack =? User._id user)
                    (Notice.acknowledged notice1) = true).
    { simpl. rewrite existsb_app. simpl. rewrite Nat.eqb_refl.
      rewrite orb_true_r. reflexivity. }
    pose proof (acknowledge_found ctx2 cred user i (snd first) notice1 Hauth1 Hfind1) as H2.
    rewrite Hex in H2. fold second in H2.
    assert (Hnotin : ~ In (User._id user)
                       (map Ack.user (Notice.acknowledged notice)))
      by (apply (existsb_key_false _ Ack.user _ _ E)).
    assert (Hnd1 : NoDup (map Ack.user (Notice.acknowledged notice1))).
    { simpl. rewrite map_app. simpl. apply NoDup_snoc; assumption. }
    assert (Hnone : acksOf (User._id user) notice = [])
      by (unfold acksOf; apply existsb_filter_nil; exact E).
    rewrite H2. simpl. rewrite H1. simpl.
    repeat split. exists notice1.
    rewrite (acknowledgers_once _ Hnd1).
    split; [rewrite Hdb in Hfind1; exact Hfind1|].
    split; [|split; [reflexivity|]].
    { unfold acksOf in *. unfold notice1. simpl. rewrite filter_app. simpl.
      rewrite Nat.eqb_refl, Hnone. reflexivity. }
    split; [reflexivity|]. split; [reflexivity|].
    split; [intros _; reflexivity|].
    split; [intros F; contradiction|].
    unfold notice1. simpl.
    destruct (in_dec Nat.eq_dec _ _) as [Hyes | _]; [contradiction|].
    simpl. rewrite nodup_fixed_point by exact Hnd.
    rewrite length_app, length_map. simpl. lia.
Qed.

Lemma acknowledged_once_witness :
  let first := acknowledgeNotice (mkCtx true 100) (TokenFor 7) (Oid 9) Seed.db in
  let second := acknowledgeNotice (mkCtx true 200) (TokenFor 7) (Oid 9) (snd first) in
  code (fst first) = 200 /\ code (fst second) = 200
  /\ snd second = snd first
  /\ exists notice',
       findById Notice._id 9 (notices (snd second)) = Some notice'
       /\ List.length (acksOf 7 notice') = 1
       /\ data (fst first) = AcknowledgedCount (acknowledgers notice')
       /\ data (fst second) = AcknowledgedCount (acknowledgers notice')
       /\ Notice.views notice' = Notice.views Seed.notice1
       /\ (acksOf 7 Seed.notice1 = [] ->
           Notice.acknowledged notice'
           = (Notice.acknowledged Seed.notice1 ++ [Ack.mk 7 100])%list)
       /\ (acksOf 7 Seed.notice1 <> [] ->
           Notice.acknowledged notice' = Notice.acknowledged Seed.notice1)
       /\ acknowledgers notice'
          = List.length
              (nodup Nat.eq_dec
                 (7 :: map Ack.user (Notice.acknowledged Seed.notice1))).
Proof.
  apply (acknowledged_once (mkCtx true 100) (mkCtx true 200) (TokenFor 7)
           Seed.student2 9 Seed.db Seed.notice1).
  - reflexivity.
  - reflexivity.
  - split; simpl; nodup_nat.
Defined.

(** On the seed data the exams notice has two acknowledgments; the ECE
    student acknowledges it twice and is told three both times. *)
Example acknowledge_seed_count :
  let first := acknowledgeNotice (mkCtx true 100) (TokenFor 7) (Oid 9) Seed.db in
  data (fst first) = AcknowledgedCount 3
  /\ data (fst (acknowledgeNotice (mkCtx true 200) (TokenFor 7) (Oid 9) (snd first)))
     = AcknowledgedCount 3.
Proof. split; reflexivity. Qed.

(** ** Listing *)

Section SortFacts.
Variable A : Type.
Variable before : A -> A -> bool.

Lemma insertBy_In (x y : A) (l : list A) :
  In y (insertBy before x l) <-> y = x \/ In y l.
Proof.
  induction l as [|z l IH]; simpl.
  - intuition congruence.
  - destruct (before x z); simpl; [intuition congruence|].
    rewrite IH. intuition congruence.
Qed.

Lemma sortBy_In (y : A) (l : list A) : In y (sortBy before l) <-> In y l.
Proof.
  induction l as [|x l IH]; simpl; [tauto|].
  rewrite insertBy_In, IH. intuition congruence.
Qed.

End SortFacts.

Lemma skipn_In (A : Type) (k : nat) (y : A) (l : list A) : In y (skipn k l) -> In y l.
Proof.
  intros H. rewrite <- (firstn_skipn k l). apply in_or_app. right. exact H.
Qed.

Lemma firstn_In (A : Type) (k : nat) (y : A) (l : list A) : In y (firstn k l) -> In y l.
Proof.
  intros H. rewrite <- (firstn_skipn k l). apply in_or_app. left. exact H.
Qed.

Lemma limitTo_In (A : Type) (k : nat) (y : A) (l : list A) : In y (limitTo k l) -> In y l.
Proof.
  unfold limitTo. destruct (k =? 0); [tauto | apply firstn_In].
Qed.

Section ListingFacts.
Variable regex_i : string -> string -> bool.

(** Every notice of a listing is a stored notice that matches the query. *)
Lemma listed_matches (r : ListReq.t) (db : DB) (n : Notice.t) :
  In n (listed (fst (listNotices regex_i r db))) ->
  In n (notices db) /\ matches regex_i (buildQuery r) n = true.
Proof.
  unfold listNotices, listed.
  destruct ((_ =? 0) && negb (_ =? 0)); simpl; [tauto|].
  rewrite map_map. simpl. rewrite map_id. intros H.
  apply limitTo_In, skipn_In in H.
  apply (proj1 (sortBy_In _ pinnedThenNewer _ _)) in H.
  apply filter_In in H. exact H.
Qed.

(** The department entry of the query: the caller's department comes first,
    the viewer's own department second. *)
Lemma buildQuery_department (r : ListReq.t) :
  q_department (buildQuery r) =
    match explicitDepartment (ListReq.department r) with
    | Some d => Some [d; "All Departments"]
    | None =>
        match studentOrFaculty (ListReq.user r) with
        | Some user => Some [User.department user; "All Departments"]
        | None => None
        end
    end.
Proof.
  unfold buildQuery.
  destruct (ListReq.category r) as [c|];
    [destruct (negb (c =? "")%string && negb (c =? "all")%string)|];
    (destruct (explicitDepartment (ListReq.department r));
     [|destruct (studentOrFaculty (ListReq.user r))]);
    (destruct (ListReq.status r) as [st|]; [destruct (negb (st =? "")%string)|]);
    (destruct (ListReq.search r) as [w|]; [destruct (negb (w =? "")%string)|]);
    destruct (studentYear (ListReq.user r)); reflexivity.
Qed.

(** The [$or] entry of the query: the assignment of the year condition
    replaces the one of the search. *)
Lemma buildQuery_or (r : ListReq.t) :
  q_or (buildQuery r) =
    match studentYear (ListReq.user r) with
    | Some year => Some [TargetYearIn [None; Some ""; Some year]]
    | None =>
        match ListReq.search r with
        | Some search =>
            if negb (search =? "")%string
            then Some [TitleRegex search; ContentRegex search] else None
        | None => None
        end
    end.
Proof.
  unfold buildQuery.
  destruct (ListReq.category r) as [c|];
    [destruct (negb (c =? "")%string && negb (c =? "all")%string)|];
    (destruct (explicitDepartment (ListReq.department r));
     [|destruct (studentOrFaculty (ListReq.user r))]);
    (destruct (ListReq.status r) as [st|]; [destruct (negb (st =? "")%string)|]);
    (destruct (ListReq.search r) as [w|]; [destruct (negb (w =? "")%string)|]);
    destruct (studentYear (ListReq.user r)); reflexivity.
Qed.

Lemma stringIn_pair (s a b : string) :
  stringIn s [a; b] = true -> s = a \/ s = b.
Proof.
  unfold stringIn. simpl. rewrite orb_false_r. intros H.
  apply orb_true_iff in H. destruct H as [H | H]; apply String.eqb_eq in H; auto.
Qed.

Lemma matches_department (q : Query) (n : Notice.t) (ds : list string) :
  matches regex_i q n = true -> q_department q = Some ds ->
  stringIn (Notice.department n) ds = true.
Proof.
  unfold matches. intros H Hq. rewrite Hq in H.
  repeat (apply andb_true_iff in H; destruct H as [H ?]). assumption.
Qed.

Lemma matches_or (q : Query) (n : Notice.t) (cs : list Cond) :
  matches regex_i q n = true -> q_or q = Some cs ->
  existsb (condHolds regex_i n) cs = true.
Proof.
  unfold matches. intros H Hq. rewrite Hq in H.
  apply andb_true_iff in H. destruct H as [_ H]. exact H.
Qed.

(** C7. Every notice that GET /notices returns satisfies the department and
    year narrowing: for a student or faculty viewer and no department asked
    for, its department is the viewer's or All Departments; when a department
    is asked for, that department takes the place of the viewer's, in the
    notice and in the query; for a student viewer with a non-empty year, its
    targetYear is null, empty or the viewer's year. *)
Theorem listing_narrowed (r : ListReq.t) (db : DB) (n : Notice.t) :
  In n (listed (fst (listNotices regex_i r db))) ->
  (forall user,
      explicitDepartment (ListReq.department r) = None ->
      ListReq.user r = Some user ->
      User.role user = "student" \/ User.role user = "faculty" ->
      Notice.department n = User.department user
      \/ Notice.department n = "All Departments")
  /\ (forall d,
      explicitDepartment (ListReq.department r) = Some d ->
      Notice.department n = d \/ Notice.department n = "All Departments")
  /\ (forall user year,
      ListReq.user r = Some user ->
      User.role user = "student" ->
      User.year user = Some year -> year <> "" ->
      Notice.targetYear n = None \/ Notice.targetYear n = Some ""
      \/ Notice.targetYear n = Some year)
  /\ (forall d,
      explicitDepartment (ListReq.department r) = Some d ->
      q_department (buildQuery r) = Some [d; "All Departments"]).
Proof.
  intros Hin. apply listed_matches in Hin. destruct Hin as [_ Hm].
  pose proof (buildQuery_department r) as Hd.
  pose proof (buildQuery_or r) as Ho.
  split; [|split; [|split]];
    [| | |intros d Hex; rewrite Hex in Hd; exact Hd].
  - intros user Hex Hu Hrole. rewrite Hex, Hu in Hd.
    assert (Hsf : studentOrFaculty (Some user) = Some user).
    { unfold studentOrFaculty.
      destruct Hrole as [Hr | Hr]; rewrite Hr; reflexivity. }
    rewrite Hsf in Hd.
    apply stringIn_pair. exact (matches_department _ _ _ Hm Hd).
  - intros d Hex. rewrite Hex in Hd.
    apply stringIn_pair. exact (matches_department _ _ _ Hm Hd).
  - intros user year Hu Hrole Hy Hne. rewrite Hu in Ho.
    assert (Hsy : studentYear (Some user) = Some year).
    { unfold studentYear. rewrite Hrole, Hy. simpl.
      apply String.eqb_neq in Hne. rewrite Hne. reflexivity. }
    rewrite Hsy in Ho.
    pose proof (matches_or _ _ _ Hm Ho) as H. simpl in H.
    rewrite !orb_false_r in H.
    destruct (Notice.targetYear n) as [t|]; simpl in H; [|auto].
    right. apply orb_true_iff in H. destruct H as [H | H];
      apply String.eqb_eq in H; subst; auto.
Qed.

(** For a student viewer with a year, the search term has no part in the
    query. *)
Lemma student_search_dropped (r : ListReq.t) (year : string) :
  studentYear (ListReq.user r) = Some year ->
  buildQuery r =
  buildQuery (ListReq.mk (ListReq.user r) (ListReq.category r)
                (ListReq.department r) (ListReq.status r) None
                (ListReq.page r) (ListReq.limit r)).
Proof.
  intros Hy. unfold buildQuery. simpl. rewrite Hy.
  destruct (ListReq.category r) as [c|];
    [destruct (negb (c =? "")%string && negb (c =? "all")%string)|];
    (destruct (explicitDepartment (ListReq.department r));
     [|destruct (studentOrFaculty (ListReq.user r))]);
    (destruct (ListReq.status r) as [st|]; [destruct (negb (st =? "")%string)|]);
    (destruct (ListReq.search r) as [w|]; [destruct (negb (w =? "")%string)|]);
    reflexivity.
Qed.

(** For any other viewer a search term narrows the listing: every notice
    returned matches it in the title or in the content. *)
Lemma search_applied (r : ListReq.t) (db : DB) (n : Notice.t) (search : string) :
  studentYear (ListReq.user r) = None ->
  ListReq.search r = Some search -> search <> "" ->
  In n (listed (fst (listNotices regex_i r db))) ->
  regex_i search (Notice.title n) = true
  \/ regex_i search (Notice.content n) = true.
Proof.
  intros Hy Hs Hne Hin. apply listed_matches in Hin. destruct Hin as [_ Hm].
  pose proof (buildQuery_or r) as Ho. rewrite Hy, Hs in Ho.
  apply String.eqb_neq in Hne. rewrite Hne in Ho. simpl in Ho.
  pose proof (matches_or _ _ _ Hm Ho) as H. simpl in H.
  rewrite orb_false_r in H. apply orb_true_iff in H. exact H.
Qed.
End ListingFacts.

Lemma listing_narrowed_witness :
  In Seed.notice2 (listed (fst (listNotices literal_i studentListing Seed.db)))
  /\ (Notice.department Seed.notice2 = "CSE"
      \/ Notice.department Seed.notice2 = "All Departments")
  /\ (Notice.targetYear Seed.notice2 = None
      \/ Notice.targetYear Seed.notice2 = Some ""
      \/ Notice.targetYear Seed.notice2 = Some "3rd Year").
Proof.
  assert (Hin : In Seed.notice2
                  (listed (fst (listNotices literal_i studentListing Seed.db)))).
  { vm_compute. right. right. left. reflexivity. }
  split; [exact Hin|].
  destruct (listing_narrowed literal_i studentListing Seed.db Seed.notice2 Hin)
    as [Hdep [_ [Hyear _]]].
  split.
  - apply (Hdep Seed.student0); [reflexivity | reflexivity | left; reflexivity].
  - apply (Hyear Seed.student0 "3rd Year");
      [reflexivity | reflexivity | reflexivity | discriminate].
Defined.

(** C3. A student with a year who searches for the word library on the seed
    data is handed the tech-fest notice, whose title and content do not
    contain that word, in any case of the letters: the listing is the one
    the same student gets without a search term. *)
Theorem search_lost_for_student :
  In Seed.notice2 (listed (fst (listNotices literal_i studentSearch Seed.db)))
  /\ literal_i "library" (Notice.title Seed.notice2) = false
  /\ literal_i "library" (Notice.content Seed.notice2) = false
  /\ listNotices literal_i studentSearch Seed.db
     = listNotices literal_i studentListing Seed.db.
Proof.
  split; [vm_compute; right; right; left; reflexivity|].
  split; [reflexivity|]. split; reflexivity.
Qed.

(** ** Deleting a notice *)

(** What a successful DELETE /notices/:id leaves in the database. *)
Lemma deleteNotice_200 (cred : Credential) (i : ObjectId) (db : DB) :
  code (fst (deleteNotice cred (Oid i) db)) = 200 ->
  snd (deleteNotice cred (Oid i) db) =
    mkDB (users db)
         (deleteOne Notice._id i (notices db))
         (deleteMany (fun c => Comment.notice c =? i) (comments db))
         (deleteMany (fun n => refers (Notification.relatedNotice n) i)
            (notifications db))
         (nextId db).
Proof.
  unfold deleteNotice.
  destruct (authenticate cred db) as [denied | user] eqn:Hauth.
  - unfold authenticate in Hauth. destruct cred; try (inversion Hauth; discriminate).
    destruct (findById User._id userId (users db)) as [u|];
      [destruct (User.isActive u)|]; inversion Hauth; discriminate.
  - unfold isAdminOrFaculty.
    destruct (negb (User.role user =? "admin")%string
              && negb (User.role user =? "faculty")%string); [discriminate|].
    destruct (findById Notice._id i (notices db)) as [notice|] eqn:Hfind;
      [|discriminate].
    destruct (findById_Some _ _ _ _ _ Hfind) as [_ Hid].
    destruct (negb (Notice.author notice =? User._id user)
              && negb (User.role user =? "admin")%string); [discriminate|].
    intros _. simpl. rewrite Hid. reflexivity.
Qed.

(** C9. After a successful DELETE /notices/:id the notice is gone, no comment
    of that notice and no notification that refers to it is left, and the
    comments and notifications of other notices are all still there. *)
Theorem notice_delete_cascades (cred : Credential) (i : ObjectId) (db : DB) :
  code (fst (deleteNotice cred (Oid i) db)) = 200 ->
  let db' := snd (deleteNotice cred (Oid i) db) in
  findById Notice._id i (notices db') = None
  /\ (forall n, In n (notices db') -> Notice._id n <> i)
  /\ (forall c, In c (comments db') <->
                In c (comments db) /\ Comment.notice c <> i)
  /\ (forall n, In n (notifications db') <->
                In n (notifications db) /\ Notification.relatedNotice n <> Some i).
Proof.
  intros H db'. unfold db'. rewrite (deleteNotice_200 _ _ _ H). simpl.
  split; [apply findById_deleteOne|].
  split; [apply findById_None; apply findById_deleteOne|].
  split.
  - intros c. unfold deleteMany. rewrite filter_In, negb_true_iff, Nat.eqb_neq.
    tauto.
  - intros n. unfold deleteMany. rewrite filter_In, negb_true_iff.
    unfold refers. destruct (Notification.relatedNotice n) as [j|].
    + rewrite Nat.eqb_neq. intuition congruence.
    + intuition congruence.
Qed.

Lemma notice_delete_cascades_witness :
  let db' := snd (deleteNotice (TokenFor 2) (Oid 10) threaded) in
  findById Notice._id 10 (notices db') = None
  /\ (forall n, In n (notices db') -> Notice._id n <> 10)
  /\ (forall c, In c (comments db') <->
                In c (comments threaded) /\ Comment.notice c <> 10)
  /\ (forall n, In n (notifications db') <->
                In n (notifications threaded)
                /\ Notification.relatedNotice n <> Some 10).
Proof.
  apply (notice_delete_cascades (TokenFor 2) 10 threaded). reflexivity.
Defined.

(** ** Notifications of other users *)

Lemma findOwn_Some (i u : ObjectId) (l : list Notification.t) (n : Notification.t) :
  findOwn i u l = Some n ->
  In n l /\ Notification._id n = i /\ Notification.user n = u.
Proof.
  unfold findOwn. intros H. apply find_some in H. destruct H as [Hin H].
  apply andb_true_iff in H. destruct H as [H1 H2].
  apply Nat.eqb_eq in H1, H2. auto.
Qed.

(** With unique ids, the lookup scoped to a user misses the notifications of
    everybody else. *)
Lemma findOwn_foreign (i u : ObjectId) (l : list Notification.t)
  (n : Notification.t) :
  unique_ids Notification._id l ->
  In n l -> Notification._id n = i -> Notification.user n <> u ->
  findOwn i u l = None.
Proof.
  intros Huniq Hin Hid Hu.
  destruct (findOwn i u l) as [m|] eqn:E; [|reflexivity].
  apply findOwn_Some in E. destruct E as [Hm [Hmid Hmu]].
  pose proof (unique_findById _ _ _ _ Huniq Hin) as H1.
  pose proof (unique_findById _ _ _ _ Huniq Hm) as H2.
  rewrite Hid in H1. rewrite Hmid in H2. congruence.
Qed.

Lemma In_save_other (d m : Notification.t) (l : list Notification.t) :
  In m l -> Notification._id m <> Notification._id d ->
  In m (save Notification._id d l).
Proof.
  intros Hin Hne. unfold save. apply in_map_iff. exists m. split; [|exact Hin].
  apply Nat.eqb_neq in Hne. rewrite Hne. reflexivity.
Qed.

(** C10. For an authenticated user and a stored notification of another
    recipient, PUT /notifications/:id/read and DELETE /notifications/:id
    answer 404 and leave the database as it is; and whatever id the user
    names, every notification of another recipient is still stored,
    unchanged, after either operation. *)
Theorem foreign_notification_untouched (ctx : Ctx) (cred : Credential)
  (user : User.t) (db : DB) (n : Notification.t) :
  authenticate cred db = inr user ->
  unique_ids Notification._id (notifications db) ->
  In n (notifications db) ->
  Notification.user n <> User._id user ->
  markRead ctx cred (Oid (Notification._id n)) db
    = (fail 404 "Notification not found", db)
  /\ deleteNotification cred (Oid (Notification._id n)) db
    = (fail 404 "Notification not found", db)
  /\ (forall id, In n (notifications (snd (markRead ctx cred id db))))
  /\ (forall id, In n (notifications (snd (deleteNotification cred id db)))).
Proof.
  intros Hauth Huniq Hin Hforeign.
  pose proof (findOwn_foreign _ _ _ _ Huniq Hin eq_refl Hforeign) as Hnone.
  unfold markRead, deleteNotification. rewrite Hauth, Hnone.
  split; [reflexivity|]. split; [reflexivity|]. split.
  - intros [|j]; [exact Hin|].
    destruct (findOwn j (User._id user) (notifications db)) as [m|] eqn:E;
      [|exact Hin].
    apply findOwn_Some in E. destruct E as [Hm [Hmid Hmu]]. simpl.
    apply In_save_other; [exact Hin|]. simpl. intros Heq.
    pose proof (unique_findById _ _ _ _ Huniq Hin) as H1.
    pose proof (unique_findById _ _ _ _ Huniq Hm) as H2.
    rewrite Heq in H1. congruence.
  - intros [|j]; [exact Hin|].
    destruct (findOwn j (User._id user) (notifications db)) as [m|] eqn:E;
      [|exact Hin].
    apply findOwn_Some in E. destruct E as [Hm [Hmid Hmu]]. simpl.
    unfold deleteOne. apply filter_In. split; [exact Hin|].
    apply negb_true_iff, Nat.eqb_neq. intros Heq.
    pose proof (unique_findById _ _ _ _ Huniq Hin) as H1.
    pose proof (unique_findById _ _ _ _ Huniq Hm) as H2.
    rewrite Heq in H1. congruence.
Qed.

Lemma foreign_notification_untouched_witness :
  let n := Notification.mk 21 2 "comment" "Rahul Sharma commented on your notice"
             (Some 10) (Some 14) false None 5 in
  markRead (mkCtx true 50) (TokenFor 5) (Oid 21) threaded
    = (fail 404 "Notification not found", threaded)
  /\ deleteNotification (TokenFor 5) (Oid 21) threaded
    = (fail 404 "Notification not found", threaded)
  /\ (forall id, In n (notifications (snd (markRead (mkCtx true 50) (TokenFor 5) id threaded))))
  /\ (forall id, In n (notifications (snd (deleteNotification (TokenFor 5) id threaded)))).
Proof.
  apply (foreign_notification_untouched (mkCtx true 50) (TokenFor 5) Seed.student0
           threaded
           (Notification.mk 21 2 "comment" "Rahul Sharma commented on your notice"
              (Some 10) (Some 14) false None 5)).
  - reflexivity.
  - unfold unique_ids. simpl. nodup_nat.
  - simpl. right. left. reflexivity.
  - simpl. discriminate.
Defined.

(** ** Deleting a comment *)

(** Resolving the actor touches the users only. *)
Lemma commentActor_keeps (ctx : Ctx) (cred : Credential) (dev : DevFields)
  (db db' : DB) (actor : option User.t) :
  commentActor ctx cred dev db = Some (actor, db') ->
  notices db' = notices db /\ comments db' = comments db
  /\ notifications db' = notifications db.
Proof.
  unfold commentActor, createUser.
  destruct (tokenUser cred db); [intros H; inversion H; auto|].
  destruct (production ctx); [intros H; inversion H; auto|].
  destruct (findByEmail _ (users db)); [intros H; inversion H; auto|].
  simpl. destruct (validRole _); [|discriminate].
  intros H. inversion H. auto.
Qed.

(** The comments a successful DELETE /comments/:id leaves. *)
Lemma deleteComment_200 (ctx : Ctx) (cred : Credential) (dev : DevFields)
  (i : ObjectId) (db : DB) (comment : Comment.t) :
  findById Comment._id i (comments db) = Some comment ->
  code (fst (deleteComment ctx cred dev (Oid i) db)) = 200 ->
  comments (snd (deleteComment ctx cred dev (Oid i) db)) =
    deleteOne Comment._id i
      match Comment.parentComment comment with
      | None =>
          deleteMany (fun c => refers (Comment.parentComment c) i) (comments db)
      | Some parentId =>
          match findById Comment._id parentId (comments db) with
          | Some parentComment =>
              save Comment._id
                (Comment.with_replies parentComment
                   (filter (fun replyId => negb (replyId =? i))
                      (Comment.replies parentComment)))
                (comments db)
          | None => comments db
          end
      end.
Proof.
  intros Hfind. destruct (findById_Some _ _ _ _ _ Hfind) as [_ Hid].
  unfold deleteComment. rewrite Hfind.
  destruct (commentActor ctx cred dev db) as [[[actor|] db1]|] eqn:Hactor;
    try discriminate.
  apply commentActor_keeps in Hactor. destruct Hactor as [_ [Hcs _]].
  destruct (negb (User.role actor =? "admin")%string
            && negb (Comment.author comment =? User._id actor)); [discriminate|].
  intros _. rewrite Hid.
  destruct (Comment.parentComment comment) as [p|]; simpl.
  - rewrite Hcs. destruct (findById Comment._id p (comments db)); simpl;
      [reflexivity | rewrite Hcs; reflexivity].
  - rewrite Hcs. reflexivity.
Qed.

(** C8. After a successful DELETE /comments/:id of a comment without a
    parent, the comments left are the others that do not name it as their
    parent; after one of a comment with a parent, the parent is stored with
    its reply list less the deleted id, the comment is gone and every other
    comment is as it was. *)
Theorem comment_delete_cascades (ctx : Ctx) (cred : Credential) (dev : DevFields)
  (i : ObjectId) (db : DB) (comment : Comment.t) :
  findById Comment._id i (comments db) = Some comment ->
  code (fst (deleteComment ctx cred dev (Oid i) db)) = 200 ->
  let db' := snd (deleteComment ctx cred dev (Oid i) db) in
  (Comment.parentComment comment = None ->
   forall c, In c (comments db') <->
             In c (comments db) /\ Comment._id c <> i
             /\ Comment.parentComment c <> Some i)
  /\ (forall p parent,
        Comment.parentComment comment = Some p ->
        findById Comment._id p (comments db) = Some parent ->
        p <> i ->
        findById Comment._id p (comments db')
          = Some (Comment.with_replies parent
                    (filter (fun replyId => negb (replyId =? i))
                       (Comment.replies parent)))
        /\ findById Comment._id i (comments db') = None
        /\ (forall j, j <> p -> j <> i ->
              findById Comment._id j (comments db')
              = findById Comment._id j (comments db))).
Proof.
  intros Hfind Hcode db'. unfold db'.
  rewrite (deleteComment_200 _ _ _ _ _ _ Hfind Hcode). split.
  - intros Hroot c. rewrite Hroot. unfold deleteOne, deleteMany.
    rewrite !filter_In, !negb_true_iff, Nat.eqb_neq.
    unfold refers. destruct (Comment.parentComment c) as [q|].
    + rewrite Nat.eqb_neq. intuition congruence.
    + intuition congruence.
  - intros p parent Hp Hparent Hne. rewrite Hp, Hparent.
    destruct (findById_Some _ _ _ _ _ Hparent) as [_ Hpid].
    set (parent' := Comment.with_replies parent _).
    assert (Hid' : Comment._id parent' = p) by exact Hpid.
    split; [|split].
    + rewrite findById_deleteOne_other by exact Hne.
      rewrite <- Hid'. apply findById_save with (x := parent).
      rewrite Hid'. exact Hparent.
    + apply findById_deleteOne.
    + intros j Hjp Hji.
      rewrite findById_deleteOne_other by exact Hji.
      apply findById_save_other. rewrite Hid'. exact Hjp.
Qed.

Lemma comment_delete_cascades_witness :
  (forall c,
      In c (comments (snd (deleteComment (mkCtx true 60) (TokenFor 5) noDev
                             (Oid 14) threaded))) <->
      In c (comments threaded) /\ Comment._id c <> 14
      /\ Comment.parentComment c <> Some 14)
  /\ findById Comment._id 14
       (comments (snd (deleteComment (mkCtx true 60) (TokenFor 2) noDev
                         (Oid 18) threaded)))
     = Some (Comment.mk 14 10 5 "Can we get more details?" None [19] false false 5).
Proof.
  split.
  - destruct (comment_delete_cascades (mkCtx true 60) (TokenFor 5) noDev 14 threaded
                (Comment.mk 14 10 5 "Can we get more details?" None [18; 19]
                   false false 5) eq_refl eq_refl) as [Hroot _].
    exact (Hroot eq_refl).
  - destruct (comment_delete_cascades (mkCtx true 60) (TokenFor 2) noDev 18 threaded
                (Comment.mk 18 10 2 "Next week." (Some 14) [] false false 6)
                eq_refl eq_refl) as [_ Hreply].
    destruct (Hreply 14
                (Comment.mk 14 10 5 "Can we get more details?" None [18; 19]
                   false false 5) eq_refl eq_refl) as [Hparent _].
    + discriminate.
    + exact Hparent.
Defined.

(** Deleting the top-level comment of [threaded] removes it and its two
    replies; deleting one reply leaves the other in the parent's list. *)
Example delete_thread :
  comments (snd (deleteComment (mkCtx true 60) (TokenFor 5) noDev (Oid 14) threaded))
  = [Seed.comment3].
Proof. reflexivity. Qed.

Example delete_reply :
  map Comment.replies
    (comments (snd (deleteComment (mkCtx true 60) (TokenFor 2) noDev (Oid 18) threaded)))
  = [[19]; []; []].
Proof. reflexivity. Qed.

(** ** Creating a comment *)

Lemma findById_insert (A : Type) (id_of : A -> ObjectId) (i : ObjectId)
  (l : list A) (d x : A) :
  findById id_of i l = Some x -> findById id_of i (insert d l) = Some x.
Proof.
  unfold findById, insert. induction l as [|y l IH]; simpl; [discriminate|].
  destruct (id_of y =? i); [tauto | exact IH].
Qed.

(** A reply that names a stored comment of another notice is answered 400,
    and by then the new comment is stored. *)
Lemma createComment_other_notice (ctx : Ctx) (cred : Credential)
  (b : CommentBody.t) (db db1 : DB) (noticeId parentId : ObjectId)
  (content : string) (notice : Notice.t) (author : User.t) (parent : Comment.t) :
  CommentBody.noticeId b = Some (Oid noticeId) ->
  nonBlank (CommentBody.content b) = Some content ->
  findById Notice._id noticeId (notices db) = Some notice ->
  commentActor ctx cred (CommentBody.dev b) db = Some (Some author, db1) ->
  CommentBody.parentCommentId b = Some (Oid parentId) ->
  findById Comment._id parentId (comments db) = Some parent ->
  Comment.notice parent <> noticeId ->
  createComment ctx cred b db =
    (fail 400 "Parent comment does not belong to this notice",
     bump (set_comments db1
             (insert (newComment ctx noticeId author content db1) (comments db1)))
          1).
Proof.
  intros Hn Hc Hfind Hactor Hp Hparent Hother.
  unfold createComment. rewrite Hn, Hc, Hfind, Hactor, Hp.
  destruct (commentActor_keeps _ _ _ _ _ _ Hactor) as [_ [Hcs _]].
  cbn [comments bump set_comments].
  fold (newComment ctx noticeId author content db1).
  rewrite (findById_insert _ _ _ _ _ parent) by (rewrite Hcs; exact Hparent).
  apply Nat.eqb_neq in Hother. rewrite Hother. reflexivity.
Qed.

(** C1. On [threaded], a student posts a comment on the workshop notice (id
    11) as a reply to comment 14, which belongs to the tech-fest notice (id
    10).  The answer is 400, and the comment is stored all the same: the
    comment collection has gained the new comment, which is read back under
    its id. *)
Theorem reply_to_other_notice_is_stored :
  let b := CommentBody.mk (Some (Oid 11)) (Some "Me too") (Some (Oid 14)) noDev in
  let result := createComment (mkCtx true 70) (TokenFor 6) b threaded in
  fst result = fail 400 "Parent comment does not belong to this notice"
  /\ comments (snd result)
     = (comments threaded ++ [Comment.mk 23 11 6 "Me too" None [] false false 70])%list
  /\ findById Comment._id 23 (comments (snd result))
     = Some (Comment.mk 23 11 6 "Me too" None [] false false 70)
  /\ findById Comment._id 23 (comments threaded) = None.
Proof.
  intros b result.
  assert (H : result =
    (fail 400 "Parent comment does not belong to this notice",
     bump (set_comments threaded
             (insert (newComment (mkCtx true 70) 11 Seed.student1 "Me too" threaded)
                (comments threaded))) 1)).
  { apply (createComment_other_notice (mkCtx true 70) (TokenFor 6) b threaded threaded
             11 14 "Me too" Seed.notice3 Seed.student1
             (Comment.mk 14 10 5 "Can we get more details?" None [18; 19]
                false false 5));
      try reflexivity. discriminate. }
  rewrite H. repeat split.
Qed.

(** The two notification steps of POST /comments on a comment that names no
    parent: at most the notification of the notice's author is written. *)
Lemma notifyAndRespond_no_parent (ctx : Ctx) (author : User.t) (notice : Notice.t)
  (comment : Comment.t) (db : DB) :
  Comment.parentComment comment = None ->
  notifications (snd (notifyAndRespond ctx author notice comment db)) =
    (notifications db ++
     match populateAuthor (Notice.author notice) db with
     | Some noticeAuthor =>
         if negb (User._id noticeAuthor =? User._id author)
         then [Notification.mk (nextId db) (User._id noticeAuthor) "comment"
                 (User.name author ++ " commented on your notice: "
                    ++ Notice.title notice)%string
                 (Some (Notice._id notice)) (Some (Comment._id comment))
                 false None (now ctx)]
         else []
     | None => []
     end)%list.
Proof.
  intros Hroot. unfold notifyAndRespond. rewrite Hroot. simpl.
  destruct (populateAuthor (Notice.author notice) db) as [a|];
    [|symmetry; apply app_nil_r].
  destruct (negb (User._id a =? User._id author));
    [reflexivity | symmetry; apply app_nil_r].
Qed.

(** POST /comments writes at most one notification, whatever the request. *)
Lemma createComment_notifies_at_most_once (ctx : Ctx) (cred : Credential)
  (b : CommentBody.t) (db : DB) :
  exists extra,
    notifications (snd (createComment ctx cred b db))
    = (notifications db ++ extra)%list
    /\ List.length extra <= 1.
Proof.
  assert (Hnil : forall d : DB, exists extra,
             notifications d = (notifications d ++ extra)%list
             /\ List.length extra <= 1).
  { intros d. exists []. rewrite app_nil_r. simpl. auto. }
  unfold createComment.
  destruct (CommentBody.noticeId b) as [[|noticeId]|]; try apply Hnil;
    destruct (nonBlank (CommentBody.content b)) as [content|]; try apply Hnil.
  destruct (findById Notice._id noticeId (notices db)) as [notice|]; [|apply Hnil].
  destruct (commentActor ctx cred (CommentBody.dev b) db) as [[[author|] db1]|] eqn:Ha;
    try apply Hnil;
    destruct (commentActor_keeps _ _ _ _ _ _ Ha) as [_ [_ Hns]];
    [|exists []; rewrite app_nil_r; simpl; auto].
  assert (Hsame : forall d : DB,
             notifications d = notifications db1 -> exists extra,
               notifications d = (notifications db ++ extra)%list
               /\ List.length extra <= 1).
  { intros d Hd. exists []. rewrite app_nil_r, Hd. simpl. auto. }
  assert (Hsent : forall d : DB,
             notifications d = notifications db1 -> exists extra,
               notifications
                 (snd (notifyAndRespond ctx author notice
                         (newComment ctx noticeId author content db1) d))
               = (notifications db ++ extra)%list
               /\ List.length extra <= 1).
  { intros d Hd. rewrite notifyAndRespond_no_parent by reflexivity.
    rewrite Hd, Hns. eexists. split; [reflexivity|].
    destruct (populateAuthor _ d) as [a|]; [|simpl; lia].
    destruct (negb _); simpl; lia. }
  fold (newComment ctx noticeId author content db1).
  destruct (CommentBody.parentCommentId b) as [[|parentId]|].
  - apply Hsame. reflexivity.
  - destruct (findById Comment._id parentId _) as [parent|];
      [|apply Hsame; reflexivity].
    destruct (negb (Comment.notice parent =? noticeId));
      [apply Hsame; reflexivity|].
    apply Hsent. reflexivity.
  - apply Hsent. reflexivity.
Qed.

(** C2. On [threaded], student 6 replies to comment 14 of student 5 on the
    tech-fest notice of faculty member 2.  The reply is accepted and listed
    among the replies of comment 14, and one notification is written, for
    the author of the notice; the author of the parent comment gets none. *)
Theorem reply_does_not_notify_parent_author :
  let b := CommentBody.mk (Some (Oid 10)) (Some "Me too") (Some (Oid 14)) noDev in
  let result := createComment (mkCtx true 70) (TokenFor 6) b threaded in
  code (fst result) = 201
  /\ option_map Comment.replies (findById Comment._id 14 (comments (snd result)))
     = Some [18; 19; 23]
  /\ option_map Comment.author (findById Comment._id 14 (comments (snd result)))
     = Some 5
  /\ notifications (snd result)
     = (notifications threaded ++
        [Notification.mk 24 2 "comment"
           "Priya Reddy commented on your notice: Annual Tech Fest 2024 - Call for Participation"
           (Some 10) (Some 23) false None 70])%list
  /\ filter (fun n => (Notification.user n =? 5)
                      && refers (Notification.relatedComment n) 23)
       (notifications (snd result)) = [].
Proof.
  intros b result. vm_compute. repeat split.
Qed.

(** ** Creating a notice *)

Lemma insertMany_spec (docs : list (ObjectId -> Notification.t)) (db : DB) :
  insertMany docs db =
    mkDB (users db) (notices db) (comments db)
         (notifications db ++ numbered docs (nextId db))
         (nextId db + List.length docs).
Proof.
  revert db. induction docs as [|d docs IH]; intros db; simpl.
  - rewrite app_nil_r, Nat.add_0_r. destruct db; reflexivity.
  - rewrite IH. simpl. unfold insert. rewrite <- app_assoc. simpl.
    f_equal; [f_equal; f_equal; f_equal; lia | lia].
Qed.

Lemma numbered_users (f : User.t -> ObjectId -> Notification.t)
  (us : list User.t) (i : ObjectId) :
  (forall u j, Notification.user (f u j) = User._id u) ->
  map Notification.user (numbered (map f us) i) = map User._id us.
Proof.
  intros Hf. revert i. induction us as [|u us IH]; intros i; simpl;
    [reflexivity|]. rewrite Hf, IH. reflexivity.
Qed.

Lemma numbered_Forall (P : Notification.t -> Prop)
  (docs : list (ObjectId -> Notification.t)) (i : ObjectId) :
  (forall d j, In d docs -> P (d j)) -> Forall P (numbered docs i).
Proof.
  revert i. induction docs as [|d docs IH]; intros i H; simpl; constructor.
  - apply H. left. reflexivity.
  - apply IH. intros d' j Hd. apply H. right. exact Hd.
Qed.

(** The target set: the active students of the department, or all active
    students for All Departments. *)
Lemma targetUsers_In (department : string) (us : list User.t) (u : User.t) :
  In u (targetUsers department us) <->
  In u us /\ User.role u = "student" /\ User.isActive u = true
  /\ (department = "All Departments" \/ User.department u = department).
Proof.
  unfold targetUsers.
  destruct (department =? "All Departments")%string eqn:E.
  - apply String.eqb_eq in E. rewrite filter_In, andb_true_iff, String.eqb_eq.
    tauto.
  - apply String.eqb_neq in E.
    rewrite filter_In, !andb_true_iff, !String.eqb_eq. tauto.
Qed.

(** A user who is not a student is no target. *)
Lemma targetUsers_snoc (department : string) (us : list User.t) (u : User.t) :
  User.role u <> "student" ->
  targetUsers department (us ++ [u]) = targetUsers department us.
Proof.
  intros H. apply String.eqb_neq in H. unfold targetUsers.
  destruct (department =? "All Departments")%string;
    rewrite filter_app; simpl; rewrite H; simpl; apply app_nil_r.
Qed.

(** Resolving the actor of POST /notices stores at most the development
    user, who is then the actor. *)
Lemma noticeActor_keeps (ctx : Ctx) (cred : Credential) (dev : DevFields)
  (department : option string) (db db' : DB) (actor : option User.t) :
  noticeActor ctx cred dev department db = Some (actor, db') ->
  notices db' = notices db /\ comments db' = comments db
  /\ notifications db' = notifications db
  /\ (users db' = users db
      \/ exists u, actor = Some u /\ users db' = (users db ++ [u])%list).
Proof.
  unfold noticeActor, createUser.
  destruct (tokenUser cred db); [intros H; inversion H; auto|].
  destruct (production ctx); [intros H; inversion H; auto|].
  destruct (findByEmail _ (users db)); [intros H; inversion H; auto|].
  simpl. destruct (validRole _); [|discriminate].
  intros H. inversion H. simpl. repeat split. right. eexists. split; reflexivity.
Qed.

Lemma newNotice_fields (ctx : Ctx) (b : NoticeBody.t) (author i : ObjectId)
  (notice : Notice.t) :
  newNotice ctx b author i = Some notice ->
  Notice._id notice = i
  /\ NoticeBody.department b = Some (Notice.department notice)
  /\ (NoticeBody.status b = None -> Notice.status notice = "published")
  /\ (forall s, NoticeBody.status b = Some s -> Notice.status notice = s).
Proof.
  unfold newNotice, required, enumOr.
  destruct (option_map trim (NoticeBody.title b)) as [t|]; [|discriminate].
  destruct (t =? "")%string; [discriminate|].
  destruct (NoticeBody.content b) as [c|]; [|discriminate].
  destruct (c =? "")%string; [discriminate|].
  destruct (NoticeBody.category b) as [k|]; [|discriminate].
  destruct (k =? "")%string; [discriminate|].
  destruct (NoticeBody.department b) as [d|]; [|discriminate].
  destruct (d =? "")%string; [discriminate|].
  destruct (NoticeBody.priority b) as [p|];
    [destruct (stringIn p _); [|discriminate]|];
    (destruct (NoticeBody.status b) as [s|];
     [destruct (stringIn s _); [|discriminate]|]);
    (destruct (stringIn k _); [|discriminate]);
    intros H; inversion H; simpl; repeat split; congruence.
Qed.

(** The notifications POST /notices writes, for a request that is answered
    with the created notice: none unless the body's status is the string
    published; in that case one of type new_notice per target user, in the
    order of the users, each referring to the notice. *)
Lemma createNotice_notifications (ctx : Ctx) (cred : Credential)
  (b : NoticeBody.t) (db : DB) (notice : Notice.t) :
  data (fst (createNotice ctx cred b db)) = NoticeCreated notice ->
  exists fresh,
    notifications (snd (createNotice ctx cred b db))
    = (notifications db ++ fresh)%list
    /\ (NoticeBody.status b <> Some "published" -> fresh = [])
    /\ (NoticeBody.status b = Some "published" ->
        map Notification.user fresh
        = map User._id (targetUsers (Notice.department notice) (users db))
        /\ Forall (fun n => Notification.type n = "new_notice"
                            /\ Notification.relatedNotice n
                               = Some (Notice._id notice)) fresh).
Proof.
  unfold createNotice.
  destruct (noticeActor ctx cred (NoticeBody.dev b) (NoticeBody.department b) db)
    as [[[author|] db1]|] eqn:Hactor; try discriminate.
  destruct (noticeActor_keeps _ _ _ _ _ _ _ Hactor) as [_ [_ [Hns Hus]]].
  destruct (negb (User.role author =? "admin")%string
            && negb (User.role author =? "faculty")%string) eqn:Hrole;
    [discriminate|].
  destruct (newNotice ctx b (User._id author) (nextId db1)) as [n|] eqn:Hnew;
    [|discriminate].
  simpl. intros Hdata. inversion Hdata. subst n. clear Hdata.
  assert (Htargets : targetUsers (Notice.department notice) (users db1)
                     = targetUsers (Notice.department notice) (users db)).
  { destruct Hus as [Hus | [u [Hu Hus]]]; [rewrite Hus; reflexivity|].
    inversion Hu. subst u. rewrite Hus. apply targetUsers_snoc.
    intros Hstudent. rewrite Hstudent in Hrole. discriminate. }
  destruct (optStringEqb (NoticeBody.status b) (Some "published")) eqn:Hst.
  - rewrite insertMany_spec. simpl. rewrite Hns. eexists.
    split; [reflexivity|]. split.
    + intros Hne. exfalso. apply Hne.
      destruct (NoticeBody.status b) as [s|]; [|discriminate].
      simpl in Hst. apply String.eqb_eq in Hst. congruence.
    + intros _. split.
      * rewrite numbered_users by reflexivity. rewrite Htargets. reflexivity.
      * apply numbered_Forall. intros d j Hd. apply in_map_iff in Hd.
        destruct Hd as [u [Hd _]]. subst d. simpl. auto.
  - simpl. rewrite Hns. exists []. rewrite app_nil_r.
    split; [reflexivity|]. split; [reflexivity|].
    intros Heq. rewrite Heq in Hst. discriminate.
Qed.

(** Publishing for All Departments on the seed data notifies the four
    students; publishing for ECE notifies the one ECE student; a draft
    notifies nobody. *)
Example publish_all_departments :
  map Notification.user
    (notifications (snd (createNotice (mkCtx true 80) (TokenFor 1)
                           (circular "All Departments" (Some "published")) Seed.db)))
  = [5; 6; 7; 8].
Proof. reflexivity. Qed.

Example publish_ece :
  map Notification.user
    (notifications (snd (createNotice (mkCtx true 80) (TokenFor 3)
                           (circular "ECE" (Some "published")) Seed.db)))
  = [7].
Proof. reflexivity. Qed.

Example create_draft :
  notifications (snd (createNotice (mkCtx true 80) (TokenFor 1)
                        (circular "All Departments" (Some "draft")) Seed.db))
  = [].
Proof. reflexivity. Qed.

(** C6. On the seed data the admin creates a notice for All Departments
    and leaves the status out of the body.  The notice is stored with the
    status published, the default of the schema, and no notification is
    written, although four active students are in the target set. *)
Theorem default_published_notifies_nobody :
  let result := createNotice (mkCtx true 80) (TokenFor 1)
                  (circular "All Departments" None) Seed.db in
  code (fst result) = 201
  /\ option_map Notice.status (findById Notice._id 18 (notices (snd result)))
     = Some "published"
  /\ findById Notice._id 18 (notices Seed.db) = None
  /\ notifications (snd result) = []
  /\ map User._id (targetUsers "All Departments" (users (snd result)))
     = [5; 6; 7; 8].
Proof.
  intros result. vm_compute. repeat split.
Qed.

(** * Further properties of the routes *)

(** ** Well-formed databases *)

Section WfFacts.
Variable A : Type.
Variable id_of : A -> ObjectId.

Lemma save_ids (d : A) (l : list A) :
  map id_of (save id_of d l) = map id_of l.
Proof.
  unfold save. induction l as [|x l IH]; simpl; [reflexivity|].
  rewrite IH. destruct (id_of x =? id_of d) eqn:E; [|reflexivity].
  apply Nat.eqb_eq in E. rewrite E. reflexivity.
Qed.

Lemma wfc_save (k : ObjectId) (d : A) (l : list A) :
  wfc id_of k l -> wfc id_of k (save id_of d l).
Proof. unfold wfc. rewrite save_ids. tauto. Qed.

Lemma wfc_filter (k : ObjectId) (p : A -> bool) (l : list A) :
  wfc id_of k l -> wfc id_of k (filter p l).
Proof.
  unfold wfc. induction l as [|x l IH]; simpl; [tauto|].
  intros [Hnd Hall]. inversion Hnd as [|? ? Hnotin Hnd']; subst.
  inversion Hall as [|? ? Hx Hall']; subst.
  destruct (IH (conj Hnd' Hall')) as [IH1 IH2].
  destruct (p x); simpl; [|auto]. split.
  - constructor; [|exact IH1]. intros Hin. apply Hnotin.
    apply in_map_iff in Hin. destruct Hin as [y [Hy Hin]].
    apply filter_In in Hin. rewrite <- Hy. apply in_map. tauto.
  - constructor; assumption.
Qed.

Lemma wfc_mono (k k' : ObjectId) (l : list A) :
  k <= k' -> wfc id_of k l -> wfc id_of k' l.
Proof.
  unfold wfc. intros Hle [Hnd Hall]. split; [exact Hnd|].
  eapply Forall_impl; [|exact Hall]. simpl. intros. lia.
Qed.

Lemma wfc_insert (k : ObjectId) (d : A) (l : list A) :
  wfc id_of k l -> id_of d = k -> wfc id_of (k + 1) (insert d l).
Proof.
  unfold wfc, insert. intros [Hnd Hall] Hid. rewrite map_app. simpl. split.
  - apply NoDup_snoc; [exact Hnd|]. intros Hin.
    rewrite Forall_forall in Hall. apply Hall in Hin. lia.
  - apply Forall_app. split.
    + eapply Forall_impl; [|exact Hall]. simpl. intros. lia.
    + constructor; [lia | constructor].
Qed.

Lemma wfc_map (k : ObjectId) (g : A -> A) (l : list A) :
  (forall x, id_of (g x) = id_of x) ->
  wfc id_of k l -> wfc id_of k (map g l).
Proof.
  intros Hg. unfold wfc. rewrite map_map.
  rewrite (map_ext (fun x => id_of (g x)) id_of Hg). tauto.
Qed.
End WfFacts.

Lemma wf_users_insert (db : DB) (u : User.t) :
  wf db -> User._id u = nextId db ->
  wf (bump (set_users db (insert u (users db))) 1).
Proof.
  intros (Hu & Hn & Hc & Hf) Hid. unfold wf. simpl.
  split; [|split; [|split]];
    first [ apply wfc_insert; assumption
          | eapply wfc_mono; [|eassumption]; lia ].
Qed.

Lemma wf_notices_insert (db : DB) (n : Notice.t) :
  wf db -> Notice._id n = nextId db ->
  wf (bump (set_notices db (insert n (notices db))) 1).
Proof.
  intros (Hu & Hn & Hc & Hf) Hid. unfold wf. simpl.
  split; [|split; [|split]];
    first [ apply wfc_insert; assumption
          | eapply wfc_mono; [|eassumption]; lia ].
Qed.

Lemma wf_comments_insert (db : DB) (c : Comment.t) :
  wf db -> Comment._id c = nextId db ->
  wf (bump (set_comments db (insert c (comments db))) 1).
Proof.
  intros (Hu & Hn & Hc & Hf) Hid. unfold wf. simpl.
  split; [|split; [|split]];
    first [ apply wfc_insert; assumption
          | eapply wfc_mono; [|eassumption]; lia ].
Qed.

Lemma wf_notifications_insert (db : DB) (n : Notification.t) :
  wf db -> Notification._id n = nextId db ->
  wf (bump (set_notifications db (insert n (notifications db))) 1).
Proof.
  intros (Hu & Hn & Hc & Hf) Hid. unfold wf. simpl.
  split; [|split; [|split]];
    first [ apply wfc_insert; assumption
          | eapply wfc_mono; [|eassumption]; lia ].
Qed.

(** Replacing a collection by one that is well formed below the same id. *)
Lemma wf_set_users (db : DB) (us : list User.t) :
  wf db -> wfc User._id (nextId db) us -> wf (set_users db us).
Proof. intros (Hu & Hn & Hc & Hf) H. unfold wf. simpl. tauto. Qed.

Lemma wf_set_notices (db : DB) (ns : list Notice.t) :
  wf db -> wfc Notice._id (nextId db) ns -> wf (set_notices db ns).
Proof. intros (Hu & Hn & Hc & Hf) H. unfold wf. simpl. tauto. Qed.

Lemma wf_set_comments (db : DB) (cs : list Comment.t) :
  wf db -> wfc Comment._id (nextId db) cs -> wf (set_comments db cs).
Proof. intros (Hu & Hn & Hc & Hf) H. unfold wf. simpl. tauto. Qed.

Lemma wf_set_notifications (db : DB) (ns : list Notification.t) :
  wf db -> wfc Notification._id (nextId db) ns -> wf (set_notifications db ns).
Proof. intros (Hu & Hn & Hc & Hf) H. unfold wf. simpl. tauto. Qed.

Lemma wf_insertMany (docs : list (ObjectId -> Notification.t)) (db : DB) :
  (forall d i, In d docs -> Notification._id (d i) = i) ->
  wf db -> wf (insertMany docs db).
Proof.
  revert db. induction docs as [|d docs IH]; intros db Hid Hwf; simpl;
    [exact Hwf|].
  apply IH.
  - intros d' i Hin. apply Hid. right. exact Hin.
  - apply wf_notifications_insert; [exact Hwf|]. apply Hid. left. reflexivity.
Qed.

Lemma createUser_wf (fields : ObjectId -> User.t) (db db' : DB) (u : User.t) :
  (forall i, User._id (fields i) = i) ->
  createUser fields db = Some (u, db') -> wf db -> wf db'.
Proof.
  unfold createUser. intros Hid H Hwf.
  destruct (validRole _); [|discriminate]. inversion H; subst.
  apply wf_users_insert; [exact Hwf | apply Hid].
Qed.

Lemma commentActor_wf (ctx : Ctx) (cred : Credential) (dev : DevFields)
  (db db' : DB) (actor : option User.t) :
  commentActor ctx cred dev db = Some (actor, db') -> wf db -> wf db'.
Proof.
  unfold commentActor.
  destruct (tokenUser cred db); [intros H; inversion H; subst; auto|].
  destruct (production ctx); [intros H; inversion H; subst; auto|].
  destruct (findByEmail _ (users db)); [intros H; inversion H; subst; auto|].
  destruct (createUser _ db) as [[u db1]|] eqn:E; [|discriminate].
  intros H Hwf. inversion H; subst.
  eapply createUser_wf; [|exact E|exact Hwf]. reflexivity.
Qed.

Lemma noticeActor_wf (ctx : Ctx) (cred : Credential) (dev : DevFields)
  (department : option string) (db db' : DB) (actor : option User.t) :
  noticeActor ctx cred dev department db = Some (actor, db') -> wf db -> wf db'.
Proof.
  unfold noticeActor.
  destruct (tokenUser cred db); [intros H; inversion H; subst; auto|].
  destruct (production ctx); [intros H; inversion H; subst; auto|].
  destruct (findByEmail _ (users db)); [intros H; inversion H; subst; auto|].
  destruct (createUser _ db) as [[u db1]|] eqn:E; [|discriminate].
  intros H Hwf. inversion H; subst.
  eapply createUser_wf; [|exact E|exact Hwf]. reflexivity.
Qed.

Lemma updateActor_wf (bare : bool) (ctx : Ctx) (cred : Credential)
  (dev : DevFields) (db db' : DB) (actor : option User.t) :
  updateActor bare ctx cred dev db = Some (actor, db') -> wf db -> wf db'.
Proof.
  unfold updateActor.
  destruct (tokenUser cred db); [intros H; inversion H; subst; auto|].
  destruct (production ctx); [intros H; inversion H; subst; auto|].
  destruct (findByEmail _ (users db)); [intros H; inversion H; subst; auto|].
  destruct bare; [|discriminate].
  destruct (createUser _ db) as [[u db1]|] eqn:E; [|discriminate].
  intros H Hwf. inversion H; subst.
  eapply createUser_wf; [|exact E|exact Hwf]. reflexivity.
Qed.

Lemma getNotice_wf (ctx : Ctx) (r : GetReq.t) (db : DB) :
  wf db -> wf (snd (getNotice ctx r db)).
Proof.
  intros Hwf. unfold getNotice. destruct (GetReq.id r) as [|i]; [exact Hwf|].
  destruct (findById Notice._id i (notices db)) as [notice|]; [|exact Hwf].
  destruct (GetReq.user r) as [user|]; simpl; [|exact Hwf].
  unfold recordView. destruct (negb _); simpl; [|exact Hwf].
  apply wf_set_notices; [exact Hwf|]. apply wfc_save. apply Hwf.
Qed.

Lemma acknowledgeNotice_wf (ctx : Ctx) (cred : Credential) (id : IdArg) (db : DB) :
  wf db -> wf (snd (acknowledgeNotice ctx cred id db)).
Proof.
  intros Hwf. unfold acknowledgeNotice.
  destruct (authenticate cred db) as [denied|user]; [exact Hwf|].
  destruct id as [|i]; [exact Hwf|].
  destruct (findById Notice._id i (notices db)) as [notice|]; [|exact Hwf].
  destruct (negb _); simpl; [|exact Hwf].
  apply wf_set_notices; [exact Hwf|]. apply wfc_save. apply Hwf.
Qed.

Lemma createNotice_wf (ctx : Ctx) (cred : Credential) (b : NoticeBody.t) (db : DB) :
  wf db -> wf (snd (createNotice ctx cred b db)).
Proof.
  intros Hwf. unfold createNotice.
  destruct (noticeActor ctx cred (NoticeBody.dev b) (NoticeBody.department b) db)
    as [[[author|] db1]|] eqn:Hactor; [| |exact Hwf];
    pose proof (noticeActor_wf _ _ _ _ _ _ _ Hactor Hwf) as Hwf1;
    [|exact Hwf1].
  destruct (negb _ && negb _); [exact Hwf1|].
  destruct (newNotice ctx b (User._id author) (nextId db1)) as [notice|] eqn:Hnew;
    [|exact Hwf1].
  destruct (newNotice_fields _ _ _ _ _ Hnew) as [Hid _]. simpl.
  pose proof (wf_notices_insert db1 notice Hwf1 Hid) as Hwf2.
  destruct (optStringEqb _ _); [|exact Hwf2].
  apply wf_insertMany; [|exact Hwf2].
  intros d i Hin. apply in_map_iff in Hin. destruct Hin as [u [Hd _]].
  subst d. reflexivity.
Qed.

Lemma notifyAndRespond_wf (ctx : Ctx) (author : User.t) (notice : Notice.t)
  (comment : Comment.t) (db : DB) :
  wf db -> wf (snd (notifyAndRespond ctx author notice comment db)).
Proof.
  intros Hwf. unfold notifyAndRespond. simpl.
  set (db1 := match populateAuthor (Notice.author notice) db with
              | Some a => _
              | None => db
              end).
  assert (Hwf1 : wf db1).
  { unfold db1. destruct (populateAuthor _ db) as [a|]; [|exact Hwf].
    destruct (negb _); [|exact Hwf].
    apply wf_notifications_insert; [exact Hwf | reflexivity]. }
  destruct (Comment.parentComment comment) as [p|]; [|exact Hwf1].
  destruct (findById Comment._id p (comments db1)) as [parent|]; [|exact Hwf1].
  destruct (populateAuthor _ db1) as [pa|]; [|exact Hwf1].
  destruct (negb _); [|exact Hwf1].
  apply wf_notifications_insert; [exact Hwf1 | reflexivity].
Qed.

Lemma createComment_wf (ctx : Ctx) (cred : Credential) (b : CommentBody.t)
  (db : DB) :
  wf db -> wf (snd (createComment ctx cred b db)).
Proof.
  intros Hwf. unfold createComment.
  destruct (CommentBody.noticeId b) as [[|noticeId]|]; try exact Hwf;
    destruct (nonBlank (CommentBody.content b)) as [content|]; try exact Hwf.
  destruct (findById Notice._id noticeId (notices db)) as [notice|]; [|exact Hwf].
  destruct (commentActor ctx cred (CommentBody.dev b) db)
    as [[[author|] db1]|] eqn:Hactor; [| |exact Hwf];
    pose proof (commentActor_wf _ _ _ _ _ _ Hactor Hwf) as Hwf1;
    [|exact Hwf1].
  set (comment := Comment.mk (nextId db1) noticeId (User._id author)
                    (trim content) None [] false false (now ctx)).
  pose proof (wf_comments_insert db1 comment Hwf1 eq_refl) as Hwf2.
  destruct (CommentBody.parentCommentId b) as [[|parentId]|].
  - exact Hwf2.
  - destruct (findById Comment._id parentId _) as [parent|]; [|exact Hwf2].
    destruct (negb _); [exact Hwf2|].
    apply notifyAndRespond_wf. apply wf_set_comments; [exact Hwf2|].
    apply wfc_save. apply Hwf2.
  - apply notifyAndRespond_wf. exact Hwf2.
Qed.

Lemma deleteNotice_wf (cred : Credential) (id : IdArg) (db : DB) :
  wf db -> wf (snd (deleteNotice cred id db)).
Proof.
  intros Hwf. unfold deleteNotice.
  destruct (authenticate cred db) as [denied|user]; [exact Hwf|].
  destruct (isAdminOrFaculty user); [exact Hwf|].
  destruct id as [|i]; [exact Hwf|].
  destruct (findById Notice._id i (notices db)) as [notice|]; [|exact Hwf].
  destruct (negb _ && negb _); [exact Hwf|]. simpl.
  destruct Hwf as (Hu & Hn & Hc & Hf). unfold wf, deleteOne, deleteMany. simpl.
  repeat (split; [try assumption; apply wfc_filter; assumption|]).
  apply wfc_filter; assumption.
Qed.

Lemma deleteComment_wf (ctx : Ctx) (cred : Credential) (dev : DevFields)
  (id : IdArg) (db : DB) :
  wf db -> wf (snd (deleteComment ctx cred dev id db)).
Proof.
  intros Hwf. unfold deleteComment. destruct id as [|i]; [exact Hwf|].
  destruct (findById Comment._id i (comments db)) as [comment|]; [|exact Hwf].
  destruct (commentActor ctx cred dev db) as [[[actor|] db1]|] eqn:Hactor;
    [| |exact Hwf];
    pose proof (commentActor_wf _ _ _ _ _ _ Hactor Hwf) as Hwf1;
    [|exact Hwf1].
  destruct (negb _ && negb _); [exact Hwf1|]. simpl.
  apply wf_set_comments.
  - destruct (Comment.parentComment comment) as [p|].
    + destruct (findById Comment._id p (comments db1)); [|exact Hwf1].
      apply wf_set_comments; [exact Hwf1|]. apply wfc_save. apply Hwf1.
    + apply wf_set_comments; [exact Hwf1|]. apply wfc_filter. apply Hwf1.
  - apply wfc_filter.
    destruct (Comment.parentComment comment) as [p|].
    + destruct (findById Comment._id p (comments db1)); simpl;
        [apply wfc_save|]; apply Hwf1.
    + simpl. apply wfc_filter. apply Hwf1.
Qed.

Lemma markRead_wf (ctx : Ctx) (cred : Credential) (id : IdArg) (db : DB) :
  wf db -> wf (snd (markRead ctx cred id db)).
Proof.
  intros Hwf. unfold markRead.
  destruct (authenticate cred db) as [denied|user]; [exact Hwf|].
  destruct id as [|i]; [exact Hwf|].
  destruct (findOwn i (User._id user) (notifications db)); [|exact Hwf].
  simpl. apply wf_set_notifications; [exact Hwf|]. apply wfc_save. apply Hwf.
Qed.

Lemma deleteNotification_wf (cred : Credential) (id : IdArg) (db : DB) :
  wf db -> wf (snd (deleteNotification cred id db)).
Proof.
  intros Hwf. unfold deleteNotification.
  destruct (authenticate cred db) as [denied|user]; [exact Hwf|].
  destruct id as [|i]; [exact Hwf|].
  destruct (findOwn i (User._id user) (notifications db)); [|exact Hwf].
  simpl. apply wf_set_notifications; [exact Hwf|]. apply wfc_filter. apply Hwf.
Qed.

Lemma markAllRead_wf (ctx : Ctx) (cred : Credential) (db : DB) :
  wf db -> wf (snd (markAllRead ctx cred db)).
Proof.
  intros Hwf. unfold markAllRead.
  destruct (authenticate cred db) as [denied|user]; [exact Hwf|].
  simpl. apply wf_set_notifications; [exact Hwf|]. apply wfc_map; [|apply Hwf].
  intros n. destruct (_ && _); reflexivity.
Qed.

Lemma applyUpdate_keeps (b : NoticeBody.t) (notice notice' : Notice.t) :
  applyUpdate b notice = Some notice' ->
  Notice._id notice' = Notice._id notice
  /\ Notice.author notice' = Notice.author notice
  /\ Notice.views notice' = Notice.views notice
  /\ Notice.acknowledged notice' = Notice.acknowledged notice
  /\ Notice.isPinned notice' = Notice.isPinned notice
  /\ Notice.isArchived notice' = Notice.isArchived notice
  /\ Notice.createdAt notice' = Notice.createdAt notice.
Proof.
  unfold applyUpdate. destruct (validNotice _); [|discriminate].
  intros H. inversion H. simpl. repeat split.
Qed.

Lemma updateNotice_wf (bare : bool) (ctx : Ctx) (cred : Credential) (id : IdArg)
  (b : NoticeBody.t) (db : DB) :
  wf db -> wf (snd (updateNotice bare ctx cred id b db)).
Proof.
  intros Hwf. unfold updateNotice. destruct id as [|i]; [exact Hwf|].
  destruct (findById Notice._id i (notices db)) as [notice|]; [|exact Hwf].
  destruct (updateActor bare ctx cred (NoticeBody.dev b) db)
    as [[[actor|] db1]|] eqn:Hactor; [| |exact Hwf];
    pose proof (updateActor_wf _ _ _ _ _ _ _ Hactor Hwf) as Hwf1;
    [|exact Hwf1].
  destruct (negb _ && negb _); [exact Hwf1|].
  destruct (applyUpdate b notice); [|exact Hwf1].
  simpl. apply wf_set_notices; [exact Hwf1|]. apply wfc_save. apply Hwf1.
Qed.

Lemma updateComment_wf (ctx : Ctx) (cred : Credential) (dev : DevFields)
  (id : IdArg) (content : option string) (db : DB) :
  wf db -> wf (snd (updateComment ctx cred dev id content db)).
Proof.
  intros Hwf. unfold updateComment. destruct id as [|i]; [exact Hwf|].
  destruct (findById Comment._id i (comments db)) as [comment|]; [|exact Hwf].
  destruct (commentActor ctx cred dev db) as [[[actor|] db1]|] eqn:Hactor;
    [| |exact Hwf];
    pose proof (commentActor_wf _ _ _ _ _ _ Hactor Hwf) as Hwf1;
    [|exact Hwf1].
  destruct (negb _ && negb _); [exact Hwf1|].
  destruct content as [content|]; [|exact Hwf1].
  destruct (nonEmpty _); [|exact Hwf1].
  simpl. apply wf_set_comments; [exact Hwf1|]. apply wfc_save. apply Hwf1.
Qed.

Lemma deleteUser_wf (cred : Credential) (id : IdArg) (db : DB) :
  wf db -> wf (snd (deleteUser cred id db)).
Proof.
  intros Hwf. unfold deleteUser.
  destruct (authenticate cred db) as [denied|user]; [exact Hwf|].
  destruct (isAdmin user); [exact Hwf|].
  destruct id as [|i]; [exact Hwf|].
  destruct (findById User._id i (users db)) as [u|]; [|exact Hwf].
  destruct (User._id u =? User._id user); [exact Hwf|].
  simpl. apply wf_set_users; [exact Hwf|]. apply wfc_filter. apply Hwf.
Qed.

(** Every route that writes keeps the database well formed: ids stay unique
    in each collection and below the next id the model hands out, so a new
    document never takes the id of a stored one. *)
Theorem routes_keep_wf (bare : bool) (ctx : Ctx) (cred : Credential)
  (id : IdArg) (dev : DevFields) (db : DB) :
  wf db ->
  (forall r, wf (snd (getNotice ctx r db)))
  /\ (forall b, wf (snd (createNotice ctx cred b db)))
  /\ (forall b, wf (snd (updateNotice bare ctx cred id b db)))
  /\ wf (snd (deleteNotice cred id db))
  /\ wf (snd (acknowledgeNotice ctx cred id db))
  /\ (forall b, wf (snd (createComment ctx cred b db)))
  /\ (forall content, wf (snd (updateComment ctx cred dev id content db)))
  /\ wf (snd (deleteComment ctx cred dev id db))
  /\ wf (snd (markRead ctx cred id db))
  /\ wf (snd (markAllRead ctx cred db))
  /\ wf (snd (deleteNotification cred id db))
  /\ wf (snd (deleteUser cred id db)).
Proof.
  intros Hwf.
  split; [intros r; apply getNotice_wf; exact Hwf|].
  split; [intros b; apply createNotice_wf; exact Hwf|].
  split; [intros b; apply updateNotice_wf; exact Hwf|].
  split; [apply deleteNotice_wf; exact Hwf|].
  split; [apply acknowledgeNotice_wf; exact Hwf|].
  split; [intros b; apply createComment_wf; exact Hwf|].
  split; [intros c; apply updateComment_wf; exact Hwf|].
  split; [apply deleteComment_wf; exact Hwf|].
  split; [apply markRead_wf; exact Hwf|].
  split; [apply markAllRead_wf; exact Hwf|].
  split; [apply deleteNotification_wf; exact Hwf|].
  apply deleteUser_wf; exact Hwf.
Qed.

Ltac wf_concrete :=
  unfold wf, wfc; simpl;
  repeat match goal with
         | |- _ /\ _ => split
         | |- NoDup _ => nodup_nat
         | |- Forall _ _ => repeat constructor; lia
         end.

Lemma threaded_wf : wf threaded.
Proof. wf_concrete. Qed.

Lemma routes_keep_wf_witness :
  wf (snd (createComment (mkCtx false 70) NoToken
             (CommentBody.mk (Some (Oid 10)) (Some "Me too") (Some (Oid 14)) noDev)
             threaded))
  /\ wf (snd (deleteNotice (TokenFor 2) (Oid 10) threaded)).
Proof.
  destruct (routes_keep_wf true (mkCtx false 70) NoToken (Oid 10) noDev threaded
              threaded_wf)
    as (_ & _ & _ & _ & _ & Hcreate & _).
  destruct (routes_keep_wf true (mkCtx false 70) (TokenFor 2) (Oid 10) noDev threaded
              threaded_wf)
    as (_ & _ & _ & Hdelete & _).
  split; [apply Hcreate | exact Hdelete].
Defined.

(** ** The once-per-user invariant *)

Lemma Forall_save (A : Type) (id_of : A -> ObjectId) (P : A -> Prop) (d : A)
  (l : list A) :
  Forall P l -> P d -> Forall P (save id_of d l).
Proof.
  intros Hall Hd. unfold save. rewrite Forall_forall in *.
  intros x Hx. apply in_map_iff in Hx. destruct Hx as [y [Hy Hin]].
  destruct (id_of y =? id_of d); subst; auto.
Qed.

Lemma Forall_filter_keep (A : Type) (P : A -> Prop) (p : A -> bool) (l : list A) :
  Forall P l -> Forall P (filter p l).
Proof.
  rewrite !Forall_forall. intros H x Hx. apply filter_In in Hx. apply H. tauto.
Qed.

Lemma updateActor_keeps (bare : bool) (ctx : Ctx) (cred : Credential)
  (dev : DevFields) (db db' : DB) (actor : option User.t) :
  updateActor bare ctx cred dev db = Some (actor, db') ->
  notices db' = notices db /\ comments db' = comments db
  /\ notifications db' = notifications db.
Proof.
  unfold updateActor, createUser.
  destruct (tokenUser cred db); [intros H; inversion H; auto|].
  destruct (production ctx); [intros H; inversion H; auto|].
  destruct (findByEmail _ (users db)); [intros H; inversion H; auto|].
  destruct bare; [|discriminate].
  simpl. destruct (validRole _); [|discriminate].
  intros H. inversion H. auto.
Qed.

(** X2. The routes that write notices keep the invariant of the data model:
    if no stored notice lists a user twice among its views or among its
    acknowledgments, none does afterwards. *)
Theorem notice_routes_keep_once_per_user (bare : bool) (ctx : Ctx)
  (cred : Credential) (id : IdArg) (db : DB) :
  all_once db ->
  (forall r, all_once (snd (getNotice ctx r db)))
  /\ all_once (snd (acknowledgeNotice ctx cred id db))
  /\ (forall b, all_once (snd (createNotice ctx cred b db)))
  /\ (forall b, all_once (snd (updateNotice bare ctx cred id b db)))
  /\ all_once (snd (deleteNotice cred id db)).
Proof.
  unfold all_once. intros Hall.
  assert (Hfound : forall i n, findById Notice._id i (notices db) = Some n ->
                               once_per_user n).
  { intros i n Hf. apply findById_Some in Hf. destruct Hf as [Hin _].
    rewrite Forall_forall in Hall. apply Hall. exact Hin. }
  split; [|split; [|split; [|split]]].
  - intros r. unfold getNotice. destruct (GetReq.id r) as [|i]; [exact Hall|].
    destruct (findById Notice._id i (notices db)) as [notice|] eqn:Hf;
      [|exact Hall].
    destruct (GetReq.user r) as [user|]; simpl; [|exact Hall].
    pose proof (recordView_once_per_user ctx user notice db (Hfound _ _ Hf)) as Hn.
    unfold recordView in *. destruct (negb _); simpl in *; [|exact Hall].
    apply Forall_save; assumption.
  - unfold acknowledgeNotice.
    destruct (authenticate cred db) as [denied|user]; [exact Hall|].
    destruct id as [|i]; [exact Hall|].
    destruct (findById Notice._id i (notices db)) as [notice|] eqn:Hf;
      [|exact Hall].
    destruct (existsb _ (Notice.acknowledged notice)) eqn:E; simpl; [exact Hall|].
    apply Forall_save; [exact Hall|].
    destruct (Hfound _ _ Hf) as [Hv Ha]. split; [exact Hv|]. simpl.
    rewrite map_app. simpl. apply NoDup_snoc; [exact Ha|].
    apply (existsb_key_false _ Ack.user _ _ E).
  - intros b. unfold createNotice.
    destruct (noticeActor ctx cred (NoticeBody.dev b) (NoticeBody.department b) db)
      as [[[author|] db1]|] eqn:Hactor; [| |exact Hall];
      destruct (noticeActor_keeps _ _ _ _ _ _ _ Hactor) as [Hns _];
      [|simpl; rewrite Hns; exact Hall].
    destruct (negb _ && negb _); [simpl; rewrite Hns; exact Hall|].
    destruct (newNotice ctx b (User._id author) (nextId db1)) as [notice|] eqn:Hnew;
      [|simpl; rewrite Hns; exact Hall].
    assert (Hnew1 : once_per_user notice).
    { unfold newNotice in Hnew.
      repeat match type of Hnew with
             | match ?x with _ => _ end = _ => destruct x; try discriminate
             | (if ?x then _ else _) = _ => destruct x; try discriminate
             end.
      inversion Hnew. split; simpl; constructor. }
    simpl. destruct (optStringEqb _ _); [rewrite insertMany_spec|]; simpl;
      rewrite Hns; unfold insert; apply Forall_app; split; auto.
  - intros b. unfold updateNotice. destruct id as [|i]; [exact Hall|].
    destruct (findById Notice._id i (notices db)) as [notice|] eqn:Hf;
      [|exact Hall].
    destruct (updateActor bare ctx cred (NoticeBody.dev b) db)
      as [[[actor|] db1]|] eqn:Hactor; [| |exact Hall];
      destruct (updateActor_keeps _ _ _ _ _ _ _ Hactor) as [Hns _];
      [|simpl; rewrite Hns; exact Hall].
    destruct (negb _ && negb _); [simpl; rewrite Hns; exact Hall|].
    destruct (applyUpdate b notice) as [notice'|] eqn:Hup;
      [|simpl; rewrite Hns; exact Hall].
    simpl. rewrite Hns. apply Forall_save; [exact Hall|].
    destruct (applyUpdate_keeps _ _ _ Hup) as (_ & _ & Hv & Ha & _).
    unfold once_per_user. rewrite Hv, Ha. exact (Hfound _ _ Hf).
  - unfold deleteNotice.
    destruct (authenticate cred db) as [denied|user]; [exact Hall|].
    destruct (isAdminOrFaculty user); [exact Hall|].
    destruct id as [|i]; [exact Hall|].
    destruct (findById Notice._id i (notices db)) as [notice|]; [|exact Hall].
    destruct (negb _ && negb _); [exact Hall|]. simpl.
    apply Forall_filter_keep. exact Hall.
Qed.

Lemma threaded_all_once : all_once threaded.
Proof.
  unfold all_once, once_per_user. simpl.
  repeat (constructor; [split; simpl; nodup_nat|]). constructor.
Qed.

Lemma notice_routes_keep_once_per_user_witness :
  all_once (snd (acknowledgeNotice (mkCtx true 90) (TokenFor 7) (Oid 9) threaded))
  /\ all_once (snd (getNotice (mkCtx true 90)
                      (GetReq.mk (Some Seed.student3) (Oid 9)) threaded)).
Proof.
  destruct (notice_routes_keep_once_per_user true (mkCtx true 90) (TokenFor 7)
              (Oid 9) threaded threaded_all_once) as (Hget & Hack & _).
  split; [exact Hack | apply Hget].
Defined.

(** ** The order and the size of a listing *)

Section SortedFacts.
Variable A : Type.
Variable before : A -> A -> bool.
Hypothesis before_total : forall x y, before x y = true \/ before y x = true.
Hypothesis before_trans :
  forall x y z, before x y = true -> before y z = true -> before x z = true.

Lemma insertBy_sorted (x : A) (l : list A) :
  StronglySorted (fun a b => before a b = true) l ->
  StronglySorted (fun a b => before a b = true) (insertBy before x l).
Proof.
  induction 1 as [|y l Hl IH Hy]; simpl.
  - constructor; constructor.
  - destruct (before x y) eqn:E.
    + constructor; [constructor; assumption|].
      constructor; [exact E|].
      rewrite Forall_forall in *. intros z Hz.
      apply before_trans with (y := y); auto.
    + constructor; [exact IH|].
      rewrite Forall_forall in *. intros z Hz.
      apply insertBy_In in Hz. destruct Hz as [Hz | Hz]; [|auto].
      subst z. destruct (before_total x y) as [H | H]; congruence.
Qed.

Lemma sortBy_sorted (l : list A) :
  StronglySorted (fun a b => before a b = true) (sortBy before l).
Proof.
  induction l as [|x l IH]; simpl; [constructor|].
  apply insertBy_sorted. exact IH.
Qed.
End SortedFacts.

Lemma StronglySorted_skipn (A : Type) (R : A -> A -> Prop) (k : nat) (l : list A) :
  StronglySorted R l -> StronglySorted R (skipn k l).
Proof.
  revert l. induction k as [|k IH]; intros l H; simpl; [exact H|].
  destruct l as [|x l]; [constructor|].
  apply IH. inversion H; assumption.
Qed.

Lemma StronglySorted_firstn (A : Type) (R : A -> A -> Prop) (k : nat) (l : list A) :
  StronglySorted R l -> StronglySorted R (firstn k l).
Proof.
  revert l. induction k as [|k IH]; intros l H; simpl; [constructor|].
  destruct l as [|x l]; [constructor|].
  inversion H as [|? ? Hl Hx]; subst. constructor; [apply IH; exact Hl|].
  rewrite Forall_forall in *. intros z Hz. apply Hx.
  apply firstn_In in Hz. exact Hz.
Qed.

Lemma StronglySorted_limitTo (A : Type) (R : A -> A -> Prop) (k : nat)
  (l : list A) :
  StronglySorted R l -> StronglySorted R (limitTo k l).
Proof.
  unfold limitTo. destruct (k =? 0); [tauto | apply StronglySorted_firstn].
Qed.

Lemma StronglySorted_weaken (A : Type) (R R' : A -> A -> Prop) (l : list A) :
  (forall x y, R x y -> R' x y) -> StronglySorted R l -> StronglySorted R' l.
Proof.
  intros HR. induction 1 as [|x l Hl IH Hx]; constructor; [exact IH|].
  eapply Forall_impl; [|exact Hx]. apply HR.
Qed.

Lemma pinnedThenNewer_total (a b : Notice.t) :
  pinnedThenNewer a b = true \/ pinnedThenNewer b a = true.
Proof.
  unfold pinnedThenNewer.
  destruct (Notice.isPinned a), (Notice.isPinned b); auto;
    destruct (Nat.le_ge_cases (Notice.createdAt a) (Notice.createdAt b));
    rewrite !Nat.leb_le; auto.
Qed.

Lemma pinnedThenNewer_trans (a b c : Notice.t) :
  pinnedThenNewer a b = true -> pinnedThenNewer b c = true ->
  pinnedThenNewer a c = true.
Proof.
  unfold pinnedThenNewer.
  destruct (Notice.isPinned a), (Notice.isPinned b), (Notice.isPinned c);
    try discriminate; auto; rewrite !Nat.leb_le; lia.
Qed.

Lemma pinnedThenNewer_ranks (a b : Notice.t) :
  pinnedThenNewer a b = true -> ranksBefore a b.
Proof.
  unfold pinnedThenNewer, ranksBefore.
  destruct (Notice.isPinned a), (Notice.isPinned b);
    try discriminate; rewrite ?Nat.leb_le; intuition congruence.
Qed.

Section ListingOrder.
Variable regex_i : string -> string -> bool.

Lemma listed_200 (r : ListReq.t) (db : DB) :
  listed (fst (listNotices regex_i r db)) = []
  \/ listed (fst (listNotices regex_i r db)) =
     limitTo (match ListReq.limit r with Some l => l | None => 20 end)
       (skipn ((match ListReq.page r with Some p => p | None => 1 end - 1)
               * match ListReq.limit r with Some l => l | None => 20 end)
          (sortBy pinnedThenNewer
             (filter (matches regex_i (buildQuery r)) (notices db)))).
Proof.
  unfold listNotices, listed.
  destruct ((_ =? 0) && negb (_ =? 0)); simpl; [left; reflexivity|].
  right. rewrite map_map. simpl. apply map_id.
Qed.

(** X3. The notices of a listing come pinned first and, among notices pinned
    alike, newest first: each one ranks before all that follow it. *)
Theorem listing_order (r : ListReq.t) (db : DB) :
  StronglySorted ranksBefore (listed (fst (listNotices regex_i r db))).
Proof.
  destruct (listed_200 r db) as [H | H]; rewrite H; [constructor|].
  apply StronglySorted_weaken with (R := fun a b => pinnedThenNewer a b = true);
    [exact pinnedThenNewer_ranks|].
  apply StronglySorted_limitTo, StronglySorted_skipn, sortBy_sorted.
  - exact pinnedThenNewer_total.
  - exact pinnedThenNewer_trans.
Qed.

(** X4. A listing holds at most as many notices as the limit asks for, twenty
    when the request names no limit; a limit of zero is no limit. *)
Theorem listing_size (r : ListReq.t) (db : DB) :
  match ListReq.limit r with
  | Some 0 => True
  | Some l => List.length (listed (fst (listNotices regex_i r db))) <= l
  | None => List.length (listed (fst (listNotices regex_i r db))) <= 20
  end.
Proof.
  destruct (listed_200 r db) as [H | H]; rewrite H.
  - destruct (ListReq.limit r) as [[|l]|]; simpl; auto; lia.
  - destruct (ListReq.limit r) as [[|l]|]; [exact I| |];
      unfold limitTo; simpl Nat.eqb; cbv iota; apply firstn_le_length.
Qed.

Lemma buildQuery_status (r : ListReq.t) :
  q_status (buildQuery r) =
    Some (orDefault (ListReq.status r) "published")
  /\ q_isArchived (buildQuery r) = false
  /\ q_category (buildQuery r) =
       match ListReq.category r with
       | Some c =>
           if negb (c =? "")%string && negb (c =? "all")%string
           then Some c else None
       | None => None
       end.
Proof.
  unfold buildQuery, orDefault.
  destruct (ListReq.category r) as [c|];
    [destruct (negb (c =? "")%string && negb (c =? "all")%string)|];
    (destruct (explicitDepartment (ListReq.department r));
     [|destruct (studentOrFaculty (ListReq.user r))]);
    (destruct (ListReq.status r) as [st|]; [destruct (st =? "")%string|]);
    (destruct (ListReq.search r) as [w|]; [destruct (negb (w =? "")%string)|]);
    destruct (studentYear (ListReq.user r)); simpl; auto.
Qed.

(** X5. No archived notice is ever listed; a listed notice has the status
    the request asks for, and the status published when the request names
    none or an empty one; and it has the category asked for, unless that is
    empty or the word all. *)
Theorem listing_status (r : ListReq.t) (db : DB) (n : Notice.t) :
  In n (listed (fst (listNotices regex_i r db))) ->
  Notice.isArchived n = false
  /\ Notice.status n = orDefault (ListReq.status r) "published"
  /\ (forall c, ListReq.category r = Some c -> c <> "" -> c <> "all" ->
                Notice.category n = c).
Proof.
  intros Hin. apply listed_matches in Hin. destruct Hin as [_ Hm].
  destruct (buildQuery_status r) as (Hs & Ha & Hc).
  unfold matches in Hm. rewrite Hs, Ha, Hc in Hm.
  repeat (apply andb_true_iff in Hm; destruct Hm as [Hm ?]).
  split; [|split].
  - destruct (Notice.isArchived n); [discriminate | reflexivity].
  - apply String.eqb_eq. assumption.
  - intros c Hcat Hne Hall. rewrite Hcat in *.
    apply String.eqb_neq in Hne, Hall. rewrite Hne, Hall in *. simpl in *.
    apply String.eqb_eq. assumption.
Qed.

(** X6. A viewer who is neither a student nor a member of the faculty, an
    admin for one, is answered exactly as a request without a viewer. *)
Theorem listing_for_admin (r : ListReq.t) (db : DB) (user : User.t) :
  ListReq.user r = Some user ->
  User.role user <> "student" -> User.role user <> "faculty" ->
  listNotices regex_i r db =
  listNotices regex_i
    (ListReq.mk None (ListReq.category r) (ListReq.department r)
       (ListReq.status r) (ListReq.search r) (ListReq.page r) (ListReq.limit r))
    db.
Proof.
  intros Hu Hs Hf.
  assert (Hq : buildQuery r =
               buildQuery (ListReq.mk None (ListReq.category r)
                             (ListReq.department r) (ListReq.status r)
                             (ListReq.search r) (ListReq.page r) (ListReq.limit r))).
  { unfold buildQuery. simpl. rewrite Hu. unfold studentOrFaculty, studentYear.
    apply String.eqb_neq in Hs, Hf. rewrite Hs, Hf. reflexivity. }
  unfold listNotices. rewrite <- Hq. reflexivity.
Qed.
End ListingOrder.

Lemma listing_status_witness :
  In Seed.notice2 (listed (fst (listNotices literal_i studentListing Seed.db)))
  /\ Notice.isArchived Seed.notice2 = false
  /\ Notice.status Seed.notice2 = "published".
Proof.
  assert (Hin : In Seed.notice2
                  (listed (fst (listNotices literal_i studentListing Seed.db)))).
  { vm_compute. right. right. left. reflexivity. }
  split; [exact Hin|].
  destruct (listing_status literal_i studentListing Seed.db Seed.notice2 Hin)
    as (Ha & Hs & _).
  split; [exact Ha | exact Hs].
Defined.

Lemma listing_for_admin_witness :
  listNotices literal_i
    (ListReq.mk (Some Seed.admin) None None None (Some "exam") None None) Seed.db
  = listNotices literal_i
      (ListReq.mk None None None None (Some "exam") None None) Seed.db.
Proof.
  apply (listing_for_admin literal_i
           (ListReq.mk (Some Seed.admin) None None None (Some "exam") None None)
           Seed.db Seed.admin).
  - reflexivity.
  - simpl. discriminate.
  - simpl. discriminate.
Defined.

(** ** Reading one notice *)

Lemma newerComment_total (a b : Comment.t) :
  newerComment a b = true \/ newerComment b a = true.
Proof.
  unfold newerComment. rewrite !Nat.leb_le. lia.
Qed.

Lemma newerComment_trans (a b c : Comment.t) :
  newerComment a b = true -> newerComment b c = true -> newerComment a c = true.
Proof.
  unfold newerComment. rewrite !Nat.leb_le. lia.
Qed.

(** X7. GET /notices/:id of a stored notice answers with exactly the stored
    comments of that notice, newest first; with a viewer, the notice of the
    answer holds a view entry of that viewer; without one, the notice is
    answered as stored and the database is left as it is. *)
Theorem getNotice_answer (ctx : Ctx) (r : GetReq.t) (i : ObjectId) (db : DB)
  (notice : Notice.t) :
  GetReq.id r = Oid i ->
  findById Notice._id i (notices db) = Some notice ->
  exists notice' found,
    fst (getNotice ctx r db) = ok 200 "" (NoticeData notice' found)
    /\ (forall c, In c found <-> In c (comments db) /\ Comment.notice c = i)
    /\ StronglySorted
         (fun a b => Comment.createdAt b <= Comment.createdAt a) found
    /\ (forall u, GetReq.user r = Some u -> viewsOf (User._id u) notice' <> [])
    /\ (GetReq.user r = None ->
        notice' = notice /\ snd (getNotice ctx r db) = db).
Proof.
  intros Hid Hfind. destruct (findById_Some _ _ _ _ _ Hfind) as [_ Hnid].
  unfold getNotice. rewrite Hid, Hfind.
  assert (Hsorted : forall j (cs : list Comment.t),
    StronglySorted (fun a b => Comment.createdAt b <= Comment.createdAt a)
      (sortBy newerComment (filter (fun c => Comment.notice c =? j) cs))).
  { intros j cs.
    apply StronglySorted_weaken with (R := fun a b => newerComment a b = true).
    - intros x y H. unfold newerComment in H. apply Nat.leb_le in H. exact H.
    - apply sortBy_sorted;
        [exact newerComment_total | exact newerComment_trans]. }
  assert (Hmem : forall j (cs : list Comment.t) c,
    In c (sortBy newerComment (filter (fun c => Comment.notice c =? j) cs))
    <-> In c cs /\ Comment.notice c = j).
  { intros j cs c. rewrite sortBy_In, filter_In, Nat.eqb_eq. tauto. }
  destruct (GetReq.user r) as [user|].
  - unfold recordView.
    destruct (existsb (fun view => View.user view =? User._id user)
                (Notice.views notice)) eqn:E; simpl.
    + eexists. eexists. split; [reflexivity|].
      rewrite Hnid. split; [apply Hmem|]. split; [apply Hsorted|].
      split; [|discriminate].
      intros u Hu. inversion Hu; subst u. unfold viewsOf. intros Hnil.
      apply existsb_filter_nil in Hnil. congruence.
    + eexists. eexists. split; [reflexivity|].
      rewrite Hnid. split; [apply Hmem|]. split; [apply Hsorted|].
      split; [|discriminate].
      intros u Hu. inversion Hu; subst u. unfold viewsOf. simpl.
      rewrite filter_app. simpl. rewrite Nat.eqb_refl.
      intros Hnil. apply app_eq_nil in Hnil. destruct Hnil; discriminate.
  - simpl. eexists. eexists. split; [reflexivity|].
    rewrite Hnid. split; [apply Hmem|]. split; [apply Hsorted|].
    split; [discriminate | auto].
Qed.

Lemma getNotice_answer_witness :
  exists notice' found,
    fst (getNotice (mkCtx true 90) (GetReq.mk None (Oid 10)) threaded)
    = ok 200 "" (NoticeData notice' found)
    /\ (forall c, In c found <-> In c (comments threaded) /\ Comment.notice c = 10)
    /\ StronglySorted
         (fun a b => Comment.createdAt b <= Comment.createdAt a) found
    /\ (forall u, GetReq.user (GetReq.mk None (Oid 10)) = Some u ->
                  viewsOf (User._id u) notice' <> [])
    /\ (GetReq.user (GetReq.mk None (Oid 10)) = None ->
        notice' = Seed.notice2
        /\ snd (getNotice (mkCtx true 90) (GetReq.mk None (Oid 10)) threaded)
           = threaded).
Proof.
  apply (getNotice_answer (mkCtx true 90) (GetReq.mk None (Oid 10)) 10 threaded
           Seed.notice2); reflexivity.
Defined.

(** ** Routes behind [authenticate] *)

(** X8. A request whose token names no stored user, or a user who is not
    active, is answered 401 by every route behind [authenticate], and the
    database is left as it is. *)
Theorem unauthenticated_is_refused (ctx : Ctx) (cred : Credential) (id : IdArg)
  (r : NotifReq.t) (db : DB) :
  (forall u, tokenUser cred db = Some u -> User.isActive u = false) ->
  let refused (a : Response * DB) := code (fst a) = 401 /\ snd a = db in
  refused (deleteNotice cred id db)
  /\ refused (acknowledgeNotice ctx cred id db)
  /\ refused (markRead ctx cred id db)
  /\ refused (markAllRead ctx cred db)
  /\ refused (deleteNotification cred id db)
  /\ refused (deleteUser cred id db)
  /\ code (fst (listNotifications cred r db)) = 401
  /\ snd (listNotifications cred r db) = None.
Proof.
  intros Hno refused.
  assert (Hauth : exists denied, authenticate cred db = inl denied
                                 /\ code denied = 401).
  { unfold authenticate, tokenUser in *. destruct cred as [| |uid].
    - eexists. split; reflexivity.
    - eexists. split; reflexivity.
    - destruct (findById User._id uid (users db)) as [u|].
      + rewrite (Hno u eq_refl). eexists. split; reflexivity.
      + eexists. split; reflexivity. }
  destruct Hauth as [denied [Hauth Hcode]].
  unfold refused, deleteNotice, acknowledgeNotice, markRead, markAllRead,
    deleteNotification, deleteUser, listNotifications.
  rewrite Hauth. simpl. repeat split; exact Hcode.
Qed.

(** A database in which the ECE student of the seed data is deactivated. *)
Lemma unauthenticated_is_refused_witness :
  let db := set_users threaded
              [Seed.admin;
               User.mk 7 "Arjun Krishnan" "arjun.k@student.vignan.edu" "student"
                 "ECE" (Some "2nd Year") false] in
  code (fst (acknowledgeNotice (mkCtx true 90) (TokenFor 7) (Oid 9) db)) = 401
  /\ snd (acknowledgeNotice (mkCtx true 90) (TokenFor 7) (Oid 9) db) = db.
Proof.
  intros db.
  destruct (unauthenticated_is_refused (mkCtx true 90) (TokenFor 7) (Oid 9)
              (NotifReq.mk None None None) db) as (_ & Hack & _).
  - intros u Hu. vm_compute in Hu. inversion Hu. reflexivity.
  - exact Hack.
Defined.

(** ** Deleting a notice: who may, and what a refusal leaves *)

(** X9. DELETE /notices/:id changes the database only when it answers 200;
    and an authenticated user who is neither the author of the notice nor an
    admin is answered 403. *)
Theorem deleteNotice_guarded (cred : Credential) (id : IdArg) (db : DB) :
  (code (fst (deleteNotice cred id db)) <> 200 ->
   snd (deleteNotice cred id db) = db)
  /\ (forall user i notice,
        authenticate cred db = inr user ->
        id = Oid i ->
        findById Notice._id i (notices db) = Some notice ->
        Notice.author notice <> User._id user ->
        User.role user <> "admin" ->
        code (fst (deleteNotice cred id db)) = 403).
Proof.
  split.
  - unfold deleteNotice.
    destruct (authenticate cred db) as [denied|user]; [reflexivity|].
    destruct (isAdminOrFaculty user); [reflexivity|].
    destruct id as [|i]; [reflexivity|].
    destruct (findById Notice._id i (notices db)); [|reflexivity].
    destruct (negb _ && negb _); [reflexivity|].
    simpl. intros H. exfalso. apply H. reflexivity.
  - intros user i notice Hauth Hid Hfind Hauthor Hrole. subst id.
    unfold deleteNotice, isAdminOrFaculty. rewrite Hauth.
    apply String.eqb_neq in Hrole. rewrite Hrole. simpl.
    destruct (negb (User.role user =? "faculty")%string); [reflexivity|].
    rewrite Hfind. apply Nat.eqb_neq in Hauthor. rewrite Hauthor. reflexivity.
Qed.

Lemma deleteNotice_guarded_witness :
  code (fst (deleteNotice (TokenFor 3) (Oid 10) threaded)) = 403
  /\ snd (deleteNotice (TokenFor 3) (Oid 10) threaded) = threaded.
Proof.
  destruct (deleteNotice_guarded (TokenFor 3) (Oid 10) threaded) as [Hkeep Hdeny].
  assert (H : code (fst (deleteNotice (TokenFor 3) (Oid 10) threaded)) = 403).
  { apply (Hdeny Seed.faculty2 10 Seed.notice2); try reflexivity;
      simpl; discriminate. }
  split; [exact H|]. apply Hkeep. rewrite H. discriminate.
Defined.

(** ** Creating a notice: who may, and what is stored *)

(** X10. A request to POST /notices with the token of a stored user who is
    neither an admin nor a member of the faculty is answered 403, and the
    database is left as it is. *)
Theorem createNotice_role_gate (ctx : Ctx) (cred : Credential) (b : NoticeBody.t)
  (db : DB) (user : User.t) :
  tokenUser cred db = Some user ->
  User.role user <> "admin" -> User.role user <> "faculty" ->
  createNotice ctx cred b db
  = (fail 403 "Access denied. Admin or Faculty only.", db).
Proof.
  intros Htok Ha Hf. unfold createNotice, noticeActor. rewrite Htok.
  apply String.eqb_neq in Ha, Hf. rewrite Ha, Hf. reflexivity.
Qed.

Lemma createNotice_role_gate_witness :
  createNotice (mkCtx false 80) (TokenFor 5)
    (circular "All Departments" (Some "published")) Seed.db
  = (fail 403 "Access denied. Admin or Faculty only.", Seed.db).
Proof.
  apply (createNotice_role_gate (mkCtx false 80) (TokenFor 5)
           (circular "All Departments" (Some "published")) Seed.db Seed.student0).
  - reflexivity.
  - simpl. discriminate.
  - simpl. discriminate.
Defined.

(** X11. In production a request without the token of a stored user is
    never served by the routes that have a development fallback: each of
    them answers with an error code and leaves the database as it is. *)
Theorem production_needs_token (bare : bool) (ctx : Ctx) (cred : Credential)
  (dev : DevFields) (id : IdArg) (db : DB) :
  production ctx = true ->
  tokenUser cred db = None ->
  let refused (a : Response * DB) := 400 <= code (fst a) /\ snd a = db in
  (forall b, refused (createNotice ctx cred b db))
  /\ (forall b, refused (updateNotice bare ctx cred id b db))
  /\ (forall b, refused (createComment ctx cred b db))
  /\ (forall content, refused (updateComment ctx cred dev id content db))
  /\ refused (deleteComment ctx cred dev id db).
Proof.
  intros Hprod Htok refused. unfold refused.
  split; [|split; [|split; [|split]]].
  - intros b. unfold createNotice, noticeActor. rewrite Htok, Hprod.
    simpl. split; [lia | reflexivity].
  - intros b. unfold updateNotice, updateActor. rewrite Htok, Hprod.
    destruct id as [|i]; [simpl; split; [lia | reflexivity]|].
    destruct (findById Notice._id i (notices db));
      simpl; split; try lia; reflexivity.
  - intros b. unfold createComment, commentActor. rewrite Htok, Hprod.
    destruct (CommentBody.noticeId b) as [[|i]|];
      try (simpl; split; [lia | reflexivity]);
      destruct (nonBlank (CommentBody.content b));
      try (simpl; split; [lia | reflexivity]).
    destruct (findById Notice._id i (notices db));
      simpl; split; try lia; reflexivity.
  - intros content. unfold updateComment, commentActor. rewrite Htok, Hprod.
    destruct id as [|i]; [simpl; split; [lia | reflexivity]|].
    destruct (findById Comment._id i (comments db));
      simpl; split; try lia; reflexivity.
  - unfold deleteComment, commentActor. rewrite Htok, Hprod.
    destruct id as [|i]; [simpl; split; [lia | reflexivity]|].
    destruct (findById Comment._id i (comments db));
      simpl; split; try lia; reflexivity.
Qed.

Lemma production_needs_token_witness :
  400 <= code (fst (deleteComment (mkCtx true 60) NoToken noDev (Oid 14) threaded))
  /\ snd (deleteComment (mkCtx true 60) NoToken noDev (Oid 14) threaded) = threaded.
Proof.
  destruct (production_needs_token true (mkCtx true 60) NoToken noDev (Oid 14)
              threaded eq_refl eq_refl) as (_ & _ & _ & _ & H).
  exact H.
Defined.

(** The notification steps of POST /comments answer 201 with the comment and
    write to the notifications only. *)
Lemma notifyAndRespond_keeps (ctx : Ctx) (author : User.t) (notice : Notice.t)
  (comment : Comment.t) (db : DB) :
  fst (notifyAndRespond ctx author notice comment db)
  = ok 201 "Comment added successfully" (CommentData comment)
  /\ users (snd (notifyAndRespond ctx author notice comment db)) = users db
  /\ notices (snd (notifyAndRespond ctx author notice comment db)) = notices db
  /\ comments (snd (notifyAndRespond ctx author notice comment db)) = comments db.
Proof.
  unfold notifyAndRespond, notifyComment, populateAuthor. simpl.
  repeat match goal with
         | |- context [match ?x with _ => _ end] => destruct x; simpl
         end; auto.
Qed.

(** X12. Outside production, POST /comments without a token is served in the
    name of the development commenter: when no user has the address
    dev-commenter@local, a student of that address is stored first and the
    comment is accepted with that user as its author. *)
Theorem createComment_dev_fallback (ctx : Ctx) (cred : Credential) (db : DB)
  (i : ObjectId) (content : string) (notice : Notice.t) :
  production ctx = false ->
  tokenUser cred db = None ->
  findByEmail "dev-commenter@local" (users db) = None ->
  findById Notice._id i (notices db) = Some notice ->
  nonBlank (Some content) = Some content ->
  let result :=
    createComment ctx cred (CommentBody.mk (Some (Oid i)) (Some content) None noDev)
      db in
  code (fst result) = 201
  /\ users (snd result)
     = (users db ++
        [User.mk (nextId db) "Anonymous Student" "dev-commenter@local" "student"
           "General" (Some "2025") true])%list
  /\ comments (snd result)
     = (comments db ++
        [Comment.mk (nextId db + 1) i (nextId db) (trim content) None [] false
           false (now ctx)])%list.
Proof.
  intros Hprod Htok Hmail Hfind Hcontent result. unfold result, createComment.
  cbn [CommentBody.noticeId CommentBody.content CommentBody.dev
       CommentBody.parentCommentId].
  rewrite Hcontent, Hfind. unfold commentActor. rewrite Htok, Hprod.
  cbn [noDev _devAuthorEmail orDefault]. rewrite Hmail.
  unfold createUser. cbn -[notifyAndRespond trim].
  match goal with
  | |- context [notifyAndRespond ?c ?a ?n ?k ?d] =>
      destruct (notifyAndRespond_keeps c a n k d) as (Hr & Hu & _ & Hc)
  end.
  rewrite Hr, Hu, Hc. repeat split.
Qed.

Lemma createComment_dev_fallback_witness :
  let result :=
    createComment (mkCtx false 70) NoToken
      (CommentBody.mk (Some (Oid 10)) (Some " Hello ") None noDev) threaded in
  code (fst result) = 201
  /\ users (snd result)
     = (users threaded ++
        [User.mk 23 "Anonymous Student" "dev-commenter@local" "student"
           "General" (Some "2025") true])%list
  /\ comments (snd result)
     = (comments threaded ++
        [Comment.mk 24 10 23 (trim " Hello ") None [] false false 70])%list.
Proof.
  apply (createComment_dev_fallback (mkCtx false 70) NoToken threaded 10
           " Hello " Seed.notice2); reflexivity.
Defined.

Lemma newNotice_required (ctx : Ctx) (b : NoticeBody.t) (author i : ObjectId) :
  required (option_map trim (NoticeBody.title b)) = None
  \/ required (NoticeBody.content b) = None
  \/ required (NoticeBody.category b) = None
  \/ required (NoticeBody.department b) = None ->
  newNotice ctx b author i = None.
Proof.
  unfold newNotice. intros [H | [H | [H | H]]]; rewrite H;
    repeat match goal with
           | |- match ?x with _ => _ end = None => destruct x
           end; reflexivity.
Qed.

(** X13. A body of POST /notices without a title, content, category or
    department (the key is missing or empty, or the title is blank) is
    never answered 201, and neither a notice nor a notification is
    stored. *)
Theorem createNotice_requires_fields (ctx : Ctx) (cred : Credential)
  (b : NoticeBody.t) (db : DB) :
  required (option_map trim (NoticeBody.title b)) = None
  \/ required (NoticeBody.content b) = None
  \/ required (NoticeBody.category b) = None
  \/ required (NoticeBody.department b) = None ->
  code (fst (createNotice ctx cred b db)) <> 201
  /\ notices (snd (createNotice ctx cred b db)) = notices db
  /\ notifications (snd (createNotice ctx cred b db)) = notifications db.
Proof.
  intros Hreq. unfold createNotice.
  destruct (noticeActor ctx cred (NoticeBody.dev b) (NoticeBody.department b) db)
    as [[[author|] db1]|] eqn:Hactor;
    [| |simpl; repeat split; discriminate];
    destruct (noticeActor_keeps _ _ _ _ _ _ _ Hactor) as (Hns & _ & Hfs & _);
    [|simpl; repeat split; [discriminate | exact Hns | exact Hfs]].
  destruct (negb _ && negb _);
    [simpl; repeat split; [discriminate | exact Hns | exact Hfs]|].
  rewrite (newNotice_required ctx b (User._id author) (nextId db1) Hreq).
  simpl. repeat split; [discriminate | exact Hns | exact Hfs].
Qed.

Lemma createNotice_requires_fields_witness :
  let b := NoticeBody.mk (Some "   ") (Some "text") (Some "exams") (Some "CSE")
             None None (Some "published") noDev in
  code (fst (createNotice (mkCtx true 80) (TokenFor 1) b Seed.db)) <> 201
  /\ notices (snd (createNotice (mkCtx true 80) (TokenFor 1) b Seed.db))
     = notices Seed.db
  /\ notifications (snd (createNotice (mkCtx true 80) (TokenFor 1) b Seed.db))
     = notifications Seed.db.
Proof.
  intros b.
  apply (createNotice_requires_fields (mkCtx true 80) (TokenFor 1) b Seed.db).
  left. reflexivity.
Defined.

Section CreateThenList.
Variable regex_i : string -> string -> bool.

(** X14. A notice that POST /notices accepts with the status published, or
    without a status, is in the unrestricted listing of GET /notices right
    afterwards. *)
Theorem created_notice_is_listed (ctx : Ctx) (cred : Credential)
  (b : NoticeBody.t) (db : DB) (notice : Notice.t) :
  data (fst (createNotice ctx cred b db)) = NoticeCreated notice ->
  NoticeBody.status b = None \/ NoticeBody.status b = Some "published" ->
  In notice
    (listed (fst (listNotices regex_i publicListing
                    (snd (createNotice ctx cred b db))))).
Proof.
  unfold createNotice.
  destruct (noticeActor ctx cred (NoticeBody.dev b) (NoticeBody.department b) db)
    as [[[author|] db1]|] eqn:Hactor; try discriminate.
  destruct (negb _ && negb _); [discriminate|].
  destruct (newNotice ctx b (User._id author) (nextId db1)) as [n|] eqn:Hnew;
    [|discriminate].
  simpl. intros Hdata Hstatus. inversion Hdata. subst n. clear Hdata.
  destruct (newNotice_fields _ _ _ _ _ Hnew) as (_ & _ & Hnone & Hsome).
  assert (Hpub : Notice.status notice = "published")
    by (destruct Hstatus as [H | H]; auto).
  assert (Harch : Notice.isArchived notice = false).
  { unfold newNotice in Hnew.
    repeat match type of Hnew with
           | match ?x with _ => _ end = _ => destruct x; try discriminate
           | (if ?x then _ else _) = _ => destruct x; try discriminate
           end.
    inversion Hnew. reflexivity. }
  assert (Hin : forall d : DB,
             notices d = insert notice (notices db1) ->
             In notice (listed (fst (listNotices regex_i publicListing d)))).
  { intros d Hd. unfold listNotices, listed, publicListing. simpl.
    rewrite map_map. simpl. rewrite map_id.
    apply sortBy_In, filter_In. split.
    - rewrite Hd. unfold insert. apply in_or_app. right. left. reflexivity.
    - unfold matches. simpl. rewrite Harch, Hpub. reflexivity. }
  destruct (optStringEqb _ _); [rewrite insertMany_spec|]; apply Hin; reflexivity.
Qed.
End CreateThenList.

Lemma created_notice_is_listed_witness :
  exists notice,
    data (fst (createNotice (mkCtx true 80) (TokenFor 1)
                 (circular "All Departments" None) Seed.db))
    = NoticeCreated notice
    /\ In notice
         (listed (fst (listNotices literal_i publicListing
                         (snd (createNotice (mkCtx true 80) (TokenFor 1)
                                 (circular "All Departments" None) Seed.db))))).
Proof.
  eexists. split; [reflexivity|].
  apply (created_notice_is_listed literal_i (mkCtx true 80) (TokenFor 1)
           (circular "All Departments" None) Seed.db).
  - reflexivity.
  - left. reflexivity.
Defined.

(** ** Creating a comment: what is stored and who is told *)

(** X15. POST /comments with the token of a stored user, active or not, on a
    stored notice with a non-blank content and no parent is answered 201;
    the comment is stored with the trimmed content and no parent; and one
    notification is written, for the author of the notice, exactly when that
    author is a stored user other than the commenter. *)
Theorem createComment_top_level (ctx : Ctx) (cred : Credential)
  (b : CommentBody.t) (db : DB) (i : ObjectId) (text : string)
  (notice : Notice.t) (author : User.t) :
  CommentBody.noticeId b = Some (Oid i) ->
  nonBlank (CommentBody.content b) = Some text ->
  findById Notice._id i (notices db) = Some notice ->
  tokenUser cred db = Some author ->
  CommentBody.parentCommentId b = None ->
  let result := createComment ctx cred b db in
  let comment := Comment.mk (nextId db) i (User._id author) (trim text)
                   None [] false false (now ctx) in
  fst result = ok 201 "Comment added successfully" (CommentData comment)
  /\ users (snd result) = users db
  /\ notices (snd result) = notices db
  /\ comments (snd result) = (comments db ++ [comment])%list
  /\ notifications (snd result) =
     (notifications db ++
      match findById User._id (Notice.author notice) (users db) with
      | Some noticeAuthor =>
          if User._id noticeAuthor =? User._id author then []
          else [Notification.mk (nextId db + 1) (User._id noticeAuthor) "comment"
                  (User.name author ++ " commented on your notice: "
                     ++ Notice.title notice)%string
                  (Some (Notice._id notice)) (Some (nextId db)) false None
                  (now ctx)]
      | None => []
      end)%list.
Proof.
  intros Hn Hc Hfind Htok Hp result comment. unfold result, createComment.
  rewrite Hn, Hc, Hfind. unfold commentActor. rewrite Htok, Hp.
  fold comment.
  match goal with
  | |- context [notifyAndRespond ?c ?a ?n ?k ?d] =>
      destruct (notifyAndRespond_keeps c a n k d) as (Hr & Hu & Hns & Hcs);
      pose proof (notifyAndRespond_no_parent c a n k d eq_refl) as Hfs
  end.
  rewrite Hr, Hu, Hns, Hcs, Hfs. unfold populateAuthor. simpl.
  repeat split.
  destruct (findById User._id (Notice.author notice) (users db)) as [a|];
    [|reflexivity].
  destruct (User._id a =? User._id author); reflexivity.
Qed.

Lemma createComment_top_level_witness :
  let result :=
    createComment (mkCtx true 70) (TokenFor 5)
      (CommentBody.mk (Some (Oid 12)) (Some "Thanks") None noDev) Seed.db in
  let comment := Comment.mk 18 12 5 (trim "Thanks") None [] false false 70 in
  fst result = ok 201 "Comment added successfully" (CommentData comment)
  /\ users (snd result) = users Seed.db
  /\ notices (snd result) = notices Seed.db
  /\ comments (snd result) = (comments Seed.db ++ [comment])%list
  /\ notifications (snd result) =
     (notifications Seed.db ++
      match findById User._id (Notice.author Seed.notice4) (users Seed.db) with
      | Some noticeAuthor =>
          if User._id noticeAuthor =? 5 then []
          else [Notification.mk 19 (User._id noticeAuthor) "comment"
                  (User.name Seed.student0 ++ " commented on your notice: "
                     ++ Notice.title Seed.notice4)%string
                  (Some 12) (Some 18) false None 70]
      | None => []
      end)%list.
Proof.
  apply (createComment_top_level (mkCtx true 70) (TokenFor 5)
           (CommentBody.mk (Some (Oid 12)) (Some "Thanks") None noDev) Seed.db 12
           "Thanks" Seed.notice4 Seed.student0); reflexivity.
Defined.

(** X16. A reply that POST /comments accepts is appended to the reply list
    of the parent it names, while the reply itself is stored, and answered,
    without a parent. *)
Theorem createComment_reply_attached (ctx : Ctx) (cred : Credential)
  (b : CommentBody.t) (db : DB) (i p : ObjectId) (text : string)
  (notice : Notice.t) (author : User.t) (parent : Comment.t) :
  CommentBody.noticeId b = Some (Oid i) ->
  nonBlank (CommentBody.content b) = Some text ->
  findById Notice._id i (notices db) = Some notice ->
  tokenUser cred db = Some author ->
  CommentBody.parentCommentId b = Some (Oid p) ->
  findById Comment._id p (comments db) = Some parent ->
  Comment.notice parent = i ->
  let result := createComment ctx cred b db in
  fst result
  = ok 201 "Comment added successfully"
      (CommentData (Comment.mk (nextId db) i (User._id author) (trim text)
                      None [] false false (now ctx)))
  /\ findById Comment._id p (comments (snd result))
     = Some (Comment.with_replies parent
               (Comment.replies parent ++ [nextId db])).
Proof.
  intros Hn Hc Hfind Htok Hp Hparent Hsame result.
  destruct (findById_Some _ _ _ _ _ Hparent) as [_ Hpid].
  unfold result, createComment.
  rewrite Hn, Hc, Hfind. unfold commentActor. rewrite Htok, Hp.
  cbn [comments bump set_comments].
  rewrite (findById_insert _ _ _ _ _ parent Hparent).
  rewrite Hsame, Nat.eqb_refl. cbn [negb].
  match goal with
  | |- context [notifyAndRespond ?c ?a ?n ?k ?d] =>
      destruct (notifyAndRespond_keeps c a n k d) as (Hr & _ & _ & Hcs)
  end.
  rewrite Hr, Hcs. split; [reflexivity|].
  cbn [comments bump set_comments Comment._id].
  set (parent' := Comment.with_replies parent _).
  assert (Hid' : Comment._id parent' = p) by exact Hpid.
  rewrite <- Hid'. apply findById_save with (x := parent).
  rewrite Hid'. apply findById_insert. exact Hparent.
Qed.

Lemma createComment_reply_attached_witness :
  let result :=
    createComment (mkCtx true 70) (TokenFor 6)
      (CommentBody.mk (Some (Oid 10)) (Some "Me too") (Some (Oid 14)) noDev)
      threaded in
  fst result
  = ok 201 "Comment added successfully"
      (CommentData (Comment.mk 23 10 6 (trim "Me too") None [] false false 70))
  /\ findById Comment._id 14 (comments (snd result))
     = Some (Comment.mk 14 10 5 "Can we get more details?" None [18; 19; 23]
               false false 5).
Proof.
  apply (createComment_reply_attached (mkCtx true 70) (TokenFor 6)
           (CommentBody.mk (Some (Oid 10)) (Some "Me too") (Some (Oid 14)) noDev)
           threaded 10 14 "Me too" Seed.notice2 Seed.student1
           (Comment.mk 14 10 5 "Can we get more details?" None [18; 19]
              false false 5)); reflexivity.
Defined.

(** X17. POST /comments rejects a request before anything is stored, not
    even the development user: without a noticeId it answers 400 "noticeId
    is required"; with a noticeId and a blank content, 400 "content is
    required"; with a malformed noticeId and a content, 400 "Invalid
    noticeId"; and with a content and a well-formed id that no notice has,
    404 "Notice not found". *)
Theorem createComment_rejected_early (ctx : Ctx) (cred : Credential)
  (b : CommentBody.t) (db : DB) :
  (CommentBody.noticeId b = None ->
   createComment ctx cred b db = (fail 400 "noticeId is required", db))
  /\ (forall raw,
        CommentBody.noticeId b = Some raw ->
        nonBlank (CommentBody.content b) = None ->
        createComment ctx cred b db = (fail 400 "content is required", db))
  /\ (forall text,
        CommentBody.noticeId b = Some Malformed ->
        nonBlank (CommentBody.content b) = Some text ->
        createComment ctx cred b db = (fail 400 "Invalid noticeId", db))
  /\ (forall i text,
        CommentBody.noticeId b = Some (Oid i) ->
        nonBlank (CommentBody.content b) = Some text ->
        findById Notice._id i (notices db) = None ->
        createComment ctx cred b db = (fail 404 "Notice not found", db)).
Proof.
  unfold createComment. split; [|split; [|split]].
  - intros H. rewrite H. reflexivity.
  - intros raw H Hc. rewrite H, Hc. reflexivity.
  - intros text H Hc. rewrite H, Hc. reflexivity.
  - intros i text H Hc Hnone. rewrite H, Hc, Hnone. reflexivity.
Qed.

Lemma createComment_rejected_early_witness :
  createComment (mkCtx false 70) NoToken
    (CommentBody.mk None (Some "Hello") None noDev) threaded
  = (fail 400 "noticeId is required", threaded)
  /\ createComment (mkCtx false 70) NoToken
       (CommentBody.mk (Some (Oid 10)) (Some "  ") None noDev) threaded
     = (fail 400 "content is required", threaded)
  /\ createComment (mkCtx false 70) NoToken
       (CommentBody.mk (Some Malformed) (Some "Hello") None noDev) threaded
     = (fail 400 "Invalid noticeId", threaded)
  /\ createComment (mkCtx false 70) NoToken
       (CommentBody.mk (Some (Oid 99)) (Some "Hello") None noDev) threaded
     = (fail 404 "Notice not found", threaded).
Proof.
  split; [|split; [|split]].
  - apply (createComment_rejected_early (mkCtx false 70) NoToken
             (CommentBody.mk None (Some "Hello") None noDev) threaded).
    reflexivity.
  - apply (proj1 (proj2 (createComment_rejected_early (mkCtx false 70) NoToken
             (CommentBody.mk (Some (Oid 10)) (Some "  ") None noDev) threaded))
             (Oid 10)); reflexivity.
  - apply (proj1 (proj2 (proj2 (createComment_rejected_early (mkCtx false 70)
             NoToken (CommentBody.mk (Some Malformed) (Some "Hello") None noDev)
             threaded))) "Hello"); reflexivity.
  - apply (proj2 (proj2 (proj2 (createComment_rejected_early (mkCtx false 70)
             NoToken (CommentBody.mk (Some (Oid 99)) (Some "Hello") None noDev)
             threaded))) 99 "Hello"); reflexivity.
Defined.

Lemma In_save_keep (A : Type) (id_of : A -> ObjectId) (d m : A) (l : list A) :
  In m l -> id_of m <> id_of d -> In m (save id_of d l).
Proof.
  intros Hin Hne. unfold save. apply in_map_iff. exists m. split; [|exact Hin].
  apply Nat.eqb_neq in Hne. rewrite Hne. reflexivity.
Qed.

Lemma commentActor_nextId (ctx : Ctx) (cred : Credential) (dev : DevFields)
  (db db' : DB) (actor : option User.t) :
  commentActor ctx cred dev db = Some (actor, db') -> nextId db <= nextId db'.
Proof.
  unfold commentActor, createUser.
  destruct (tokenUser cred db); [intros H; inversion H; auto|].
  destruct (production ctx); [intros H; inversion H; auto|].
  destruct (findByEmail _ (users db)); [intros H; inversion H; auto|].
  simpl. destruct (validRole _); [|discriminate].
  intros H. inversion H. simpl. lia.
Qed.

(** What an answer 201 of POST /comments tells: the comment of the answer is
    the new one, and the comments stored are the old ones and the new one,
    with the parent, if one is named, saved with the longer reply list. *)
Lemma createComment_201 (ctx : Ctx) (cred : Credential) (b : CommentBody.t)
  (db : DB) :
  code (fst (createComment ctx cred b db)) = 201 ->
  exists i text author db1,
    commentActor ctx cred (CommentBody.dev b) db = Some (Some author, db1)
    /\ data (fst (createComment ctx cred b db))
       = CommentData (newComment ctx i author text db1)
    /\ (comments (snd (createComment ctx cred b db))
        = insert (newComment ctx i author text db1) (comments db1)
        \/ exists p parent,
             CommentBody.parentCommentId b = Some (Oid p)
             /\ Comment._id parent = p
             /\ comments (snd (createComment ctx cred b db))
                = save Comment._id
                    (Comment.with_replies parent
                       (Comment.replies parent ++ [nextId db1]))
                    (insert (newComment ctx i author text db1) (comments db1))).
Proof.
  unfold createComment.
  destruct (CommentBody.noticeId b) as [[|i]|]; try discriminate;
    destruct (nonBlank (CommentBody.content b)) as [text|]; try discriminate.
  destruct (findById Notice._id i (notices db)) as [notice|]; [|discriminate].
  destruct (commentActor ctx cred (CommentBody.dev b) db)
    as [[[author|] db1]|] eqn:Hactor; try discriminate.
  fold (newComment ctx i author text db1).
  destruct (CommentBody.parentCommentId b) as [[|p]|]; [discriminate| |].
  - destruct (findById Comment._id p _) as [parent|] eqn:Hparent; [|discriminate].
    destruct (negb _); [discriminate|]. intros _.
    exists i, text, author, db1. split; [reflexivity|].
    match goal with
    | |- context [notifyAndRespond ?c ?a ?n ?k ?d] =>
        destruct (notifyAndRespond_keeps c a n k d) as (Hr & _ & _ & Hcs)
    end.
    rewrite Hr, Hcs. split; [reflexivity|]. right. exists p, parent.
    destruct (findById_Some _ _ _ _ _ Hparent) as [_ Hpid].
    repeat split; assumption.
  - intros _. exists i, text, author, db1. split; [reflexivity|].
    match goal with
    | |- context [notifyAndRespond ?c ?a ?n ?k ?d] =>
        destruct (notifyAndRespond_keeps c a n k d) as (Hr & _ & _ & Hcs)
    end.
    rewrite Hr, Hcs. split; [reflexivity|]. left. reflexivity.
Qed.

(** X18. On a well-formed database, every comment POST /comments accepts, a
    reply to a stored comment included, is listed right afterwards by GET
    /comments/notice/:noticeId among the top-level comments of its
    notice. *)
Theorem accepted_comment_is_top_level (ctx : Ctx) (cred : Credential)
  (b : CommentBody.t) (db : DB) :
  wf db ->
  code (fst (createComment ctx cred b db)) = 201 ->
  (forall p, CommentBody.parentCommentId b = Some (Oid p) ->
             findById Comment._id p (comments db) <> None) ->
  exists comment,
    data (fst (createComment ctx cred b db)) = CommentData comment
    /\ In comment
         (map fst (snd (getComments (Oid (Comment.notice comment))
                          (snd (createComment ctx cred b db))))).
Proof.
  intros Hwf Hcode Hparent.
  destruct (createComment_201 ctx cred b db Hcode)
    as (i & text & author & db1 & Hactor & Hdata & Hcomments).
  exists (newComment ctx i author text db1). split; [exact Hdata|].
  unfold getComments. cbn [snd]. rewrite map_map. cbn [fst]. rewrite map_id.
  apply sortBy_In, filter_In. split.
  - destruct Hcomments as [H | (p & parent & Hp & Hpid & H)]; rewrite H.
    + unfold insert. apply in_or_app. right. left. reflexivity.
    + apply In_save_keep.
      * unfold insert. apply in_or_app. right. left. reflexivity.
      * cbn [newComment Comment._id Comment.with_replies]. rewrite Hpid.
        specialize (Hparent p Hp).
        destruct (findById Comment._id p (comments db)) as [old|] eqn:Hold;
          [|contradiction].
        apply findById_Some in Hold. destruct Hold as [Hin Hoid].
        destruct Hwf as (_ & _ & [_ Hbelow] & _).
        rewrite Forall_forall in Hbelow.
        assert (Hlt : p < nextId db).
        { apply Hbelow. rewrite <- Hoid. apply in_map. exact Hin. }
        pose proof (commentActor_nextId _ _ _ _ _ _ Hactor). lia.
  - cbn [newComment Comment.notice Comment.parentComment isNull].
    rewrite Nat.eqb_refl. reflexivity.
Qed.

Lemma accepted_comment_is_top_level_witness :
  let b := CommentBody.mk (Some (Oid 10)) (Some "Me too") (Some (Oid 14)) noDev in
  exists comment,
    data (fst (createComment (mkCtx true 70) (TokenFor 6) b threaded))
    = CommentData comment
    /\ In comment
         (map fst (snd (getComments (Oid (Comment.notice comment))
                          (snd (createComment (mkCtx true 70) (TokenFor 6) b
                                  threaded))))).
Proof.
  intros b.
  apply (accepted_comment_is_top_level (mkCtx true 70) (TokenFor 6) b threaded).
  - exact threaded_wf.
  - reflexivity.
  - intros p Hp. inversion Hp. subst p. simpl. discriminate.
Defined.

(** ** Editing and deleting a comment: who may *)

(** X19. A stored user who is neither an admin nor the author of a comment
    is answered 403 by PUT /comments/:id and by DELETE /comments/:id, and
    the database is left as it is. *)
Theorem comment_owner_only (ctx : Ctx) (cred : Credential) (dev : DevFields)
  (i : ObjectId) (db : DB) (user : User.t) (comment : Comment.t) :
  tokenUser cred db = Some user ->
  findById Comment._id i (comments db) = Some comment ->
  User.role user <> "admin" ->
  Comment.author comment <> User._id user ->
  (forall content,
      updateComment ctx cred dev (Oid i) content db
      = (fail 403 "You can only edit your own comments", db))
  /\ deleteComment ctx cred dev (Oid i) db
     = (fail 403 "You can only delete your own comments", db).
Proof.
  intros Htok Hfind Hrole Hauthor.
  apply String.eqb_neq in Hrole. apply Nat.eqb_neq in Hauthor.
  split; [intros content|];
    unfold updateComment, deleteComment, commentActor;
    rewrite Hfind, Htok, Hrole, Hauthor; reflexivity.
Qed.

Lemma comment_owner_only_witness :
  (forall content,
      updateComment (mkCtx true 60) (TokenFor 6) noDev (Oid 14) content threaded
      = (fail 403 "You can only edit your own comments", threaded))
  /\ deleteComment (mkCtx true 60) (TokenFor 6) noDev (Oid 14) threaded
     = (fail 403 "You can only delete your own comments", threaded).
Proof.
  apply (comment_owner_only (mkCtx true 60) (TokenFor 6) noDev 14 threaded
           Seed.student1
           (Comment.mk 14 10 5 "Can we get more details?" None [18; 19]
              false false 5)).
  - reflexivity.
  - reflexivity.
  - simpl. discriminate.
  - simpl. discriminate.
Defined.

(** ** Updating a notice *)

(** X20. A stored user who is neither the author of a notice nor an admin is
    answered 403 by PUT /notices/:id, whatever the body, and the database is
    left as it is. *)
Theorem updateNotice_owner_only (bare : bool) (ctx : Ctx) (cred : Credential)
  (i : ObjectId) (b : NoticeBody.t) (db : DB) (user : User.t)
  (notice : Notice.t) :
  tokenUser cred db = Some user ->
  findById Notice._id i (notices db) = Some notice ->
  Notice.author notice <> User._id user ->
  User.role user <> "admin" ->
  updateNotice bare ctx cred (Oid i) b db
  = (fail 403 "You can only edit your own notices", db).
Proof.
  intros Htok Hfind Hauthor Hrole.
  apply String.eqb_neq in Hrole. apply Nat.eqb_neq in Hauthor.
  unfold updateNotice, updateActor. rewrite Hfind, Htok, Hauthor, Hrole.
  reflexivity.
Qed.

Lemma updateNotice_owner_only_witness :
  updateNotice false (mkCtx true 95) (TokenFor 3) (Oid 10)
    (circular "ECE" (Some "draft")) threaded
  = (fail 403 "You can only edit your own notices", threaded).
Proof.
  apply (updateNotice_owner_only false (mkCtx true 95) (TokenFor 3) 10
           (circular "ECE" (Some "draft")) threaded Seed.faculty2 Seed.notice2);
    try reflexivity; simpl; discriminate.
Defined.

(** X21. When PUT /notices/:id answers 200, the notice read back under the
    id is the one of the answer; it has the id, author, views,
    acknowledgments, pin and archive flags and creation time of the notice
    stored before; each text field is the one of the body, or the stored one
    when the body's is missing or empty (the title trimmed); the targetYear
    is the body's whenever the body has one, the empty string included; and
    the comments and notifications are as they were. *)
Theorem updateNotice_effect (bare : bool) (ctx : Ctx) (cred : Credential)
  (i : ObjectId) (b : NoticeBody.t) (db : DB) :
  code (fst (updateNotice bare ctx cred (Oid i) b db)) = 200 ->
  exists old new,
    findById Notice._id i (notices db) = Some old
    /\ fst (updateNotice bare ctx cred (Oid i) b db)
       = ok 200 "Notice updated successfully" (NoticeCreated new)
    /\ findById Notice._id i (notices (snd (updateNotice bare ctx cred (Oid i) b db)))
       = Some new
    /\ comments (snd (updateNotice bare ctx cred (Oid i) b db)) = comments db
    /\ notifications (snd (updateNotice bare ctx cred (Oid i) b db))
       = notifications db
    /\ (Notice._id new = i /\ Notice.author new = Notice.author old
        /\ Notice.views new = Notice.views old
        /\ Notice.acknowledged new = Notice.acknowledged old
        /\ Notice.isPinned new = Notice.isPinned old
        /\ Notice.isArchived new = Notice.isArchived old
        /\ Notice.createdAt new = Notice.createdAt old)
    /\ (Notice.title new
        = trim (orDefault (NoticeBody.title b) (Notice.title old))
        /\ Notice.content new
           = orDefault (NoticeBody.content b) (Notice.content old)
        /\ Notice.category new
           = orDefault (NoticeBody.category b) (Notice.category old)
        /\ Notice.department new
           = orDefault (NoticeBody.department b) (Notice.department old)
        /\ Notice.priority new
           = orDefault (NoticeBody.priority b) (Notice.priority old)
        /\ Notice.status new
           = orDefault (NoticeBody.status b) (Notice.status old))
    /\ (forall t, NoticeBody.targetYear b = Some t -> Notice.targetYear new = Some t)
    /\ (NoticeBody.targetYear b = None ->
        Notice.targetYear new = Notice.targetYear old).
Proof.
  unfold updateNotice.
  destruct (findById Notice._id i (notices db)) as [old|] eqn:Hfind;
    [|discriminate].
  destruct (findById_Some _ _ _ _ _ Hfind) as [_ Hid].
  destruct (updateActor bare ctx cred (NoticeBody.dev b) db)
    as [[[actor|] db1]|] eqn:Hactor; try discriminate.
  destruct (updateActor_keeps _ _ _ _ _ _ _ Hactor) as (Hns & Hcs & Hfs).
  destruct (negb _ && negb _); [discriminate|].
  destruct (applyUpdate b old) as [new|] eqn:Hup; [|discriminate].
  intros _. exists old, new. cbn [fst snd notices comments notifications set_notices].
  destruct (applyUpdate_keeps _ _ _ Hup) as (Hi & Ha & Hv & Hk & Hp & Hr & Hc).
  split; [reflexivity|]. split; [reflexivity|].
  split.
  { rewrite <- Hid, <- Hi. apply findById_save with (x := old).
    rewrite Hi, Hid, Hns. exact Hfind. }
  split; [exact Hcs|]. split; [exact Hfs|].
  split; [rewrite Hi, Hid; repeat split; assumption|].
  unfold applyUpdate in Hup. destruct (validNotice _); [|discriminate].
  inversion Hup. cbn. split; [repeat split|].
  split; [intros t Ht; rewrite Ht; reflexivity|].
  intros Ht. rewrite Ht. reflexivity.
Qed.

Lemma updateNotice_effect_witness :
  let b := NoticeBody.mk (Some "") None None None (Some "") (Some "high") None noDev in
  exists old new,
    findById Notice._id 10 (notices threaded) = Some old
    /\ fst (updateNotice false (mkCtx true 95) (TokenFor 2) (Oid 10) b threaded)
       = ok 200 "Notice updated successfully" (NoticeCreated new)
    /\ Notice.views new = Notice.views old
    /\ Notice.title new = Notice.title old
    /\ Notice.priority new = "high"
    /\ Notice.targetYear new = Some "".
Proof.
  intros b.
  destruct (updateNotice_effect false (mkCtx true 95) (TokenFor 2) 10 b threaded
              eq_refl)
    as (old & new & Hold & Hans & _ & _ & _ & (_ & _ & Hv & _) & (Ht & _ & _ & _ & Hp & _)
        & Hty & _).
  exists old, new. split; [exact Hold|]. split; [exact Hans|].
  split; [exact Hv|].
  assert (Heq : old = Seed.notice2).
  { assert (H : Some old = Some Seed.notice2) by (rewrite <- Hold; reflexivity).
    inversion H. reflexivity. }
  split; [rewrite Ht, Heq; reflexivity|].
  split; [rewrite Hp; reflexivity|].
  apply Hty. reflexivity.
Defined.

(** ** Editing a comment *)

(** X22. When PUT /comments/:id answers 200, the comment read back under the
    id is the stored one with the trimmed content of the body and the edited
    flag set, its notice, author, parent and replies as before; any other
    answer leaves the comments as they are, and a body without content is
    never answered 200. *)
Theorem updateComment_effect (ctx : Ctx) (cred : Credential) (dev : DevFields)
  (i : ObjectId) (content : option string) (db : DB) (old : Comment.t) :
  findById Comment._id i (comments db) = Some old ->
  let result := updateComment ctx cred dev (Oid i) content db in
  (code (fst result) = 200 ->
   exists text,
     content = Some text
     /\ findById Comment._id i (comments (snd result))
        = Some (Comment.mk i (Comment.notice old) (Comment.author old)
                  (trim text) (Comment.parentComment old) (Comment.replies old)
                  true (Comment.isReply old) (Comment.createdAt old)))
  /\ (code (fst result) <> 200 -> comments (snd result) = comments db)
  /\ (content = None -> code (fst result) <> 200).
Proof.
  intros Hfind result. unfold result, updateComment. rewrite Hfind.
  destruct (findById_Some _ _ _ _ _ Hfind) as [_ Hid].
  destruct (commentActor ctx cred dev db) as [[[actor|] db1]|] eqn:Hactor;
    try (cbn; repeat split; intros; try discriminate; try reflexivity; fail).
  - destruct (commentActor_keeps _ _ _ _ _ _ Hactor) as (_ & Hcs & _).
    destruct (negb _ && negb _);
      [cbn; repeat split; intros; try discriminate; assumption|].
    destruct content as [text|];
      [|cbn; repeat split; intros; try discriminate; assumption].
    destruct (nonEmpty _);
      [|cbn; repeat split; intros; try discriminate; assumption].
    cbn [fst snd code ok comments set_comments]. split; [|split].
    + intros _. exists text. split; [reflexivity|].
      assert (He : editComment old (trim text)
                   = Comment.mk i (Comment.notice old) (Comment.author old)
                       (trim text) (Comment.parentComment old)
                       (Comment.replies old) true (Comment.isReply old)
                       (Comment.createdAt old))
        by (unfold editComment; rewrite Hid; reflexivity).
      rewrite <- He, Hcs.
      replace i with (Comment._id (editComment old (trim text))) by exact Hid.
      apply findById_save with (x := old).
      cbn [editComment Comment._id]. rewrite Hid. exact Hfind.
    + intros H. exfalso. apply H. reflexivity.
    + discriminate.
  - destruct (commentActor_keeps _ _ _ _ _ _ Hactor) as (_ & Hcs & _).
    cbn. repeat split; intros; try discriminate; assumption.
Qed.

Lemma updateComment_effect_witness :
  let result :=
    updateComment (mkCtx true 96) (TokenFor 2) noDev (Oid 18) (Some " Soon. ")
      threaded in
  code (fst result) = 200
  /\ exists text,
       Some " Soon. " = Some text
       /\ findById Comment._id 18 (comments (snd result))
          = Some (Comment.mk 18 10 2 (trim text) (Some 14) [] true false 6).
Proof.
  intros result. split; [reflexivity|].
  destruct (updateComment_effect (mkCtx true 96) (TokenFor 2) noDev 18
              (Some " Soon. ") threaded
              (Comment.mk 18 10 2 "Next week." (Some 14) [] false false 6) eq_refl)
    as (Hok & _ & _).
  apply Hok. reflexivity.
Defined.

(** ** Notifications of the requesting user *)

(** With unique ids, the lookup scoped to a user finds that user's own
    notification under its id. *)
Lemma findOwn_own (l : list Notification.t) (n : Notification.t) :
  unique_ids Notification._id l -> In n l ->
  findOwn (Notification._id n) (Notification.user n) l = Some n.
Proof.
  unfold unique_ids, findOwn. induction l as [|y l IH]; simpl; [tauto|].
  intros Hnd [Heq | Hin].
  - subst y. rewrite !Nat.eqb_refl. reflexivity.
  - inversion Hnd as [|? ? Hnotin Hnd']; subst.
    destruct (Notification._id y =? Notification._id n) eqn:E.
    + apply Nat.eqb_eq in E. exfalso. apply Hnotin. rewrite E.
      apply in_map. exact Hin.
    + simpl. apply IH; assumption.
Qed.

Lemma length_deleteOne (A : Type) (id_of : A -> ObjectId) (d : A) (l : list A) :
  unique_ids id_of l -> In d l ->
  S (List.length (deleteOne id_of (id_of d) l)) = List.length l.
Proof.
  unfold unique_ids, deleteOne. induction l as [|y l IH]; simpl; [tauto|].
  intros Hnd Hin. inversion Hnd as [|? ? Hnotin Hnd']; subst.
  destruct (id_of y =? id_of d) eqn:E; simpl.
  - apply Nat.eqb_eq in E. f_equal.
    assert (Hall : forall x, In x l -> negb (id_of x =? id_of d) = true).
    { intros x Hx. apply negb_true_iff, Nat.eqb_neq. intros Hxd.
      apply Hnotin. rewrite E, <- Hxd. apply in_map. exact Hx. }
    clear -Hall. induction l as [|x l IH]; simpl; [reflexivity|].
    rewrite (Hall x (or_introl eq_refl)). simpl. f_equal.
    apply IH. intros z Hz. apply Hall. right. exact Hz.
  - f_equal. apply IH; [exact Hnd'|].
    destruct Hin as [Hin | Hin]; [|exact Hin].
    subst y. rewrite Nat.eqb_refl in E. discriminate.
Qed.

(** X23. With unique ids, PUT /notifications/:id/read on a notification of
    the authenticated user is answered 200; the notification read back under
    the id is the stored one marked read at the time of the request, and
    every other notification is stored unchanged. *)
Theorem markRead_own (ctx : Ctx) (cred : Credential) (user : User.t) (db : DB)
  (n : Notification.t) :
  authenticate cred db = inr user ->
  unique_ids Notification._id (notifications db) ->
  In n (notifications db) ->
  Notification.user n = User._id user ->
  let result := markRead ctx cred (Oid (Notification._id n)) db in
  code (fst result) = 200
  /\ findById Notification._id (Notification._id n) (notifications (snd result))
     = Some (Notification.mk (Notification._id n) (Notification.user n)
               (Notification.type n) (Notification.message n)
               (Notification.relatedNotice n) (Notification.relatedComment n)
               true (Some (now ctx)) (Notification.createdAt n))
  /\ (forall m, In m (notifications db) ->
                Notification._id m <> Notification._id n ->
                In m (notifications (snd result)))
  /\ List.length (notifications (snd result)) = List.length (notifications db).
Proof.
  intros Hauth Huniq Hin Hown result. unfold result, markRead.
  rewrite Hauth, <- Hown, (findOwn_own _ _ Huniq Hin).
  cbn [fst snd code ok notifications set_notifications].
  split; [reflexivity|]. split; [|split].
  - exact (findById_save _ Notification._id (Notification.mark_read n (now ctx))
             n _ (unique_findById _ _ _ _ Huniq Hin)).
  - intros m Hm Hne. apply In_save_keep; assumption.
  - unfold save. apply length_map.
Qed.

Lemma markRead_own_witness :
  let result := markRead (mkCtx true 50) (TokenFor 2) (Oid 21) threaded in
  code (fst result) = 200
  /\ findById Notification._id 21 (notifications (snd result))
     = Some (Notification.mk 21 2 "comment" "Rahul Sharma commented on your notice"
               (Some 10) (Some 14) true (Some 50) 5)
  /\ (forall m, In m (notifications threaded) -> Notification._id m <> 21 ->
                In m (notifications (snd result)))
  /\ List.length (notifications (snd result))
     = List.length (notifications threaded).
Proof.
  apply (markRead_own (mkCtx true 50) (TokenFor 2) Seed.faculty1 threaded
           (Notification.mk 21 2 "comment" "Rahul Sharma commented on your notice"
              (Some 10) (Some 14) false None 5)).
  - reflexivity.
  - unfold unique_ids. simpl. nodup_nat.
  - simpl. right. left. reflexivity.
  - reflexivity.
Defined.

(** X24. With unique ids, DELETE /notifications/:id on a notification of the
    authenticated user is answered 200; no notification has the id
    afterwards, every other notification is still stored, and the collection
    is shorter by one. *)
Theorem deleteNotification_own (cred : Credential) (user : User.t) (db : DB)
  (n : Notification.t) :
  authenticate cred db = inr user ->
  unique_ids Notification._id (notifications db) ->
  In n (notifications db) ->
  Notification.user n = User._id user ->
  let result := deleteNotification cred (Oid (Notification._id n)) db in
  code (fst result) = 200
  /\ findById Notification._id (Notification._id n) (notifications (snd result))
     = None
  /\ (forall m, In m (notifications db) -> m <> n ->
                In m (notifications (snd result)))
  /\ S (List.length (notifications (snd result)))
     = List.length (notifications db).
Proof.
  intros Hauth Huniq Hin Hown result. unfold result, deleteNotification.
  rewrite Hauth, <- Hown, (findOwn_own _ _ Huniq Hin).
  cbn [fst snd code ok notifications set_notifications].
  split; [reflexivity|]. split; [apply findById_deleteOne|]. split.
  - intros m Hm Hne. unfold deleteOne. apply filter_In. split; [exact Hm|].
    apply negb_true_iff, Nat.eqb_neq. intros Heq. apply Hne.
    pose proof (unique_findById _ _ _ _ Huniq Hm) as H1.
    pose proof (unique_findById _ _ _ _ Huniq Hin) as H2.
    rewrite Heq in H1. congruence.
  - apply length_deleteOne; assumption.
Qed.

Lemma deleteNotification_own_witness :
  let result := deleteNotification (TokenFor 2) (Oid 21) threaded in
  code (fst result) = 200
  /\ findById Notification._id 21 (notifications (snd result)) = None
  /\ (forall m, In m (notifications threaded) ->
                m <> Notification.mk 21 2 "comment"
                       "Rahul Sharma commented on your notice"
                       (Some 10) (Some 14) false None 5 ->
                In m (notifications (snd result)))
  /\ S (List.length (notifications (snd result)))
     = List.length (notifications threaded).
Proof.
  apply (deleteNotification_own (TokenFor 2) Seed.faculty1 threaded
           (Notification.mk 21 2 "comment" "Rahul Sharma commented on your notice"
              (Some 10) (Some 14) false None 5)).
  - reflexivity.
  - unfold unique_ids. simpl. nodup_nat.
  - simpl. right. left. reflexivity.
  - reflexivity.
Defined.

Lemma authenticate_inr (cred : Credential) (db : DB) (user : User.t) :
  authenticate cred db = inr user ->
  cred = TokenFor (User._id user)
  /\ findById User._id (User._id user) (users db) = Some user
  /\ User.isActive user = true.
Proof.
  unfold authenticate. destruct cred as [| |uid]; try discriminate.
  destruct (findById User._id uid (users db)) as [u|] eqn:Hfind; [|discriminate].
  destruct (User.isActive u) eqn:Hact; [|discriminate].
  intros H. inversion H. subst u.
  destruct (findById_Some _ _ _ _ _ Hfind) as [_ Hid]. rewrite Hid.
  repeat split; assumption.
Qed.

(** The update of PUT /notifications/read-all on one notification. *)
Lemma markAll_settles (u : ObjectId) (t : Date) (l : list Notification.t) :
  let unread n := (Notification.user n =? u) && negb (Notification.isRead n) in
  let g n := if unread n then Notification.mark_read n t else n in
  filter unread (map g l) = [] /\ (forall t', map (fun n =>
    if unread n then Notification.mark_read n t' else n) (map g l) = map g l).
Proof.
  intros unread g.
  assert (Hg : forall n, unread (g n) = false).
  { intros n. unfold g. destruct (unread n) eqn:E; [|exact E].
    unfold unread. simpl. apply andb_false_r. }
  split.
  - induction l as [|n l IH]; simpl; [reflexivity|]. rewrite Hg. exact IH.
  - intros t'. rewrite map_map. apply map_ext. intros n. rewrite Hg. reflexivity.
Qed.

Lemma markAllRead_unread (ctx : Ctx) (cred : Credential) (user : User.t)
  (db : DB) :
  authenticate cred db = inr user ->
  users (snd (markAllRead ctx cred db)) = users db
  /\ unreadOf (User._id user) (snd (markAllRead ctx cred db)) = [].
Proof.
  intros Hauth. unfold markAllRead. rewrite Hauth. split; [reflexivity|].
  exact (proj1 (markAll_settles (User._id user) (now ctx) (notifications db))).
Qed.

(** X25. After PUT /notifications/read-all the authenticated user has no
    unread notification; the notifications of other users and those already
    read are stored unchanged; and a second request changes nothing more. *)
Theorem markAllRead_settles (ctx ctx2 : Ctx) (cred : Credential) (user : User.t)
  (db : DB) :
  authenticate cred db = inr user ->
  let first := markAllRead ctx cred db in
  code (fst first) = 200
  /\ unreadOf (User._id user) (snd first) = []
  /\ (forall m, In m (notifications db) ->
                Notification.user m <> User._id user
                \/ Notification.isRead m = true ->
                In m (notifications (snd first)))
  /\ List.length (notifications (snd first)) = List.length (notifications db)
  /\ snd (markAllRead ctx2 cred (snd first)) = snd first.
Proof.
  intros Hauth first.
  destruct (markAll_settles (User._id user) (now ctx) (notifications db))
    as [Hnone Hagain].
  assert (Hfirst : first =
    (ok 200 "All notifications marked as read" NoData,
     set_notifications db
       (map (fun n => if (Notification.user n =? User._id user)
                         && negb (Notification.isRead n)
                      then Notification.mark_read n (now ctx) else n)
          (notifications db)))).
  { unfold first, markAllRead. rewrite Hauth. reflexivity. }
  rewrite Hfirst. cbn [fst snd code ok].
  split; [reflexivity|]. split; [exact Hnone|]. split; [|split].
  - intros m Hm Hcase. cbn [notifications set_notifications].
    apply in_map_iff. exists m. split; [|exact Hm].
    destruct Hcase as [H | H].
    + apply Nat.eqb_neq in H. rewrite H. reflexivity.
    + rewrite H. rewrite andb_false_r. reflexivity.
  - cbn [notifications set_notifications]. apply length_map.
  - unfold markAllRead.
    rewrite (authenticate_users cred db (set_notifications db _) eq_refl), Hauth.
    cbn [snd notifications set_notifications].
    rewrite (Hagain (now ctx2)). reflexivity.
Qed.

Lemma markAllRead_settles_witness :
  let first := markAllRead (mkCtx true 50) (TokenFor 2) threaded in
  code (fst first) = 200
  /\ unreadOf 2 (snd first) = []
  /\ (forall m, In m (notifications threaded) ->
                Notification.user m <> 2 \/ Notification.isRead m = true ->
                In m (notifications (snd first)))
  /\ List.length (notifications (snd first)) = List.length (notifications threaded)
  /\ snd (markAllRead (mkCtx true 51) (TokenFor 2) (snd first)) = snd first.
Proof.
  apply (markAllRead_settles (mkCtx true 50) (mkCtx true 51) (TokenFor 2)
           Seed.faculty1 threaded).
  reflexivity.
Defined.

Lemma newerNotification_total (a b : Notification.t) :
  newerNotification a b = true \/ newerNotification b a = true.
Proof. unfold newerNotification. rewrite !Nat.leb_le. lia. Qed.

Lemma newerNotification_trans (a b c : Notification.t) :
  newerNotification a b = true -> newerNotification b c = true ->
  newerNotification a c = true.
Proof. unfold newerNotification. rewrite !Nat.leb_le. lia. Qed.

Lemma length_sortBy (A : Type) (before : A -> A -> bool) (l : list A) :
  List.length (sortBy before l) = List.length l.
Proof.
  induction l as [|x l IH]; simpl; [reflexivity|]. rewrite <- IH.
  generalize (sortBy before l). intros s.
  induction s as [|y s IHs]; simpl; [reflexivity|].
  destruct (before x y); simpl; [reflexivity|]. rewrite IHs. reflexivity.
Qed.

Lemma length_limitTo (A : Type) (k : nat) (l : list A) :
  List.length (limitTo k l) <= List.length l.
Proof.
  unfold limitTo. destruct (k =? 0); [lia | rewrite length_firstn; lia].
Qed.

(** What an answer with a page tells about the page. *)
Lemma listNotifications_page (cred : Credential) (r : NotifReq.t) (db : DB)
  (user : User.t) (page : NotificationPage) :
  authenticate cred db = inr user ->
  snd (listNotifications cred r db) = Some page ->
  fst (listNotifications cred r db) = ok 200 "" NoData
  /\ items page
     = limitTo (match NotifReq.limit r with Some l => l | None => 20 end)
         (skipn ((match NotifReq.page r with Some p => p | None => 1 end - 1)
                 * match NotifReq.limit r with Some l => l | None => 20 end)
            (sortBy newerNotification
               (filter (ownQuery (User._id user) (NotifReq.unreadOnly r))
                  (notifications db))))
  /\ existsb (fun n => populated n db) (items page) = false
  /\ unreadCount page = List.length (unreadOf (User._id user) db)
  /\ total page
     = List.length (filter (ownQuery (User._id user) (NotifReq.unreadOnly r))
                      (notifications db)).
Proof.
  intros Hauth. unfold listNotifications. rewrite Hauth.
  destruct ((_ =? 0) && negb (_ =? 0)); [discriminate|].
  destruct (existsb _ _) eqn:E; [discriminate|].
  cbn [fst snd]. intros H. inversion H. cbn [items unreadCount total].
  repeat split. exact E.
Qed.

(** X26. What GET /notifications answers an authenticated user.  When it
    answers with a page, the answer is 200 and the page holds only stored
    notifications of that user, none of which refers to a stored notice,
    newest first, only unread ones when unreadOnly is the string true, never
    more of them than the total it reports, with an unread count that is the
    number of the user's unread notifications.  And a request without a
    limit (limit 0) is answered 500 as soon as one notification it selects
    refers to a stored notice. *)
Theorem listNotifications_answer (cred : Credential) (r : NotifReq.t) (db : DB)
  (user : User.t) :
  authenticate cred db = inr user ->
  (forall page,
      snd (listNotifications cred r db) = Some page ->
      code (fst (listNotifications cred r db)) = 200
      /\ (forall n, In n (items page) ->
            In n (notifications db)
            /\ Notification.user n = User._id user
            /\ (NotifReq.unreadOnly r = Some "true" ->
                Notification.isRead n = false)
            /\ (forall i, Notification.relatedNotice n = Some i ->
                          findById Notice._id i (notices db) = None))
      /\ StronglySorted
           (fun a b => Notification.createdAt b <= Notification.createdAt a)
           (items page)
      /\ List.length (items page) <= total page
      /\ unreadCount page = List.length (unreadOf (User._id user) db))
  /\ (forall n i notice,
        NotifReq.limit r = Some 0 ->
        In n (notifications db) ->
        Notification.user n = User._id user ->
        (NotifReq.unreadOnly r = Some "true" -> Notification.isRead n = false) ->
        Notification.relatedNotice n = Some i ->
        findById Notice._id i (notices db) = Some notice ->
        listNotifications cred r db
        = (fail 500 "Failed to fetch notifications", None)).
Proof.
  intros Hauth. split.
  - intros page Hpage.
    destruct (listNotifications_page cred r db user page Hauth Hpage)
      as (Hok & Hitems & Hpop & Hcount & Htotal).
    split; [rewrite Hok; reflexivity|]. split; [|split; [|split]].
    + intros n Hin.
      assert (Hnot : populated n db = false).
      { destruct (populated n db) eqn:P; [|reflexivity].
        rewrite <- not_true_iff_false in Hpop. exfalso. apply Hpop.
        apply existsb_exists. exists n. split; assumption. }
      rewrite Hitems in Hin. apply limitTo_In, skipn_In in Hin.
      apply (proj1 (sortBy_In _ newerNotification _ _)) in Hin.
      apply filter_In in Hin. destruct Hin as [Hin Hq].
      unfold ownQuery in Hq. apply andb_true_iff in Hq. destruct Hq as [Hu Hr].
      apply Nat.eqb_eq in Hu. split; [exact Hin|]. split; [exact Hu|]. split.
      * intros Hunread. rewrite Hunread in Hr. simpl in Hr.
        apply negb_true_iff in Hr. exact Hr.
      * intros i Hi. unfold populated in Hnot. rewrite Hi in Hnot.
        destruct (findById Notice._id i (notices db)); [discriminate | reflexivity].
    + rewrite Hitems.
      apply StronglySorted_weaken
        with (R := fun a b => newerNotification a b = true).
      * intros x y Hxy. unfold newerNotification in Hxy.
        apply Nat.leb_le in Hxy. exact Hxy.
      * apply StronglySorted_limitTo, StronglySorted_skipn, sortBy_sorted;
          [exact newerNotification_total | exact newerNotification_trans].
    + rewrite Hitems, Htotal.
      eapply Nat.le_trans; [apply length_limitTo|].
      rewrite length_skipn, length_sortBy. lia.
    + exact Hcount.
  - intros n i notice Hlimit Hin Hu Hr Hi Hfind.
    unfold listNotifications. rewrite Hauth, Hlimit.
    rewrite Nat.mul_0_r. cbn [Nat.eqb negb]. rewrite andb_false_r.
    unfold limitTo. cbn [Nat.eqb skipn].
    assert (Hex : existsb (fun m => populated m db)
                    (sortBy newerNotification
                       (filter (ownQuery (User._id user) (NotifReq.unreadOnly r))
                          (notifications db))) = true).
    { apply existsb_exists. exists n. split.
      - apply sortBy_In, filter_In. split; [exact Hin|].
        unfold ownQuery. rewrite Hu, Nat.eqb_refl. simpl.
        destruct (optStringEqb (NotifReq.unreadOnly r) (Some "true")) eqn:O;
          [|reflexivity].
        rewrite Hr; [reflexivity|].
        destruct (NotifReq.unreadOnly r) as [w|]; [|discriminate].
        simpl in O. apply String.eqb_eq in O. rewrite O. reflexivity.
      - unfold populated. rewrite Hi, Hfind. reflexivity. }
    rewrite Hex. reflexivity.
Qed.

Lemma listNotifications_answer_witness :
  (exists page,
      snd (listNotifications (TokenFor 7) (NotifReq.mk None None None) announced)
      = Some page
      /\ code (fst (listNotifications (TokenFor 7) (NotifReq.mk None None None)
                      announced)) = 200
      /\ List.length (items page) = 1
      /\ unreadCount page = List.length (unreadOf 7 announced))
  /\ listNotifications (TokenFor 5) (NotifReq.mk None (Some 0) None) threaded
     = (fail 500 "Failed to fetch notifications", None).
Proof.
  split.
  - eexists. split; [reflexivity|].
    destruct (listNotifications_answer (TokenFor 7) (NotifReq.mk None None None)
                announced Seed.student2 eq_refl) as [Hpage _].
    destruct (Hpage _ eq_refl) as (Hcode & _ & _ & _ & Hcount).
    split; [exact Hcode|]. split; [reflexivity | exact Hcount].
  - destruct (listNotifications_answer (TokenFor 5)
                (NotifReq.mk None (Some 0) None) threaded Seed.student0 eq_refl)
      as [_ Hfail].
    apply (Hfail (Notification.mk 20 5 "new_notice"
                    "New events notice: Annual Tech Fest" (Some 10) None false
                    None 1) 10 Seed.notice2);
      try reflexivity; try discriminate; simpl; auto.
Defined.

(** X27. Right after PUT /notifications/read-all, GET /notifications for the
    unread ones only (unreadOnly is the string true) is answered 200 with an
    empty page, an unread count of zero and a total of zero, on every page
    that is not the page zero of a positive limit. *)
Theorem read_all_then_list (ctx : Ctx) (cred : Credential) (r : NotifReq.t)
  (db : DB) (user : User.t) :
  authenticate cred db = inr user ->
  NotifReq.unreadOnly r = Some "true" ->
  NotifReq.page r <> Some 0 \/ NotifReq.limit r = Some 0 ->
  listNotifications cred r (snd (markAllRead ctx cred db))
  = (ok 200 "" NoData, Some (mkPage [] 0 0)).
Proof.
  intros Hauth Hunread Hpage.
  destruct (markAllRead_unread ctx cred user db Hauth) as [Husers Hnone].
  assert (Hauth' : authenticate cred (snd (markAllRead ctx cred db)) = inr user)
    by (rewrite <- Hauth; apply authenticate_users; exact Husers).
  unfold listNotifications. rewrite Hauth', Hunread.
  assert (Hguard : (match NotifReq.page r with Some p => p | None => 1 end =? 0)
                   && negb (match NotifReq.limit r with Some l => l | None => 20 end
                            =? 0) = false).
  { destruct Hpage as [Hp | Hl].
    - destruct (NotifReq.page r) as [[|p]|]; [congruence | reflexivity | reflexivity].
    - rewrite Hl. apply andb_false_r. }
  rewrite Hguard.
  assert (Hq : filter (ownQuery (User._id user) (Some "true"))
                 (notifications (snd (markAllRead ctx cred db))) = []).
  { unfold unreadOf in Hnone. rewrite <- Hnone. apply filter_ext.
    intros n. reflexivity. }
  rewrite Hq. fold (unreadOf (User._id user) (snd (markAllRead ctx cred db))).
  rewrite Hnone. cbn [sortBy]. rewrite skipn_nil.
  assert (Hl : forall k, limitTo k (@nil Notification.t) = [])
    by (intros k; unfold limitTo; destruct (k =? 0); [reflexivity | apply firstn_nil]).
  rewrite Hl. reflexivity.
Qed.

Lemma read_all_then_list_witness :
  listNotifications (TokenFor 5) (NotifReq.mk None None (Some "true"))
    (snd (markAllRead (mkCtx true 50) (TokenFor 5) threaded))
  = (ok 200 "" NoData, Some (mkPage [] 0 0)).
Proof.
  apply (read_all_then_list (mkCtx true 50) (TokenFor 5)
           (NotifReq.mk None None (Some "true")) threaded Seed.student0).
  - reflexivity.
  - reflexivity.
  - left. discriminate.
Defined.

(** ** Deleting a user *)

(** X28. DELETE /users/:id by an authenticated user: someone who is not an
    admin is answered 403; an admin who names their own id is answered 400;
    in every case the requester can authenticate afterwards; a deletion
    answered 200 leaves no user under the id, so that its token is refused
    from then on; and the notices, comments and notifications, those of the
    deleted user included, are never touched. *)
Theorem deleteUser_guarded (cred : Credential) (id : IdArg) (db : DB)
  (reqUser : User.t) :
  authenticate cred db = inr reqUser ->
  let result := deleteUser cred id db in
  (User.role reqUser <> "admin" ->
   result = (fail 403 "Access denied. Admin only.", db))
  /\ (User.role reqUser = "admin" -> id = Oid (User._id reqUser) ->
      result = (fail 400 "You cannot delete your own account", db))
  /\ authenticate cred (snd result) = inr reqUser
  /\ (forall i, id = Oid i -> code (fst result) = 200 ->
        findById User._id i (users (snd result)) = None
        /\ forall user, authenticate (TokenFor i) (snd result) <> inr user)
  /\ notices (snd result) = notices db
  /\ comments (snd result) = comments db
  /\ notifications (snd result) = notifications db.
Proof.
  intros Hauth result.
  destruct (authenticate_inr _ _ _ Hauth) as (Hcred & Hself & Hactive).
  unfold result, deleteUser, isAdmin. rewrite Hauth.
  split; [|split; [|split; [|split]]].
  - intros Hrole. apply String.eqb_neq in Hrole. rewrite Hrole. reflexivity.
  - intros Hrole Hid. apply String.eqb_eq in Hrole. rewrite Hrole, Hid, Hself.
    rewrite Nat.eqb_refl. reflexivity.
  - destruct (negb _); [exact Hauth|].
    destruct id as [|i]; [exact Hauth|].
    destruct (findById User._id i (users db)) as [u|] eqn:Hfind; [|exact Hauth].
    destruct (User._id u =? User._id reqUser) eqn:E; [exact Hauth|].
    apply Nat.eqb_neq in E. cbn [snd]. unfold authenticate. rewrite Hcred.
    cbn [users set_users].
    rewrite findById_deleteOne_other by congruence.
    rewrite Hself, Hactive. reflexivity.
  - intros i Hid. subst id.
    destruct (negb _); [discriminate|].
    destruct (findById User._id i (users db)) as [u|] eqn:Hfind; [|discriminate].
    destruct (findById_Some _ _ _ _ _ Hfind) as [_ Hu].
    destruct (User._id u =? User._id reqUser); [discriminate|].
    intros _. cbn [snd users set_users]. rewrite Hu.
    split; [apply findById_deleteOne|].
    intros user. unfold authenticate. cbn [users set_users].
    rewrite findById_deleteOne. discriminate.
  - destruct (negb _); [auto|].
    destruct id as [|i]; [auto|].
    destruct (findById User._id i (users db)) as [u|]; [|auto].
    destruct (User._id u =? User._id reqUser); auto.
Qed.

Lemma deleteUser_guarded_witness :
  let result := deleteUser (TokenFor 1) (Oid 5) threaded in
  authenticate (TokenFor 1) (snd result) = inr Seed.admin
  /\ findById User._id 5 (users (snd result)) = None
  /\ comments (snd result) = comments threaded.
Proof.
  intros result.
  destruct (deleteUser_guarded (TokenFor 1) (Oid 5) threaded Seed.admin eq_refl)
    as (_ & _ & Hstill & Hgone & _ & Hcs & _).
  split; [exact Hstill|]. split; [|exact Hcs].
  destruct (Hgone 5 eq_refl eq_refl) as [H _]. exact H.
Defined.

(** ** Listing the comments of a notice *)

Lemma populateReplies_In (c r : Comment.t) (db : DB) :
  In r (populateReplies c db) ->
  In r (comments db) /\ In (Comment._id r) (Comment.replies c).
Proof.
  unfold populateReplies. rewrite in_flat_map. intros [j [Hj Hr]].
  destruct (findById Comment._id j (comments db)) as [x|] eqn:Hfind;
    [|contradiction].
  destruct Hr as [Hr | []]. subst x.
  apply findById_Some in Hfind. destruct Hfind as [Hin Hid].
  rewrite Hid. auto.
Qed.

(** X29. GET /comments/notice/:noticeId answers with exactly the stored
    comments of the notice that have no parent, newest first; the replies
    shown under a comment are stored comments whose ids are in its reply
    list. *)
Theorem getComments_answer (i : ObjectId) (db : DB) :
  let result := getComments (Oid i) db in
  code (fst result) = 200
  /\ (forall c, In c (map fst (snd result)) <->
                In c (comments db) /\ Comment.notice c = i
                /\ Comment.parentComment c = None)
  /\ StronglySorted
       (fun a b => Comment.createdAt b <= Comment.createdAt a)
       (map fst (snd result))
  /\ (forall c replies r,
        In (c, replies) (snd result) -> In r replies ->
        In r (comments db) /\ In (Comment._id r) (Comment.replies c)).
Proof.
  intros result. unfold result, getComments. cbn [fst snd code ok].
  split; [reflexivity|]. rewrite map_map. cbn [fst]. rewrite map_id.
  split; [|split].
  - intros c. rewrite sortBy_In, filter_In, andb_true_iff, Nat.eqb_eq.
    unfold isNull. destruct (Comment.parentComment c); intuition congruence.
  - apply StronglySorted_weaken with (R := fun a b => newerComment a b = true).
    + intros x y H. unfold newerComment in H. apply Nat.leb_le in H. exact H.
    + apply sortBy_sorted; [exact newerComment_total | exact newerComment_trans].
  - intros c replies r Hin Hr. apply in_map_iff in Hin.
    destruct Hin as [c' [Hc _]]. inversion Hc. subst c' replies.
    apply populateReplies_In. exact Hr.
Qed.
